(** * Python samples for managed cloud services: a shallow embedding

    The development covers
      - [dataproc/submit_job_to_cluster.py]  (modules [Dataproc],
        [DataprocRun]),
      - [genappbuilder/poll_operation_sample.py]  (modules [PollOperation],
        [PollSleep]),
      - [servicedirectory/snippets.py]  (modules [ServiceDirectory],
        [ServiceDirectoryLookup]),
      - [jobs/cjd_sample/histogram_sample.py]  (module [Histogram]),
      - the import structure of the 26 source files  (modules [Repository],
        [Reach]).

    The statements about these come after the definitions, in the
    modules whose names end in [Facts].

    Every sample is a sequence of calls into a client library.  A call is
    an effect: it is appended to a trace, and its answer is read from an
    environment that fixes, for the k-th library call of a run, what the
    library answers (a value, or a raised exception).  Loops without a
    bound are given fuel; a run that exhausts its fuel has no result. *)

From Stdlib Require Import String Ascii List ZArith Lia Bool Arith DecimalString.
Import ListNotations.

Local Open Scope string_scope.
Local Open Scope list_scope.

(* ================================================================== *)
(** ** Python values, exceptions and outcomes *)

Module Py.

(** The values a caller can pass where the samples expect a string.
    A [bytes] value is given by its bytes, one character each. *)
Inductive PyVal : Type :=
| PyStr (s : string)
| PyBytes (b : string)
| PyNone
| PyInt (z : Z).

Fixpoint occurs (c : ascii) (s : string) : bool :=
  match s with
  | EmptyString => false
  | String a rest => Ascii.eqb a c || occurs c rest
  end.

(** *** [repr] of a [bytes] value *)

Definition apostrophe : ascii := ascii_of_nat 39.
Definition double_quote : ascii := ascii_of_nat 34.
Definition backslash : ascii := ascii_of_nat 92.

Definition hex_digit (n : nat) : ascii :=
  nth n (list_ascii_of_string "0123456789abcdef") "0"%char.

(** One byte between the quotes: the quote and the backslash are
    escaped, tab, newline and carriage return have their letter, and
    every other byte outside the printable ASCII range is [\xNN]. *)
Definition repr_byte (quote c : ascii) : string :=
  let n := nat_of_ascii c in
  if Ascii.eqb c quote || Ascii.eqb c backslash then
    String backslash (String c EmptyString)
  else if (n =? 9)%nat then String backslash "t"
  else if (n =? 10)%nat then String backslash "n"
  else if (n =? 13)%nat then String backslash "r"
  else if (n <? 32)%nat || (127 <=? n)%nat then
    String backslash
      (String "x"%char
         (String (hex_digit (n / 16)) (String (hex_digit (n mod 16)) EmptyString)))
  else String c EmptyString.

Fixpoint repr_bytes (quote : ascii) (b : string) : string :=
  match b with
  | EmptyString => EmptyString
  | String c rest => repr_byte quote c ++ repr_bytes quote rest
  end.

(** [b'...']; double quotes are used when the bytes hold an apostrophe
    and no double quote. *)
Definition bytes_repr (b : string) : string :=
  let quote :=
    if occurs apostrophe b && negb (occurs double_quote b) then double_quote
    else apostrophe in
  String "b"%char (String quote (repr_bytes quote b ++ String quote EmptyString)).

(** [str(v)], as [str.format] applies it to an argument; for [bytes]
    it is [repr(v)]. *)
Definition py_str (v : PyVal) : string :=
  match v with
  | PyStr s => s
  | PyBytes b => bytes_repr b
  | PyNone => "None"
  | PyInt z => NilEmpty.string_of_int (Z.to_int z)
  end.

(** The exception classes that occur.  [Exception_] is the bare
    [Exception] class; [LibraryError] stands for whatever a client
    library call or a file operation raises. *)
Inductive exn : Type :=
| Exception_ (arg : string)
| ValueError (msg : string)
| TypeError (msg : string)
| AttributeError (msg : string)
| IndexError (msg : string)
| UnboundLocalError (name : string)
| LibraryError (what : string).

Inductive outcome (A : Type) : Type :=
| Ret (a : A)
| Raise (e : exn).
Arguments Ret {A} a.
Arguments Raise {A} e.

(** [try: body  except handled: handler] on pure computations. *)
Definition try_except {A} (body : outcome A) (handler : exn -> option (outcome A))
  : outcome A :=
  match body with
  | Ret a => Ret a
  | Raise e => match handler e with
               | Some o => o
               | None => Raise e
               end
  end.

(** *** [str.split(sep)] for a one-character separator, [sep.join] and [l[:-1]] *)

Fixpoint split (sep : ascii) (s : string) : list string :=
  match s with
  | EmptyString => [EmptyString]
  | String c rest =>
      if Ascii.eqb c sep then EmptyString :: split sep rest
      else match split sep rest with
           | [] => [String c EmptyString]
           | w :: ws => String c w :: ws
           end
  end.

Definition join (sep : string) (l : list string) : string := String.concat sep l.

Definition but_last {A} (l : list A) : list A := removelast l.

(** [v.split(sep)] for a separator that is a [str]: [None] and [int]
    have no such attribute, and [bytes.split] refuses a [str]
    separator. *)
Definition py_split (v : PyVal) (sep : ascii) : outcome (list string) :=
  match v with
  | PyStr s => Ret (split sep s)
  | PyBytes _ => Raise (TypeError "a bytes-like object is required, not 'str'")
  | PyNone => Raise (AttributeError "'NoneType' object has no attribute 'split'")
  | PyInt _ => Raise (AttributeError "'int' object has no attribute 'split'")
  end.

End Py.
Import Py.

(* ================================================================== *)
(** ** Effects: traces, the library-call clock, fuel *)

Section Effects.

(** [C] is the type of library calls of one sample. *)
Context {C : Type}.

Inductive Effect : Type :=
| Print (text : string)
| Sleep (seconds : Z)
| Sdk (c : C).

(** [clock] counts the library calls made so far: the next call is
    answered by the environment at index [clock]. *)
Record World : Type := mkWorld { clock : nat; trace : list Effect }.

(** [None]: the run is still going when the fuel is spent. *)
Definition M (A : Type) : Type := World -> option (outcome A * World).

Definition ret {A} (a : A) : M A := fun w => Some (Ret a, w).
Definition raise {A} (e : exn) : M A := fun w => Some (Raise e, w).
Definition diverge {A} : M A := fun _ => None.

Definition bind {A B} (m : M A) (k : A -> M B) : M B :=
  fun w => match m w with
           | None => None
           | Some (Ret a, w') => k a w'
           | Some (Raise e, w') => Some (Raise e, w')
           end.

Definition lift {A} (o : outcome A) : M A := fun w => Some (o, w).

(** A local effect: it is logged and the run goes on, nothing is
    asked of the environment.  Printing and sleeping are local; so is
    building the one client object of a sample that makes its calls
    through it. *)
Definition emit (e : Effect) : M unit :=
  fun w => Some (Ret tt, mkWorld (clock w) (trace w ++ [e])).

(** A library call: logged, answered by [answer] at the current clock. *)
Definition call {A} (c : C) (answer : nat -> outcome A) : M A :=
  fun w => Some (answer (clock w), mkWorld (S (clock w)) (trace w ++ [Sdk c])).

(** [try: body  finally: fin].  The [finally] suite always runs; an
    exception it raises replaces the pending outcome. *)
Definition try_finally {A} (body : M A) (fin : M unit) : M A :=
  fun w => match body w with
           | None => None
           | Some (r, w1) =>
               match fin w1 with
               | None => None
               | Some (Ret _, w2) => Some (r, w2)
               | Some (Raise e, w2) => Some (Raise e, w2)
               end
           end.

(** [try: x = first; rest(x)  finally: fin], where the [finally] suite
    reads the local [x]: it is unbound there when [first] raised. *)
Definition try_bind_finally {A B} (first : M A) (rest : A -> M B)
  (fin : option A -> M unit) : M B :=
  fun w => match first w with
           | None => None
           | Some (Ret a, w1) => try_finally (rest a) (fin (Some a)) w1
           | Some (Raise e, w1) => try_finally (raise e) (fin None) w1
           end.

Definition sdk_calls (t : list Effect) : list C :=
  flat_map (fun e => match e with Sdk c => [c] | _ => [] end) t.

(** [w] after [calls] more library calls and the effects [evs]. *)
Definition after (w : World) (calls : nat) (evs : list Effect) : World :=
  mkWorld (clock w + calls) (trace w ++ evs).

(** A run that is given fuel halts from [w]: some fuel is enough. *)
Definition halts {A} (run : nat -> M A) (w : World) : Prop :=
  exists fuel r w', run fuel w = Some (r, w').

(** [m] only appends to the trace, and only effects in [P]. *)
Definition emits {A} (P : Effect -> Prop) (m : M A) : Prop :=
  forall w r w', m w = Some (r, w') ->
    exists calls evs, w' = after w calls evs /\ Forall P evs.

(** [m] ticks the clock once for each library call it logs. *)
Definition paced {A} (m : M A) : Prop :=
  forall w r w', m w = Some (r, w') ->
    exists evs, w' = after w (length (sdk_calls evs)) evs.

End Effects.

Arguments Effect C : clear implicits.
Arguments World C : clear implicits.
Arguments M C A : clear implicits.

Declare Scope py_scope.
Delimit Scope py_scope with py.
Notation "x <- m ;; k" := (bind m (fun x => k))
  (at level 61, m at next level, right associativity) : py_scope.
Notation "m ;; k" := (bind m (fun _ => k))
  (at level 61, right associativity) : py_scope.
Local Open Scope py_scope.

(* ================================================================== *)
(** ** dataproc/submit_job_to_cluster.py *)

Module Dataproc.

Definition DEFAULT_FILENAME : string := "pyspark_sort.py".

Definition hyphen : ascii := "-"%char.

(** [get_region_from_zone(zone)] *)
Definition get_region_from_zone (zone : PyVal) : outcome string :=
  try_except
    (match py_split zone hyphen with
     | Ret parts => let region_as_list := but_last parts in
                    Ret (join "-" region_as_list)
     | Raise e => Raise e
     end)
    (fun e => match e with
              | AttributeError _ | IndexError _ | ValueError _ =>
                  Some (Raise (ValueError "Invalid zone provided, please check your input."))
              | _ => None
              end).

(** *** Messages of the Dataproc API the sample reads *)

(** The field [status.state] of a cluster and of a job.  It holds a
    number; the [State] enum of the client library names the numbers it
    knows.  [CS_unrecognized n] and [JS_unrecognized n] are a field that
    holds a number [n] the enum has no name for (a state the service
    reports and the installed library does not know). *)
Inductive ClusterState : Type :=
| CS_UNKNOWN | CS_CREATING | CS_RUNNING | CS_ERROR | CS_DELETING | CS_UPDATING
| CS_unrecognized (number : Z).

Inductive JobState : Type :=
| JS_STATE_UNSPECIFIED | JS_PENDING | JS_SETUP_DONE | JS_RUNNING
| JS_CANCEL_PENDING | JS_CANCEL_STARTED | JS_CANCELLED | JS_DONE
| JS_ERROR | JS_ATTEMPT_FAILURE
| JS_unrecognized (number : Z).

(** What [State.Name] raises for a number without a name. *)
Definition no_name (number : Z) : exn :=
  ValueError ("Enum State has no name defined for value " ++ py_str (PyInt number)).

(** [cluster.status.State.Name(cluster.status.state)] *)
Definition ClusterState_Name (s : ClusterState) : outcome string :=
  match s with
  | CS_UNKNOWN => Ret "UNKNOWN"
  | CS_CREATING => Ret "CREATING"
  | CS_RUNNING => Ret "RUNNING"
  | CS_ERROR => Ret "ERROR"
  | CS_DELETING => Ret "DELETING"
  | CS_UPDATING => Ret "UPDATING"
  | CS_unrecognized number => Raise (no_name number)
  end.

(** [job.status.State.Name(job.status.state)] *)
Definition JobState_Name (s : JobState) : outcome string :=
  match s with
  | JS_STATE_UNSPECIFIED => Ret "STATE_UNSPECIFIED"
  | JS_PENDING => Ret "PENDING"
  | JS_SETUP_DONE => Ret "SETUP_DONE"
  | JS_RUNNING => Ret "RUNNING"
  | JS_CANCEL_PENDING => Ret "CANCEL_PENDING"
  | JS_CANCEL_STARTED => Ret "CANCEL_STARTED"
  | JS_CANCELLED => Ret "CANCELLED"
  | JS_DONE => Ret "DONE"
  | JS_ERROR => Ret "ERROR"
  | JS_ATTEMPT_FAILURE => Ret "ATTEMPT_FAILURE"
  | JS_unrecognized number => Raise (no_name number)
  end.

Record Cluster : Type := mkCluster {
  cluster_name : string;
  cluster_uuid : string;
  cluster_state : ClusterState;      (* cluster.status.state *)
  cluster_detail : string;           (* cluster.status.detail *)
  config_bucket : string             (* cluster.config.config_bucket *)
}.

Record Job : Type := mkJob {
  job_id : string;                   (* job.reference.job_id *)
  job_state : JobState;              (* job.status.state *)
  job_details : string               (* job.status.details *)
}.

(** The long-running operation handle a create or delete call returns. *)
Definition Operation : Type := string.

(** The [cluster_data] dictionary of [create_cluster]. *)
Record InstanceGroup : Type := mkGroup {
  num_instances : Z;
  machine_type_uri : string
}.

Record ClusterData : Type := mkClusterData {
  cd_project_id : string;
  cd_cluster_name : string;
  cd_zone_uri : string;              (* config.gce_cluster_config.zone_uri *)
  cd_master_config : InstanceGroup;
  cd_worker_config : InstanceGroup
}.

(** The [job_details] dictionary of [submit_pyspark_job]. *)
Record JobDetails : Type := mkJobDetails {
  placement_cluster_name : string;
  main_python_file_uri : string
}.

(** *** Library calls.  An open file is named by its path; building a
    transport or a client object is a library call like the others, and
    can raise like them. *)
Inductive Call : Type :=
| file_open (path : string)
| file_close (path : string)
| ClusterControllerGrpcTransport (address : string)
| JobControllerGrpcTransport (address : string)
| ClusterControllerClient (transport : string)
| JobControllerClient (transport : string)
| storage_Client (project : string)
| storage_get_bucket (bucket_name : string)
| blob_upload_from_file (bucket blob file : string)
| blob_download_as_string (bucket blob : string)
| rpc_create_cluster (project region : string) (cluster_data : ClusterData)
| rpc_list_clusters (project region : string)
| rpc_submit_job (project region : string) (job : JobDetails)
| rpc_get_job (project region job_id : string)
| rpc_delete_cluster (project region cluster_name : string).

(** The calls that go to a cloud service; the others build a client
    object or open and close a local file. *)
Definition is_rpc (c : Call) : bool :=
  match c with
  | storage_get_bucket _ | blob_upload_from_file _ _ _
  | blob_download_as_string _ _ | rpc_create_cluster _ _ _
  | rpc_list_clusters _ _ | rpc_submit_job _ _ _ | rpc_get_job _ _ _
  | rpc_delete_cluster _ _ _ => true
  | _ => false
  end.

Definition rpcs (t : list (Effect Call)) : list Call := filter is_rpc (sdk_calls t).

(** What the world outside the sample answers.  Each [_answer] field
    is indexed by the clock: the answer to the k-th library call of
    the run, should that call be of this kind. *)
Record Env : Type := mkEnv {
  current_dir : string;        (* os.path.dirname(os.path.abspath(__file__)) *)
  os_path_join : string -> string -> string;
  os_path_basename : string -> string;
  format_bytes : string -> string;      (* '{}'.format(b) for a bytes value *)
  open_answer : nat -> outcome unit;
  close_answer : nat -> outcome unit;
  cluster_transport_answer : nat -> outcome unit;
  job_transport_answer : nat -> outcome unit;
  cluster_client_answer : nat -> outcome unit;
  job_client_answer : nat -> outcome unit;
  storage_client_answer : nat -> outcome unit;
  get_bucket_answer : nat -> outcome unit;
  upload_answer : nat -> outcome unit;
  download_answer : nat -> outcome string;
  create_cluster_answer : nat -> outcome Operation;
  list_clusters_answer : nat -> outcome (list Cluster);
  submit_job_answer : nat -> outcome Job;
  get_job_answer : nat -> outcome Job;
  delete_cluster_answer : nat -> outcome Operation
}.

Section Program.

Variable env : Env.

(** [get_default_pyspark_file()] *)
Definition get_default_pyspark_file : M Call (string * string) :=
  let path := os_path_join env (current_dir env) DEFAULT_FILENAME in
  call (file_open path) (open_answer env) ;;
  ret (path, DEFAULT_FILENAME).

(** [get_pyspark_file(filename)] *)
Definition get_pyspark_file (filename : string) : M Call (string * string) :=
  call (file_open filename) (open_answer env) ;;
  ret (filename, os_path_basename env filename).

(** [upload_pyspark_file(project, bucket_name, filename, spark_file)] *)
Definition upload_pyspark_file (project bucket_name filename spark_file : string)
  : M Call unit :=
  emit (Print "Uploading pyspark file to GCS.") ;;
  call (storage_Client project) (storage_client_answer env) ;;
  call (storage_get_bucket bucket_name) (get_bucket_answer env) ;;
  call (blob_upload_from_file bucket_name filename spark_file) (upload_answer env).

(** [download_output(project, cluster_id, output_bucket, job_id)] *)
Definition download_output (project cluster_id output_bucket job_id : string)
  : M Call string :=
  emit (Print "Downloading output file.") ;;
  call (storage_Client project) (storage_client_answer env) ;;
  call (storage_get_bucket output_bucket) (get_bucket_answer env) ;;
  let output_blob :=
    ("google-cloud-dataproc-metainfo/" ++ cluster_id ++ "/jobs/" ++ job_id
       ++ "/driveroutput.000000000")%string in
  call (blob_download_as_string output_bucket output_blob) (download_answer env).

(** [create_cluster(dataproc, project, zone, region, cluster_name)] *)
Definition create_cluster (project : string) (zone : PyVal) (region cluster_name : string)
  : M Call Operation :=
  emit (Print "Creating cluster...") ;;
  let zone_uri :=
    ("https://www.googleapis.com/compute/v1/projects/" ++ project ++ "/zones/"
       ++ py_str zone)%string in
  let cluster_data :=
    mkClusterData project cluster_name zone_uri
      (mkGroup 1 "n1-standard-1") (mkGroup 2 "n1-standard-1") in
  cluster <- call (rpc_create_cluster project region cluster_data)
                  (create_cluster_answer env) ;;
  ret cluster.

(** The [for cluster in ...] suite of [wait_for_cluster_creation];
    the result is the value of [wait] when the [for] is left. *)
Fixpoint scan_clusters (name : string) (clusters : list Cluster) : M Call bool :=
  match clusters with
  | [] => ret true
  | cluster :: rest =>
      if (cluster_name cluster =? name)%string then
        state_name <- lift (ClusterState_Name (cluster_state cluster)) ;;
        if (state_name =? "ERROR")%string then
          raise (Exception_ (cluster_detail cluster))
        else
          state_name <- lift (ClusterState_Name (cluster_state cluster)) ;;
          if (state_name =? "RUNNING")%string then
            emit (Print "Cluster created.") ;;
            ret false
          else scan_clusters name rest
      else scan_clusters name rest
  end.

(** [while wait: ...] *)
Fixpoint wait_for_cluster_loop (fuel : nat) (project region name : string) : M Call unit :=
  match fuel with
  | O => diverge
  | S fuel' =>
      clusters <- call (rpc_list_clusters project region) (list_clusters_answer env) ;;
      wait <- scan_clusters name clusters ;;
      if wait then wait_for_cluster_loop fuel' project region name else ret tt
  end.

(** [wait_for_cluster_creation(dataproc, project, region, cluster_name)] *)
Definition wait_for_cluster_creation (fuel : nat) (project region name : string)
  : M Call unit :=
  emit (Print "Waiting for cluster creation...") ;;
  wait_for_cluster_loop fuel project region name.

Fixpoint print_clusters (clusters : list Cluster) : M Call unit :=
  match clusters with
  | [] => ret tt
  | cluster :: rest =>
      state_name <- lift (ClusterState_Name (cluster_state cluster)) ;;
      emit (Print (cluster_name cluster ++ " - " ++ state_name)%string) ;;
      print_clusters rest
  end.

(** [list_clusters_with_details(dataproc, project, region)] *)
Definition list_clusters_with_details (project region : string) : M Call unit :=
  clusters <- call (rpc_list_clusters project region) (list_clusters_answer env) ;;
  print_clusters clusters.

(** The [for] of [get_cluster_id_by_name]; [None] is Python's [None],
    returned when the loop falls through. *)
Fixpoint first_cluster_named (name : string) (clusters : list Cluster)
  : option (string * string) :=
  match clusters with
  | [] => None
  | cluster :: rest =>
      if (cluster_name cluster =? name)%string
      then Some (cluster_uuid cluster, config_bucket cluster)
      else first_cluster_named name rest
  end.

(** [get_cluster_id_by_name(dataproc, project_id, region, cluster_name)] *)
Definition get_cluster_id_by_name (project_id region name : string)
  : M Call (option (string * string)) :=
  clusters <- call (rpc_list_clusters project_id region) (list_clusters_answer env) ;;
  ret (first_cluster_named name clusters).

(** [submit_pyspark_job(dataproc, project, region, cluster_name, bucket_name, filename)] *)
Definition submit_pyspark_job (project region name bucket_name filename : string)
  : M Call string :=
  let job_details :=
    mkJobDetails name ("gs://" ++ bucket_name ++ "/" ++ filename)%string in
  result <- call (rpc_submit_job project region job_details) (submit_job_answer env) ;;
  let job_id := job_id result in
  emit (Print ("Submitted job ID " ++ job_id ++ ".")%string) ;;
  ret job_id.

(** [delete_cluster(dataproc, project, region, cluster)] *)
Definition delete_cluster (project region cluster : string) : M Call Operation :=
  emit (Print "Tearing down cluster.") ;;
  result <- call (rpc_delete_cluster project region cluster) (delete_cluster_answer env) ;;
  ret result.

(** [while True: ...] of [wait_for_job] *)
Fixpoint wait_for_job_loop (fuel : nat) (project region id : string) : M Call Job :=
  match fuel with
  | O => diverge
  | S fuel' =>
      job <- call (rpc_get_job project region id) (get_job_answer env) ;;
      state_name <- lift (JobState_Name (job_state job)) ;;
      if (state_name =? "ERROR")%string then
        raise (Exception_ (job_details job))
      else
        state_name <- lift (JobState_Name (job_state job)) ;;
        if (state_name =? "DONE")%string then
          emit (Print "Job finished.") ;;
          ret job
        else wait_for_job_loop fuel' project region id
  end.

(** [wait_for_job(dataproc, project, region, job_id)] *)
Definition wait_for_job (fuel : nat) (project region id : string) : M Call Job :=
  emit (Print "Waiting for job to finish...") ;;
  wait_for_job_loop fuel project region id.

(** The region and the two clients of [main] (the lines before its
    [try]); a transport is named by its address. *)
Definition main_get_client (zone : PyVal) (global_region : bool) : M Call string :=
  if global_region then
    let region := "global" in
    let client_transport := "" in
    let job_transport := "" in
    call (ClusterControllerClient client_transport) (cluster_client_answer env) ;;
    call (JobControllerClient job_transport) (job_client_answer env) ;;
    ret region
  else
    region <- lift (get_region_from_zone zone) ;;
    let client_transport := (region ++ "-dataproc.googleapis.com:443")%string in
    call (ClusterControllerGrpcTransport client_transport)
         (cluster_transport_answer env) ;;
    let job_transport := (region ++ "-dataproc.googleapis.com:443")%string in
    call (JobControllerGrpcTransport job_transport) (job_transport_answer env) ;;
    call (ClusterControllerClient client_transport) (cluster_client_answer env) ;;
    call (JobControllerClient job_transport) (job_client_answer env) ;;
    ret region.

(** [if pyspark_file: ... else: ...]; [None] and [''] are falsy. *)
Definition main_open (pyspark_file : option string) : M Call (string * string) :=
  match pyspark_file with
  | Some filename =>
      if (filename =? "")%string then get_default_pyspark_file
      else get_pyspark_file filename
  | None => get_default_pyspark_file
  end.

(** The suite under [if create_new_cluster:] at the head of the [try]. *)
Definition new_cluster_steps (fuel : nat) (project_id : string) (zone : PyVal)
  (name : string) (create_new_cluster : bool) (region : string) : M Call unit :=
  if create_new_cluster then
    create_cluster project_id zone region name ;;
    wait_for_cluster_creation fuel project_id region name
  else ret tt.

(** The [try] suite of [main] after the file is open. *)
Definition main_try (fuel : nat) (project_id : string) (zone : PyVal)
  (name bucket_name : string) (create_new_cluster : bool) (region : string)
  (spark : string * string) : M Call string :=
  let '(spark_file, spark_filename) := spark in
  new_cluster_steps fuel project_id zone name create_new_cluster region ;;
  upload_pyspark_file project_id bucket_name spark_filename spark_file ;;
  list_clusters_with_details project_id region ;;
  ids <- get_cluster_id_by_name project_id region name ;;
  match ids with
  | None => raise (TypeError "cannot unpack non-iterable NoneType object")
  | Some (cluster_id, output_bucket) =>
      job_id <- submit_pyspark_job project_id region name bucket_name spark_filename ;;
      wait_for_job fuel project_id region job_id ;;
      output <- download_output project_id cluster_id output_bucket job_id ;;
      emit (Print ("Received job output " ++ format_bytes env output)%string) ;;
      ret output
  end.

(** The [finally] suite of [main]. *)
Definition main_finally (project_id name : string) (create_new_cluster : bool)
  (region : string) (spark : option (string * string)) : M Call unit :=
  if create_new_cluster then
    delete_cluster project_id region name ;;
    match spark with
    | Some (spark_file, _) => call (file_close spark_file) (close_answer env)
    | None => raise (UnboundLocalError "spark_file")
    end
  else ret tt.

(** [main(project_id, zone, cluster_name, bucket_name, pyspark_file,
          create_new_cluster, global_region)] *)
Definition main (fuel : nat) (project_id : string) (zone : PyVal)
  (name bucket_name : string) (pyspark_file : option string)
  (create_new_cluster global_region : bool) : M Call string :=
  region <- main_get_client zone global_region ;;
  try_bind_finally
    (main_open pyspark_file)
    (main_try fuel project_id zone name bucket_name create_new_cluster region)
    (main_finally project_id name create_new_cluster region).

(** The steps of [main] as the specification lists them: create,
    wait, upload, submit, wait, download.  [cluster_id] and
    [output_bucket] have no source in this list and are taken as
    given. *)
Definition main_steps_as_specified (fuel : nat) (project_id : string) (zone : PyVal)
  (name bucket_name : string) (create_new_cluster : bool)
  (region spark_file spark_filename cluster_id output_bucket : string)
  : M Call string :=
  new_cluster_steps fuel project_id zone name create_new_cluster region ;;
  upload_pyspark_file project_id bucket_name spark_filename spark_file ;;
  job_id <- submit_pyspark_job project_id region name bucket_name spark_filename ;;
  wait_for_job fuel project_id region job_id ;;
  download_output project_id cluster_id output_bucket job_id.

End Program.

(** *** Vocabulary for the statements *)

(** A state at which a wait that goes on until [final] stops: its name
    is ERROR or [final], or it has no name, and [State.Name] raises. *)
Definition stops_at (final : string) (state_name : outcome string) : bool :=
  match state_name with
  | Ret s => (s =? "ERROR")%string || (s =? final)%string
  | Raise _ => true
  end.

(** A listing settles the wait for [name]: it holds a cluster of that
    name at whose state the wait stops.  A listing that does not is
    passed over, and the next poll follows. *)
Definition settling (name : string) (c : Cluster) : bool :=
  (cluster_name c =? name)%string
  && stops_at "RUNNING" (ClusterState_Name (cluster_state c)).

Definition settles (name : string) (clusters : list Cluster) : bool :=
  existsb (settling name) clusters.

(** What the wait ends in at the cluster that settles it, and what it
    prints then. *)
Definition cluster_verdict (c : Cluster) : outcome unit * list (Effect Call) :=
  match ClusterState_Name (cluster_state c) with
  | Raise e => (Raise e, [])
  | Ret s =>
      if (s =? "ERROR")%string then (Raise (Exception_ (cluster_detail c)), [])
      else (Ret tt, [Print "Cluster created."])
  end.

(** What [n] polls leave in the trace: the announcement, then the
    calls back to back. *)
Definition cluster_polls (project region : string) (n : nat) : list (Effect Call) :=
  Print "Waiting for cluster creation..."
    :: repeat (Sdk (rpc_list_clusters project region)) n.

Definition job_polls (project region id : string) (n : nat) : list (Effect Call) :=
  Print "Waiting for job to finish..."
    :: repeat (Sdk (rpc_get_job project region id)) n.

(** The effects of the [finally] suite of [main]. *)
Definition is_cleanup (e : Effect Call) : bool :=
  match e with
  | Sdk (rpc_delete_cluster _ _ _) | Sdk (file_close _) => true
  | _ => false
  end.

Definition quiet (e : Effect Call) : Prop := is_cleanup e = false.

(** A polled job at which the wait stops; any other is passed over,
    and the next poll follows. *)
Definition finished (job : Job) : bool :=
  stops_at "DONE" (JobState_Name (job_state job)).

Definition job_verdict (job : Job) : outcome Job * list (Effect Call) :=
  match JobState_Name (job_state job) with
  | Raise e => (Raise e, [])
  | Ret s =>
      if (s =? "ERROR")%string then (Raise (Exception_ (job_details job)), [])
      else (Ret job, [Print "Job finished."])
  end.

(** The answer to a poll ends the wait: the call raised, or what it
    returned settles the wait. *)
Definition cluster_poll_ends (name : string) (answer : outcome (list Cluster)) : bool :=
  match answer with
  | Ret clusters => settles name clusters
  | Raise _ => true
  end.

Definition job_poll_ends (answer : outcome Job) : bool :=
  match answer with
  | Ret job => finished job
  | Raise _ => true
  end.

(** The words of the specification for what ends a wait: the polled
    cluster reports state RUNNING or ERROR, the polled job DONE or
    ERROR. *)
Definition reports_running_or_error (name : string) (clusters : list Cluster) : bool :=
  existsb (fun c => (cluster_name c =? name)%string
                    && match cluster_state c with
                       | CS_RUNNING | CS_ERROR => true
                       | _ => false
                       end) clusters.

Definition reports_done_or_error (job : Job) : bool :=
  match job_state job with
  | JS_DONE | JS_ERROR => true
  | _ => false
  end.

End Dataproc.

(* ================================================================== *)
(** ** genappbuilder/poll_operation_sample.py *)

Module PollOperation.

(** [google.longrunning.Operation], as far as the sample reads it. *)
Record Operation : Type := mkOperation {
  name : string;
  done : bool
}.

Inductive Call : Type :=
| DocumentServiceClient
| get_operation (request_name : string).

Record Env : Type := mkEnv {
  str_operation : Operation -> string;      (* str(operation), as print shows it *)
  get_operation_answer : nat -> outcome Operation
}.

Section Program.

Variable env : Env.

(** [while True: ...] *)
Fixpoint poll_loop (fuel : nat) (request : string) : M Call unit :=
  match fuel with
  | O => diverge
  | S fuel' =>
      operation <- call (get_operation request) (get_operation_answer env) ;;
      emit (Print (str_operation env operation)) ;;
      if done operation then ret tt
      else
        emit (Sleep 10) ;;
        poll_loop fuel' request
  end.

(** [poll_operation_sample(operation_name)] *)
Definition poll_operation_sample (fuel : nat) (operation_name : string) : M Call unit :=
  emit (Sdk DocumentServiceClient) ;;
  let request := operation_name in
  poll_loop fuel request.

End Program.

(** What one poll that is not the last leaves in the trace. *)
Definition pending_round (env : Env) (operation_name : string) (op : Operation)
  : list (Effect Call) :=
  [Sdk (get_operation operation_name); Print (str_operation env op); Sleep 10].

Definition is_poll (e : Effect Call) : bool :=
  match e with Sdk (get_operation _) => true | _ => false end.

End PollOperation.

(* ================================================================== *)
(** ** servicedirectory/snippets.py *)

Module ServiceDirectory.

Record Namespace : Type := mkNamespace { namespace_name : string }.
Record Service : Type := mkService { service_name : string }.
Record Endpoint : Type := mkEndpoint {
  endpoint_name : string;
  address : string;
  port : Z
}.



Inductive Call : Type :=
| RegistrationServiceClient
| rpc_create_namespace (parent : string) (namespace : Namespace) (namespace_id : string)
| rpc_create_service (parent : string) (service : Service) (service_id : string)
| rpc_create_endpoint (parent : string) (endpoint : Endpoint) (endpoint_id : string).

Definition is_rpc (c : Call) : bool :=
  match c with RegistrationServiceClient => false | _ => true end.

Record Env : Type := mkEnv {
  create_namespace_answer : nat -> outcome Namespace;
  create_service_answer : nat -> outcome Service;
  create_endpoint_answer : nat -> outcome Endpoint
}.

Section Program.

Variable env : Env.




End Program.


End ServiceDirectory.

(* ================================================================== *)
(** ** The source files and what they import *)

Module Repository.













End Repository.

(* ================================================================== *)
(** ** Concrete environments *)

Module Scenario.

Import Dataproc.

Definition the_cluster (st : ClusterState) : Cluster :=
  mkCluster "demo" "uuid-1" st "quota exceeded" "staging-bucket".

Definition the_job (st : JobState) : Job := mkJob "job-7" st "driver failed".

(** Every call succeeds; the cluster is RUNNING from poll [up] on and
    the job DONE from poll [fin] on (both counted on the clock). *)
Definition calm (up fin : nat) : Env :=
  {| current_dir := "/srv/dataproc";
     os_path_join := fun a b => (a ++ "/" ++ b)%string;
     os_path_basename := fun p => last (split "/"%char p) EmptyString;
     format_bytes := fun b => py_str (PyBytes b);
     open_answer := fun _ => Ret tt;
     close_answer := fun _ => Ret tt;
     cluster_transport_answer := fun _ => Ret tt;
     job_transport_answer := fun _ => Ret tt;
     cluster_client_answer := fun _ => Ret tt;
     job_client_answer := fun _ => Ret tt;
     storage_client_answer := fun _ => Ret tt;
     get_bucket_answer := fun _ => Ret tt;
     upload_answer := fun _ => Ret tt;
     download_answer := fun _ => Ret "1 2 3";
     create_cluster_answer := fun _ => Ret "operations/create-1";
     list_clusters_answer :=
       fun k => Ret [the_cluster (if (k <? up)%nat then CS_CREATING else CS_RUNNING)];
     submit_job_answer := fun _ => Ret (the_job JS_PENDING);
     get_job_answer := fun k => Ret (the_job (if (k <? fin)%nat then JS_RUNNING else JS_DONE));
     delete_cluster_answer := fun _ => Ret "operations/delete-1" |}.

(** As [calm 0 0], in a region that lists no cluster. *)
Definition empty_region : Env :=
  {| current_dir := "/srv/dataproc";
     os_path_join := fun a b => (a ++ "/" ++ b)%string;
     os_path_basename := fun p => last (split "/"%char p) EmptyString;
     format_bytes := fun b => py_str (PyBytes b);
     open_answer := fun _ => Ret tt;
     close_answer := fun _ => Ret tt;
     cluster_transport_answer := fun _ => Ret tt;
     job_transport_answer := fun _ => Ret tt;
     cluster_client_answer := fun _ => Ret tt;
     job_client_answer := fun _ => Ret tt;
     storage_client_answer := fun _ => Ret tt;
     get_bucket_answer := fun _ => Ret tt;
     upload_answer := fun _ => Ret tt;
     download_answer := fun _ => Ret "1 2 3";
     create_cluster_answer := fun _ => Ret "operations/create-1";
     list_clusters_answer := fun _ => Ret [];
     submit_job_answer := fun _ => Ret (the_job JS_PENDING);
     get_job_answer := fun _ => Ret (the_job JS_DONE);
     delete_cluster_answer := fun _ => Ret "operations/delete-1" |}.

(** As [calm 0 0] for the first [limit] library calls; after that
    every call fails. *)
Definition fickle (limit : nat) : Env :=
  let cut {A} (a : A) (k : nat) : outcome A :=
    if (k <? limit)%nat then Ret a else Raise (LibraryError "ServiceUnavailable") in
  {| current_dir := "/srv/dataproc";
     os_path_join := fun a b => (a ++ "/" ++ b)%string;
     os_path_basename := fun p => last (split "/"%char p) EmptyString;
     format_bytes := fun b => py_str (PyBytes b);
     open_answer := cut tt;
     close_answer := cut tt;
     cluster_transport_answer := cut tt;
     job_transport_answer := cut tt;
     cluster_client_answer := cut tt;
     job_client_answer := cut tt;
     storage_client_answer := cut tt;
     get_bucket_answer := cut tt;
     upload_answer := cut tt;
     download_answer := cut "1 2 3";
     create_cluster_answer := cut "operations/create-1";
     list_clusters_answer := cut [the_cluster CS_RUNNING];
     submit_job_answer := cut (the_job JS_PENDING);
     get_job_answer := cut (the_job JS_DONE);
     delete_cluster_answer := cut "operations/delete-1" |}.

(** As [calm 0 0], but the service reports, for the cluster and for
    the job, a state whose number the library has no name for. *)
Definition odd_states : Env :=
  {| current_dir := "/srv/dataproc";
     os_path_join := fun a b => (a ++ "/" ++ b)%string;
     os_path_basename := fun p => last (split "/"%char p) EmptyString;
     format_bytes := fun b => py_str (PyBytes b);
     open_answer := fun _ => Ret tt;
     close_answer := fun _ => Ret tt;
     cluster_transport_answer := fun _ => Ret tt;
     job_transport_answer := fun _ => Ret tt;
     cluster_client_answer := fun _ => Ret tt;
     job_client_answer := fun _ => Ret tt;
     storage_client_answer := fun _ => Ret tt;
     get_bucket_answer := fun _ => Ret tt;
     upload_answer := fun _ => Ret tt;
     download_answer := fun _ => Ret "1 2 3";
     create_cluster_answer := fun _ => Ret "operations/create-1";
     list_clusters_answer := fun _ => Ret [the_cluster (CS_unrecognized 9)];
     submit_job_answer := fun _ => Ret (the_job JS_PENDING);
     get_job_answer := fun _ => Ret (the_job (JS_unrecognized 10));
     delete_cluster_answer := fun _ => Ret "operations/delete-1" |}.

Definition start : World Call := mkWorld 0 [].

(** The world [main] leaves when it creates the cluster under
    [calm 0 0] from [start]. *)
Definition calm_end : World Call :=
  Eval vm_compute in
    match main (calm 0 0) 1 "p" (PyStr "us-central1-a") "demo" "b" None true true start
    with
    | Some (_, w) => w
    | None => start
    end.

Definition operations (n : nat) : nat -> PollOperation.Operation :=
  fun k => PollOperation.mkOperation "operations/import-1" (n <=? k)%nat.

(** The operation is done from poll [n] on. *)
Definition slow_operation (n : nat) : PollOperation.Env :=
  {| PollOperation.str_operation := fun op => PollOperation.name op;
     PollOperation.get_operation_answer := fun k => Ret (operations n k) |}.

End Scenario.

(* ================================================================== *)
(** ** dataproc/submit_job_to_cluster.py: vocabulary for whole runs *)

Module DataprocRun.

Import Dataproc.

(** The region [main] works in: ['global'], or what
    [get_region_from_zone] makes of the zone (nothing is called when
    that raises). *)
Definition resolved_region (zone : PyVal) (global_region : bool) : string :=
  if global_region then "global"
  else match get_region_from_zone zone with
       | Ret region => region
       | Raise _ => EmptyString
       end.

(** An effect that names a project, a region or a cluster names these. *)
Definition addressed_to (project region name : string) (e : Effect Call) : Prop :=
  match e with
  | Sdk (rpc_create_cluster p r d) =>
      p = project /\ r = region /\ cd_project_id d = project /\ cd_cluster_name d = name
  | Sdk (rpc_list_clusters p r) => p = project /\ r = region
  | Sdk (rpc_submit_job p r j) =>
      p = project /\ r = region /\ placement_cluster_name j = name
  | Sdk (rpc_get_job p r _) => p = project /\ r = region
  | Sdk (rpc_delete_cluster p r c) => p = project /\ r = region /\ c = name
  | Sdk (storage_Client p) => p = project
  | _ => True
  end.

(** The state of a cluster has a name. *)
Definition has_name (cluster : Cluster) : Prop :=
  exists state_name, ClusterState_Name (cluster_state cluster) = Ret state_name.

(** The line [list_clusters_with_details] prints for a cluster whose
    state has a name. *)
Definition cluster_line (cluster : Cluster) : Effect Call :=
  Print (cluster_name cluster ++ " - "
           ++ match ClusterState_Name (cluster_state cluster) with
              | Ret state_name => state_name
              | Raise _ => EmptyString
              end)%string.

(** The clusters of a listing that carry the given name. *)
Definition named (name : string) (clusters : list Cluster) : list Cluster :=
  filter (fun c => (cluster_name c =? name)%string) clusters.

(** Two answers to [list_clusters] that differ at most in clusters of
    other names. *)
Definition same_named (name : string) (a1 a2 : outcome (list Cluster)) : Prop :=
  match a1, a2 with
  | Ret l1, Ret l2 => named name l1 = named name l2
  | Raise e1, Raise e2 => e1 = e2
  | _, _ => False
  end.

(** The library call a run from [w] to [w'] made when the clock showed
    [k]: every library call of this sample ticks the clock once, so it
    is the call number [k - clock w] among those the run logged. *)
Definition made (w w' : World Call) (k : nat) : option Call :=
  if (k <? clock w)%nat then None
  else nth_error (sdk_calls (skipn (length (trace w)) (trace w'))) (k - clock w).

(** The object name of the driver output of a job on a cluster. *)
Definition driver_output (cluster_id id : string) : string :=
  ("google-cloud-dataproc-metainfo/" ++ cluster_id ++ "/jobs/" ++ id
     ++ "/driveroutput.000000000")%string.

End DataprocRun.

(* ================================================================== *)
(** ** genappbuilder/poll_operation_sample.py: time slept *)

Module PollSleep.

(** The seconds a trace spent in [sleep]. *)
Fixpoint slept {C : Type} (t : list (Effect C)) : Z :=
  match t with
  | [] => 0
  | Sleep seconds :: rest => seconds + slept rest
  | _ :: rest => slept rest
  end.

End PollSleep.

(* ================================================================== *)
(** ** servicedirectory/snippets.py: deleting and resolving *)

Module ServiceDirectoryLookup.

Import ServiceDirectory.

(** [ResolveServiceResponse], as far as the sample reads it:
    [response.service.endpoints]. *)
Record ResolveServiceResponse : Type := mkResolved {
  service_endpoints : list Endpoint
}.

Inductive Call : Type :=
| registration (c : ServiceDirectory.Call)
| LookupServiceClient
| rpc_delete_namespace (name : string)
| rpc_delete_service (name : string)
| rpc_delete_endpoint (name : string)
| rpc_resolve_service (request_name : string).

Record Env : Type := mkEnv {
  delete_namespace_answer : nat -> outcome unit;
  delete_service_answer : nat -> outcome unit;
  delete_endpoint_answer : nat -> outcome unit;
  resolve_service_answer : nat -> outcome ResolveServiceResponse
}.

Section Program.

Variable env : Env.







End Program.







End ServiceDirectoryLookup.

(* ================================================================== *)
(** ** jobs/cjd_sample/histogram_sample.py *)

Module Histogram.

Definition newline : string := String (ascii_of_nat 10) EmptyString.

(** The [request] dictionary of [histogram_search].  The keys
    ['mode'], ['request_metadata'] and ['histogram_facets'] are always
    there; ['query'] is there when [query] is [Some], and then holds
    the list under ['company_names']. *)
Record RequestMetadata : Type := mkMetadata {
  user_id : string;
  session_id : string;
  domain : string
}.

Record CustomAttributeHistogramFacet : Type := mkCustomFacet {
  key : string;
  string_value_histogram : bool
}.

Record HistogramFacets : Type := mkFacets {
  simple_histogram_facets : list string;
  custom_attribute_histogram_facets : list CustomAttributeHistogramFacet
}.

(** A company name as [run_sample] passes it on: a string, or [None]
    ([dict.get] on a response without the key). *)
Definition Name : Type := option string.

Record Request : Type := mkRequest {
  mode : string;
  request_metadata : RequestMetadata;
  histogram_facets : HistogramFacets;
  query : option (list string)
}.

(** What the sibling modules and the API client hand back; the company
    and job dictionaries are opaque here but for their ['name']. *)
Definition Company : Type := string.
Definition JobPosting : Type := string.
Record Created : Type := mkCreated { get_name : Name }.

(** The calls out of the file: into the API client and into the sibling
    modules [base_company_sample], [base_job_sample] and
    [custom_attribute_sample]. *)
Inductive Call : Type :=
| jobs_search (body : Request)
| generate_company
| create_company (company_to_be_created : Company)
| generate_job_with_custom_attributes (company_name : Name)
| create_job (job_to_be_created : JobPosting)
| delete_job (job_name : Name)
| delete_company (company_name : Name).

Record Env : Type := mkEnv {
  search_answer : nat -> outcome string;          (* the response, as [%s] shows it *)
  generate_company_answer : nat -> outcome Company;
  create_company_answer : nat -> outcome Created;
  generate_job_answer : nat -> outcome JobPosting;
  create_job_answer : nat -> outcome Created;
  delete_job_answer : nat -> outcome unit;
  delete_company_answer : nat -> outcome unit
}.

Section Program.

Variable env : Env.

(** The dictionary [histogram_search] sends. *)
Definition search_request (company_name : Name) : Request :=
  let request_metadata := mkMetadata "HashedUserId" "HashedSessionId" "www.google.com" in
  let custom_attribute_histogram_facet := mkCustomFacet "someFieldName1" true in
  let histogram_facets :=
    mkFacets ["COMPANY_ID"] [custom_attribute_histogram_facet] in
  let request := mkRequest "JOB_SEARCH" request_metadata histogram_facets None in
  match company_name with
  | Some company =>
      mkRequest (mode request) (Histogram.request_metadata request)
        (Histogram.histogram_facets request) (Some [company])
  | None => request
  end.

(** [histogram_search(client_service, company_name)] *)
Definition histogram_search (company_name : Name) : M Call unit :=
  let request := search_request company_name in
  response <- call (jobs_search request) (search_answer env) ;;
  emit (Print ("==========" ++ newline ++ response ++ newline ++ "==========")%string).

(** [run_sample()] *)
Definition run_sample : M Call unit :=
  company_to_be_created <- call generate_company (generate_company_answer env) ;;
  company_created <- call (create_company company_to_be_created)
                          (create_company_answer env) ;;
  let company_name := get_name company_created in
  job_to_be_created <- call (generate_job_with_custom_attributes company_name)
                            (generate_job_answer env) ;;
  job_created <- call (create_job job_to_be_created) (create_job_answer env) ;;
  let job_name := get_name job_created in
  emit (Sleep 10) ;;
  histogram_search company_name ;;
  call (delete_job job_name) (delete_job_answer env) ;;
  call (delete_company company_name) (delete_company_answer env).

End Program.

Definition is_delete (c : Call) : bool :=
  match c with
  | delete_job _ | delete_company _ => true
  | _ => false
  end.

Definition is_create (c : Call) : bool :=
  match c with
  | create_company _ | create_job _ => true
  | _ => false
  end.

End Histogram.

(* ================================================================== *)
(** ** What an entry point reaches outside its own file *)

Module Reach.



End Reach.

(* ================================================================== *)
(** ** More concrete environments *)

Module Scenario2.

Import Dataproc Scenario.

(** As [calm 0 0] with another listing. *)
Definition listing_of (clusters : list Cluster) : Env :=
  {| current_dir := current_dir (calm 0 0);
     os_path_join := os_path_join (calm 0 0);
     os_path_basename := os_path_basename (calm 0 0);
     format_bytes := format_bytes (calm 0 0);
     open_answer := open_answer (calm 0 0);
     close_answer := close_answer (calm 0 0);
     cluster_transport_answer := cluster_transport_answer (calm 0 0);
     job_transport_answer := job_transport_answer (calm 0 0);
     cluster_client_answer := cluster_client_answer (calm 0 0);
     job_client_answer := job_client_answer (calm 0 0);
     storage_client_answer := storage_client_answer (calm 0 0);
     get_bucket_answer := get_bucket_answer (calm 0 0);
     upload_answer := upload_answer (calm 0 0);
     download_answer := download_answer (calm 0 0);
     create_cluster_answer := create_cluster_answer (calm 0 0);
     list_clusters_answer := fun _ => Ret clusters;
     submit_job_answer := submit_job_answer (calm 0 0);
     get_job_answer := get_job_answer (calm 0 0);
     delete_cluster_answer := delete_cluster_answer (calm 0 0) |}.

(** The listing also holds clusters of other names, one in state ERROR. *)
Definition crowded : Env :=
  listing_of [mkCluster "other" "uuid-0" CS_ERROR "boom" "bucket-0";
              the_cluster CS_RUNNING;
              mkCluster "third" "uuid-3" CS_CREATING "" "bucket-3"].

(** Two clusters are called "demo": one still being created, one failed. *)
Definition twins : Env :=
  listing_of [mkCluster "demo" "uuid-1" CS_CREATING "" "bucket-1";
              mkCluster "demo" "uuid-2" CS_ERROR "late" "bucket-2";
              the_cluster CS_RUNNING].

(** As [calm 0 0], but the file cannot be opened. *)
Definition no_file : Env :=
  {| current_dir := current_dir (calm 0 0);
     os_path_join := os_path_join (calm 0 0);
     os_path_basename := os_path_basename (calm 0 0);
     format_bytes := format_bytes (calm 0 0);
     open_answer := fun _ => Raise (LibraryError "FileNotFoundError");
     close_answer := close_answer (calm 0 0);
     cluster_transport_answer := cluster_transport_answer (calm 0 0);
     job_transport_answer := job_transport_answer (calm 0 0);
     cluster_client_answer := cluster_client_answer (calm 0 0);
     job_client_answer := job_client_answer (calm 0 0);
     storage_client_answer := storage_client_answer (calm 0 0);
     get_bucket_answer := get_bucket_answer (calm 0 0);
     upload_answer := upload_answer (calm 0 0);
     download_answer := download_answer (calm 0 0);
     create_cluster_answer := create_cluster_answer (calm 0 0);
     list_clusters_answer := list_clusters_answer (calm 0 0);
     submit_job_answer := submit_job_answer (calm 0 0);
     get_job_answer := get_job_answer (calm 0 0);
     delete_cluster_answer := delete_cluster_answer (calm 0 0) |}.



(** The search fails; everything else succeeds. *)
Definition search_down : Histogram.Env :=
  {| Histogram.search_answer := fun _ => Raise (LibraryError "HttpError");
     Histogram.generate_company_answer := fun _ => Ret "company";
     Histogram.create_company_answer :=
       fun _ => Ret (Histogram.mkCreated (Some "companies/1"));
     Histogram.generate_job_answer := fun _ => Ret "job";
     Histogram.create_job_answer := fun _ => Ret (Histogram.mkCreated (Some "jobs/1"));
     Histogram.delete_job_answer := fun _ => Ret tt;
     Histogram.delete_company_answer := fun _ => Ret tt |}.

(** Everything succeeds. *)
Definition search_up : Histogram.Env :=
  {| Histogram.search_answer := fun _ => Ret "{}";
     Histogram.generate_company_answer := fun _ => Ret "company";
     Histogram.create_company_answer :=
       fun _ => Ret (Histogram.mkCreated (Some "companies/1"));
     Histogram.generate_job_answer := fun _ => Ret "job";
     Histogram.create_job_answer := fun _ => Ret (Histogram.mkCreated (Some "jobs/1"));
     Histogram.delete_job_answer := fun _ => Ret tt;
     Histogram.delete_company_answer := fun _ => Ret tt |}.

(** The world after the clients are built and the default file is open. *)
Definition opened : World Call :=
  mkWorld 3 [Sdk (ClusterControllerClient ""); Sdk (JobControllerClient "");
             Sdk (file_open "/srv/dataproc/pyspark_sort.py")].

(** The world the [try] suite of [main] leaves from [opened] when all
    goes well. *)
Definition body_end : World Call :=
  Eval vm_compute in
    match main_try (fickle 15) 1 "p" (PyStr "us-central1-a") "demo" "b" true "global"
            ("/srv/dataproc/pyspark_sort.py", "pyspark_sort.py") opened
    with
    | Some (_, w) => w
    | None => start
    end.

(** The operation is still running at the first two polls; the third
    poll fails. *)
Definition broken_poll : PollOperation.Env :=
  {| PollOperation.str_operation := fun op => PollOperation.name op;
     PollOperation.get_operation_answer :=
       fun k => if (k <? 2)%nat
                then Ret (PollOperation.mkOperation "operations/import-1" false)
                else Raise (LibraryError "DeadlineExceeded") |}.

End Scenario2.

(* ================================================================== *)
(** * Facts *)

(** ** Strings *)

Section StringFacts.

Variable sep : ascii.

Lemma split_not_nil (s : string) : split sep s <> [].
Proof.
  destruct s as [|c rest]; simpl; [discriminate|].
  destruct (Ascii.eqb c sep); [discriminate|].
  destruct (split sep rest); discriminate.
Qed.

Lemma join_cons (x : string) (l : list string) :
  l <> [] -> join (String sep EmptyString) (x :: l)
             = (x ++ String sep (join (String sep EmptyString) l))%string.
Proof.
  destruct l as [|y l]; [congruence|]. intros _. reflexivity.
Qed.

Lemma join_split (s : string) : join (String sep EmptyString) (split sep s) = s.
Proof.
  induction s as [|c rest IH]; [reflexivity|].
  simpl split. destruct (Ascii.eqb_spec c sep) as [->|Hne].
  - rewrite join_cons by apply split_not_nil. simpl. now rewrite IH.
  - pose proof (split_not_nil rest) as Hnil.
    destruct (split sep rest) as [|w ws]; [congruence|].
    destruct ws as [|w' ws].
    + simpl in *. now rewrite IH.
    + rewrite join_cons by discriminate.
      rewrite join_cons in IH by discriminate.
      rewrite <- IH. reflexivity.
Qed.

Lemma split_parts_free (s : string) :
  Forall (fun part => occurs sep part = false) (split sep s).
Proof.
  induction s as [|c rest IH]; simpl.
  - constructor; [reflexivity|constructor].
  - destruct (Ascii.eqb c sep) eqn:E.
    + constructor; [reflexivity|exact IH].
    + destruct (split sep rest) as [|w ws].
      * constructor; [simpl; now rewrite E|constructor].
      * inversion IH; subst. constructor; [simpl; now rewrite E|assumption].
Qed.

Lemma split_free (s : string) : occurs sep s = false -> split sep s = [s].
Proof.
  induction s as [|c rest IH]; [reflexivity|].
  simpl. destruct (Ascii.eqb c sep); [discriminate|].
  simpl. intros H. now rewrite (IH H).
Qed.

Lemma split_app (r l : string) :
  occurs sep l = false ->
  split sep (r ++ String sep l) = split sep r ++ [l].
Proof.
  intros Hl. induction r as [|c rest IH]; simpl.
  - rewrite Ascii.eqb_refl. now rewrite (split_free l Hl).
  - destruct (Ascii.eqb c sep).
    + now rewrite IH.
    + rewrite IH. pose proof (split_not_nil rest) as Hnil.
      destruct (split sep rest); [congruence|reflexivity].
Qed.

End StringFacts.

(** ** The effect monad *)

Section EffectFacts.

Context {C : Type}.
Implicit Types w : World C.

Lemma after_clock w n evs : clock (after w n evs) = clock w + n.
Proof. reflexivity. Qed.

Lemma after_trace w n evs : trace (after w n evs) = trace w ++ evs.
Proof. reflexivity. Qed.

Lemma after_nothing w : after w 0 [] = w.
Proof.
  destruct w as [c t]. unfold after; simpl. now rewrite Nat.add_0_r, app_nil_r.
Qed.

Lemma after_after w n1 e1 n2 e2 :
  after (after w n1 e1) n2 e2 = after w (n1 + n2) (e1 ++ e2).
Proof.
  unfold after; simpl. now rewrite Nat.add_assoc, app_assoc.
Qed.

Lemma emit_after (e : Effect C) w : emit e w = Some (Ret tt, after w 0 [e]).
Proof. unfold emit, after. now rewrite Nat.add_0_r. Qed.

Lemma call_after {A} (c : C) (answer : nat -> outcome A) w :
  call c answer w = Some (answer (clock w), after w 1 [Sdk c]).
Proof. unfold call, after. now rewrite Nat.add_1_r. Qed.

Lemma same_run {A} (r : outcome A) (c1 c2 : nat) (t1 t2 : list (Effect C)) :
  c1 = c2 -> t1 = t2 -> Some (r, mkWorld c1 t1) = Some (r, mkWorld c2 t2).
Proof. intros -> ->. reflexivity. Qed.

(** Inversion of a sequence. *)
Lemma bind_inv {A B} (m : M C A) (k : A -> M C B) w r w' :
  bind m k w = Some (r, w') ->
  (exists a w1, m w = Some (Ret a, w1) /\ k a w1 = Some (r, w'))
  \/ (exists e, m w = Some (Raise e, w') /\ r = Raise e).
Proof.
  unfold bind. destruct (m w) as [[[a|e] w1]|]; intros H.
  - left. now exists a, w1.
  - right. inversion H; subst. now exists e.
  - discriminate.
Qed.

Lemma bind_ret_iff {A B} (m : M C A) (k : A -> M C B) w b w' :
  bind m k w = Some (Ret b, w') <->
  exists a w1, m w = Some (Ret a, w1) /\ k a w1 = Some (Ret b, w').
Proof.
  split.
  - intros H. apply bind_inv in H. destruct H as [H|(e & _ & He)]; [exact H|discriminate].
  - intros (a & w1 & Hm & Hk). unfold bind. now rewrite Hm.
Qed.

Lemma bind_step {A B} (m : M C A) (k : A -> M C B) w a w1 :
  m w = Some (Ret a, w1) -> bind m k w = k a w1.
Proof. intros H. unfold bind. now rewrite H. Qed.

Lemma bind_raise {A B} (m : M C A) (k : A -> M C B) w e w1 :
  m w = Some (Raise e, w1) -> bind m k w = Some (Raise e, w1).
Proof. intros H. unfold bind. now rewrite H. Qed.

(** *** [emits] *)

Section Emits.

Variable P : Effect C -> Prop.

Lemma emits_ret {A} (a : A) : emits P (ret a).
Proof.
  intros w r w' H. inversion H; subst. exists 0, []. now rewrite after_nothing.
Qed.

Lemma emits_raise {A} (e : exn) : emits P (@raise C A e).
Proof.
  intros w r w' H. inversion H; subst. exists 0, []. now rewrite after_nothing.
Qed.

Lemma emits_lift {A} (o : outcome A) : emits P (lift o).
Proof.
  intros w r w' H. inversion H; subst. exists 0, []. now rewrite after_nothing.
Qed.

Lemma emits_diverge {A} : emits P (@diverge C A).
Proof. intros w r w' H. discriminate. Qed.

Lemma emits_emit (e : Effect C) : P e -> emits P (emit e).
Proof.
  intros He w r w' H. rewrite emit_after in H. inversion H; subst.
  exists 0, [e]. split; [reflexivity|now constructor].
Qed.

Lemma emits_call {A} (c : C) (answer : nat -> outcome A) :
  P (Sdk c) -> emits P (call c answer).
Proof.
  intros He w r w' H. rewrite call_after in H. inversion H; subst.
  exists 1, [Sdk c]. split; [reflexivity|now constructor].
Qed.

Lemma emits_bind {A B} (m : M C A) (k : A -> M C B) :
  emits P m -> (forall a, emits P (k a)) -> emits P (bind m k).
Proof.
  intros Hm Hk w r w' H. apply bind_inv in H.
  destruct H as [(a & w1 & H1 & H2)|(e & H1 & _)].
  - apply Hm in H1. destruct H1 as (n1 & e1 & -> & F1).
    apply Hk in H2. destruct H2 as (n2 & e2 & -> & F2).
    exists (n1 + n2), (e1 ++ e2). rewrite after_after.
    split; [reflexivity|]. apply Forall_app. now split.
  - now apply Hm in H1.
Qed.

Lemma emits_try_finally {A} (body : M C A) (fin : M C unit) :
  emits P body -> emits P fin -> emits P (try_finally body fin).
Proof.
  intros Hb Hf w r w' H. unfold try_finally in H.
  destruct (body w) as [[r1 w1]|] eqn:E1; [|discriminate].
  destruct (fin w1) as [[r2 w2]|] eqn:E2; [|discriminate].
  apply Hb in E1. destruct E1 as (n1 & e1 & -> & F1).
  apply Hf in E2. destruct E2 as (n2 & e2 & -> & F2).
  assert (w' = after w (n1 + n2) (e1 ++ e2)) as ->.
  { rewrite <- after_after. destruct r2; now inversion H. }
  exists (n1 + n2), (e1 ++ e2). split; [reflexivity|].
  apply Forall_app. now split.
Qed.

Lemma emits_try_bind_finally {A B} (first : M C A) (rest : A -> M C B)
  (fin : option A -> M C unit) :
  emits P first -> (forall a, emits P (rest a)) -> (forall o, emits P (fin o)) ->
  emits P (try_bind_finally first rest fin).
Proof.
  intros H1 H2 H3 w r w' H. unfold try_bind_finally in H.
  destruct (first w) as [[[a|e] w1]|] eqn:E1; [| |discriminate].
  - apply H1 in E1. destruct E1 as (n1 & e1 & -> & F1).
    apply (emits_try_finally _ _ (H2 a) (H3 (Some a))) in H.
    destruct H as (n2 & e2 & -> & F2).
    exists (n1 + n2), (e1 ++ e2). rewrite after_after.
    split; [reflexivity|]. apply Forall_app. now split.
  - apply H1 in E1. destruct E1 as (n1 & e1 & -> & F1).
    apply (emits_try_finally _ _ (emits_raise e) (H3 None)) in H.
    destruct H as (n2 & e2 & -> & F2).
    exists (n1 + n2), (e1 ++ e2). rewrite after_after.
    split; [reflexivity|]. apply Forall_app. now split.
Qed.

End Emits.

(** *** [paced] *)

Lemma sdk_calls_app (t1 t2 : list (Effect C)) :
  sdk_calls (t1 ++ t2) = sdk_calls t1 ++ sdk_calls t2.
Proof. unfold sdk_calls. apply flat_map_app. Qed.

Lemma after_paced w (e1 e2 : list (Effect C)) :
  after (after w (length (sdk_calls e1)) e1) (length (sdk_calls e2)) e2
  = after w (length (sdk_calls (e1 ++ e2))) (e1 ++ e2).
Proof. now rewrite after_after, sdk_calls_app, length_app. Qed.

Lemma paced_ret {A} (a : A) : paced (@ret C A a).
Proof. intros w r w' H. inversion H; subst. exists []. now rewrite after_nothing. Qed.

Lemma paced_raise {A} (e : exn) : paced (@raise C A e).
Proof. intros w r w' H. inversion H; subst. exists []. now rewrite after_nothing. Qed.

Lemma paced_lift {A} (o : outcome A) : paced (@lift C A o).
Proof. intros w r w' H. inversion H; subst. exists []. now rewrite after_nothing. Qed.

Lemma paced_diverge {A} : paced (@diverge C A).
Proof. intros w r w' H. discriminate. Qed.

Lemma paced_print (text : string) : paced (@emit C (Print text)).
Proof.
  intros w r w' H. rewrite emit_after in H. inversion H; subst. now exists [Print text].
Qed.

Lemma paced_call {A} (c : C) (answer : nat -> outcome A) : paced (call c answer).
Proof.
  intros w r w' H. rewrite call_after in H. inversion H; subst. now exists [Sdk c].
Qed.

Lemma paced_bind {A B} (m : M C A) (k : A -> M C B) :
  paced m -> (forall a, paced (k a)) -> paced (bind m k).
Proof.
  intros Hm Hk w r w' H. apply bind_inv in H.
  destruct H as [(a & w1 & H1 & H2)|(e & H1 & _)].
  - apply Hm in H1. destruct H1 as (e1 & ->).
    apply Hk in H2. destruct H2 as (e2 & ->).
    exists (e1 ++ e2). apply after_paced.
  - now apply Hm in H1.
Qed.

Lemma paced_try_finally {A} (body : M C A) (fin : M C unit) :
  paced body -> paced fin -> paced (try_finally body fin).
Proof.
  intros Hb Hf w r w' H. unfold try_finally in H.
  destruct (body w) as [[r1 w1]|] eqn:E1; [|discriminate].
  destruct (fin w1) as [[r2 w2]|] eqn:E2; [|discriminate].
  apply Hb in E1. destruct E1 as (e1 & ->).
  apply Hf in E2. destruct E2 as (e2 & ->).
  exists (e1 ++ e2). rewrite <- after_paced. destruct r2; now inversion H.
Qed.

Lemma paced_try_bind_finally {A B} (first : M C A) (rest : A -> M C B)
  (fin : option A -> M C unit) :
  paced first -> (forall a, paced (rest a)) -> (forall o, paced (fin o)) ->
  paced (try_bind_finally first rest fin).
Proof.
  intros H1 H2 H3 w r w' H. unfold try_bind_finally in H.
  destruct (first w) as [[[a|e] w1]|] eqn:E1; [| |discriminate].
  - apply H1 in E1. destruct E1 as (e1 & ->).
    apply (paced_try_finally _ _ (H2 a) (H3 (Some a))) in H.
    destruct H as (e2 & ->). exists (e1 ++ e2). apply after_paced.
  - apply H1 in E1. destruct E1 as (e1 & ->).
    apply (paced_try_finally _ _ (paced_raise e) (H3 None)) in H.
    destruct H as (e2 & ->). exists (e1 ++ e2). apply after_paced.
Qed.

End EffectFacts.

(** ** Searching the polls *)

(** A predicate on polls that holds at [n] holds first somewhere. *)
Lemma first_true (p : nat -> bool) (n : nat) :
  p n = true ->
  exists m, m <= n /\ p m = true /\ forall k, k < m -> p k = false.
Proof.
  induction n as [n IH] using lt_wf_ind. intros Hn.
  destruct (forallb (fun k => negb (p k)) (seq 0 n)) eqn:E.
  - exists n. split; [lia|]. split; [exact Hn|]. intros k Hk.
    rewrite forallb_forall in E. specialize (E k).
    rewrite in_seq in E. apply negb_true_iff, E. lia.
  - apply not_true_iff_false in E. rewrite forallb_forall in E.
    assert (exists k, k < n /\ p k = true) as (k & Hk & Hp).
    { clear IH Hn. induction n as [|n IHn].
      - exfalso. apply E. intros x Hx. inversion Hx.
      - destruct (p n) eqn:Pn; [exists n; split; [lia|exact Pn]|].
        destruct IHn as (k & Hk & Hp).
        + intros H. apply E. intros x Hx. rewrite in_seq in Hx.
          destruct (Nat.eq_dec x n) as [->|Hne]; [now rewrite Pn|].
          apply H. rewrite in_seq. lia.
        + exists k. split; [lia|exact Hp]. }
    destruct (IH k Hk Hp) as (m & Hm & Pm & Hlt).
    exists m. split; [lia|]. now split.
Qed.

Lemma bounded_search (p : nat -> bool) (bound : nat) :
  (forall k, k < bound -> p k = false) \/ (exists k, k < bound /\ p k = true).
Proof.
  induction bound as [|b [IH|(k & Hk & Hp)]].
  - left. intros k Hk. lia.
  - destruct (p b) eqn:E.
    + right. exists b. split; [lia|exact E].
    + left. intros k Hk. destruct (Nat.eq_dec k b) as [->|Hne]; [exact E|].
      apply IH. lia.
  - right. exists k. split; [lia|exact Hp].
Qed.

(** ** dataproc/submit_job_to_cluster.py *)

Module DataprocFacts.

Import Dataproc Scenario.

(** Two runs that end alike, in worlds written in different ways. *)
Ltac same_world :=
  unfold after; cbn [clock trace fst snd];
  apply same_run;
  [ lia | repeat (rewrite <- app_assoc; cbn [app]); cbn [app]; reflexivity ].

Lemma repeat_snoc {A : Type} (x : A) (n : nat) : repeat x (S n) = repeat x n ++ [x].
Proof. apply repeat_cons. Qed.

Section Loops.

Variable env : Env.
Variables project region : string.

(** *** [wait_for_job] *)

Lemma job_poll_pending (answer : outcome Job) :
  job_poll_ends answer = false -> exists j, answer = Ret j /\ finished j = false.
Proof. destruct answer as [j|e]; [now exists j|discriminate]. Qed.

Lemma job_verdict_tail (job : Job) :
  snd (job_verdict job) = [] \/ snd (job_verdict job) = [Print "Job finished."].
Proof.
  unfold job_verdict. destruct (JobState_Name (job_state job)) as [s|e]; [|now left].
  destruct (s =? "ERROR")%string; [now left|now right].
Qed.

(** One round of the loop on the job the poll returned. *)
Lemma wait_for_job_loop_step (id : string) (job : Job) fuel w :
  get_job_answer env (clock w) = Ret job ->
  wait_for_job_loop env (S fuel) project region id w
  = if finished job
    then Some (fst (job_verdict job),
               after w 1 (Sdk (rpc_get_job project region id) :: snd (job_verdict job)))
    else wait_for_job_loop env fuel project region id
           (after w 1 [Sdk (rpc_get_job project region id)]).
Proof.
  intros Ha. cbn [wait_for_job_loop]. unfold bind at 1. rewrite call_after, Ha.
  unfold finished, job_verdict, stops_at, bind, lift.
  destruct (JobState_Name (job_state job)) as [s|e]; [|reflexivity].
  destruct (s =? "ERROR")%string; [reflexivity|].
  destruct (s =? "DONE")%string; cbn [orb fst snd]; [|reflexivity].
  rewrite emit_after. unfold ret. now rewrite after_after.
Qed.

Lemma wait_for_job_loop_raises (id : string) (e : exn) fuel w :
  get_job_answer env (clock w) = Raise e ->
  wait_for_job_loop env (S fuel) project region id w
  = Some (Raise e, after w 1 [Sdk (rpc_get_job project region id)]).
Proof.
  intros Ha. cbn [wait_for_job_loop]. unfold bind. now rewrite call_after, Ha.
Qed.

Lemma wait_for_job_loop_pending (id : string) :
  forall n fuel w,
    (forall k, k < n -> exists j, get_job_answer env (clock w + k) = Ret j
                                  /\ finished j = false) ->
    wait_for_job_loop env (n + fuel) project region id w
    = wait_for_job_loop env fuel project region id
        (after w n (repeat (Sdk (rpc_get_job project region id)) n)).
Proof.
  induction n as [|n IH]; intros fuel w H.
  - cbn [repeat Nat.add]. now rewrite after_nothing.
  - destruct (H 0 ltac:(lia)) as (j & Ha & Hf). rewrite Nat.add_0_r in Ha.
    cbn [Nat.add]. rewrite (wait_for_job_loop_step id j) by exact Ha. rewrite Hf.
    rewrite (IH fuel (after w 1 [Sdk (rpc_get_job project region id)]) ).
    + now rewrite after_after.
    + intros k Hk. rewrite after_clock.
      replace (clock w + 1 + k) with (clock w + S k) by lia.
      apply H. lia.
Qed.

(** The run of [wait_for_job] when poll [n] is the first that ends the
    wait. *)
Lemma wait_for_job_ends (id : string) w n fuel :
  (forall k, k < n -> job_poll_ends (get_job_answer env (clock w + k)) = false) ->
  job_poll_ends (get_job_answer env (clock w + n)) = true ->
  n < fuel ->
  wait_for_job env fuel project region id w
  = match get_job_answer env (clock w + n) with
    | Raise e => Some (Raise e, after w (S n) (job_polls project region id (S n)))
    | Ret job =>
        Some (fst (job_verdict job),
              after w (S n) (job_polls project region id (S n) ++ snd (job_verdict job)))
    end.
Proof.
  intros Hp He Hfuel. unfold wait_for_job, bind. rewrite emit_after.
  replace fuel with (n + S (fuel - S n)) by lia.
  rewrite wait_for_job_loop_pending.
  2:{ intros k Hk. rewrite after_clock, Nat.add_0_r. apply job_poll_pending, Hp, Hk. }
  unfold job_polls. rewrite repeat_snoc.
  assert (clock (after (after w 0 [Print "Waiting for job to finish..."]) n
                   (repeat (Sdk (rpc_get_job project region id)) n)) = clock w + n)
    as Hc by (rewrite !after_clock; lia).
  destruct (get_job_answer env (clock w + n)) as [job|e] eqn:Ha.
  - rewrite (wait_for_job_loop_step id job) by (rewrite Hc; exact Ha).
    cbn [job_poll_ends] in He. rewrite He. same_world.
  - rewrite (wait_for_job_loop_raises id e) by (rewrite Hc; exact Ha). same_world.
Qed.

(** While every poll so far is passed over, the run has no result. *)
Lemma wait_for_job_still_running (id : string) w fuel :
  (forall k, k < fuel -> job_poll_ends (get_job_answer env (clock w + k)) = false) ->
  wait_for_job env fuel project region id w = None.
Proof.
  intros Hp. unfold wait_for_job, bind. rewrite emit_after.
  replace fuel with (fuel + 0) at 1 by lia.
  rewrite wait_for_job_loop_pending; [reflexivity|].
  intros k Hk. rewrite after_clock, Nat.add_0_r. apply job_poll_pending, Hp, Hk.
Qed.

(** The run when the polls are answered by [jobs] and job [n] is the
    first at which the wait stops. *)
Lemma wait_for_job_run (id : string) (jobs : nat -> Job) w n fuel :
  (forall k, k <= n -> get_job_answer env (clock w + k) = Ret (jobs k)) ->
  (forall k, k < n -> finished (jobs k) = false) ->
  finished (jobs n) = true ->
  n < fuel ->
  wait_for_job env fuel project region id w
  = Some (fst (job_verdict (jobs n)),
          after w (S n) (job_polls project region id (S n) ++ snd (job_verdict (jobs n)))).
Proof.
  intros Ha Hp Hf Hfuel. rewrite (wait_for_job_ends id w n fuel); trivial.
  - now rewrite Ha by lia.
  - intros k Hk. rewrite Ha by lia. now apply Hp.
  - now rewrite Ha by lia.
Qed.

(** *** [wait_for_cluster_creation] *)

Lemma cluster_poll_pending (name : string) (answer : outcome (list Cluster)) :
  cluster_poll_ends name answer = false ->
  exists cl, answer = Ret cl /\ settles name cl = false.
Proof. destruct answer as [cl|e]; [now exists cl|discriminate]. Qed.

Lemma cluster_verdict_tail (c : Cluster) :
  snd (cluster_verdict c) = [] \/ snd (cluster_verdict c) = [Print "Cluster created."].
Proof.
  unfold cluster_verdict. destruct (ClusterState_Name (cluster_state c)) as [s|e];
    [|now left].
  destruct (s =? "ERROR")%string; [now left|now right].
Qed.

Lemma scan_clusters_run (name : string) (clusters : list Cluster) w :
  scan_clusters name clusters w
  = match find (settling name) clusters with
    | None => Some (Ret true, w)
    | Some c =>
        Some (match fst (cluster_verdict c) with
              | Ret _ => Ret false
              | Raise e => Raise e
              end,
              after w 0 (snd (cluster_verdict c)))
    end.
Proof.
  induction clusters as [|c rest IH]; [reflexivity|].
  cbn [scan_clusters find]. unfold settling at 1.
  destruct (cluster_name c =? name)%string; [|exact IH].
  unfold bind, lift, cluster_verdict, stops_at. cbn [andb].
  destruct (ClusterState_Name (cluster_state c)) as [s|e] eqn:E.
  - destruct (s =? "ERROR")%string eqn:E1; cbn [orb].
    + rewrite E, E1. cbn [fst snd]. now rewrite after_nothing.
    + destruct (s =? "RUNNING")%string; [|exact IH].
      rewrite E, E1. cbn [fst snd]. now rewrite emit_after.
  - rewrite E. cbn [fst snd]. now rewrite after_nothing.
Qed.

Lemma settles_find (name : string) (clusters : list Cluster) :
  settles name clusters = match find (settling name) clusters with
                          | Some _ => true
                          | None => false
                          end.
Proof.
  unfold settles. induction clusters as [|c rest IH]; [reflexivity|].
  cbn [existsb find]. destruct (settling name c); [reflexivity|exact IH].
Qed.

Lemma wait_for_cluster_loop_pending (name : string) :
  forall n fuel w,
    (forall k, k < n -> exists cl, list_clusters_answer env (clock w + k) = Ret cl
                                   /\ settles name cl = false) ->
    wait_for_cluster_loop env (n + fuel) project region name w
    = wait_for_cluster_loop env fuel project region name
        (after w n (repeat (Sdk (rpc_list_clusters project region)) n)).
Proof.
  induction n as [|n IH]; intros fuel w H.
  - cbn [repeat Nat.add]. now rewrite after_nothing.
  - destruct (H 0 ltac:(lia)) as (cl & Ha & Hs). rewrite Nat.add_0_r in Ha.
    rewrite settles_find in Hs.
    cbn [Nat.add wait_for_cluster_loop]. unfold bind at 1. rewrite call_after, Ha.
    unfold bind at 1. rewrite scan_clusters_run.
    destruct (find (settling name) cl); [discriminate|].
    rewrite (IH fuel (after w 1 [Sdk (rpc_list_clusters project region)])).
    + now rewrite after_after.
    + intros k Hk. rewrite after_clock.
      replace (clock w + 1 + k) with (clock w + S k) by lia.
      apply H. lia.
Qed.

Lemma wait_for_cluster_loop_settled (name : string) (cl : list Cluster) fuel w :
  list_clusters_answer env (clock w) = Ret cl ->
  settles name cl = true ->
  exists c, find (settling name) cl = Some c /\
    wait_for_cluster_loop env (S fuel) project region name w
    = Some (fst (cluster_verdict c),
            after w 1 (Sdk (rpc_list_clusters project region) :: snd (cluster_verdict c))).
Proof.
  intros Ha Hs. rewrite settles_find in Hs.
  destruct (find (settling name) cl) as [c|] eqn:E; [|discriminate].
  exists c. split; [reflexivity|].
  cbn [wait_for_cluster_loop]. unfold bind at 1. rewrite call_after, Ha.
  unfold bind. rewrite scan_clusters_run, E.
  destruct (cluster_verdict c) as [[[]|e] tail]; cbn [fst snd];
    unfold ret; now rewrite ?after_after.
Qed.

Lemma wait_for_cluster_loop_raises (name : string) (e : exn) fuel w :
  list_clusters_answer env (clock w) = Raise e ->
  wait_for_cluster_loop env (S fuel) project region name w
  = Some (Raise e, after w 1 [Sdk (rpc_list_clusters project region)]).
Proof.
  intros Ha. cbn [wait_for_cluster_loop]. unfold bind. now rewrite call_after, Ha.
Qed.

(** The run of [wait_for_cluster_creation] when poll [n] is the first
    that ends the wait. *)
Lemma wait_for_cluster_ends (name : string) w n fuel :
  (forall k, k < n ->
     cluster_poll_ends name (list_clusters_answer env (clock w + k)) = false) ->
  cluster_poll_ends name (list_clusters_answer env (clock w + n)) = true ->
  n < fuel ->
  match list_clusters_answer env (clock w + n) with
  | Raise e =>
      wait_for_cluster_creation env fuel project region name w
      = Some (Raise e, after w (S n) (cluster_polls project region (S n)))
  | Ret cl =>
      exists c, find (settling name) cl = Some c /\
        wait_for_cluster_creation env fuel project region name w
        = Some (fst (cluster_verdict c),
                after w (S n) (cluster_polls project region (S n)
                                 ++ snd (cluster_verdict c)))
  end.
Proof.
  intros Hp He Hfuel.
  assert (wait_for_cluster_creation env fuel project region name w
          = wait_for_cluster_loop env (S (fuel - S n)) project region name
              (after (after w 0 [Print "Waiting for cluster creation..."]) n
                 (repeat (Sdk (rpc_list_clusters project region)) n))) as Hrun.
  { unfold wait_for_cluster_creation, bind. rewrite emit_after.
    replace fuel with (n + S (fuel - S n)) at 1 by lia.
    apply wait_for_cluster_loop_pending.
    intros k Hk. rewrite after_clock, Nat.add_0_r.
    apply cluster_poll_pending, Hp, Hk. }
  assert (clock (after (after w 0 [Print "Waiting for cluster creation..."]) n
                   (repeat (Sdk (rpc_list_clusters project region)) n)) = clock w + n)
    as Hc by (rewrite !after_clock; lia).
  unfold cluster_polls. rewrite repeat_snoc.
  destruct (list_clusters_answer env (clock w + n)) as [cl|e] eqn:Ha.
  - cbn [cluster_poll_ends] in He.
    destruct (wait_for_cluster_loop_settled name cl (fuel - S n)
                (after (after w 0 [Print "Waiting for cluster creation..."]) n
                   (repeat (Sdk (rpc_list_clusters project region)) n)))
      as (c & Hfind & Hloop); [rewrite Hc; exact Ha|exact He|].
    exists c. split; [exact Hfind|]. rewrite Hrun, Hloop. same_world.
  - rewrite Hrun, (wait_for_cluster_loop_raises name e) by (rewrite Hc; exact Ha).
    same_world.
Qed.

Lemma wait_for_cluster_still_running (name : string) w fuel :
  (forall k, k < fuel ->
     cluster_poll_ends name (list_clusters_answer env (clock w + k)) = false) ->
  wait_for_cluster_creation env fuel project region name w = None.
Proof.
  intros Hp. unfold wait_for_cluster_creation, bind. rewrite emit_after.
  replace fuel with (fuel + 0) at 1 by lia.
  rewrite wait_for_cluster_loop_pending; [reflexivity|].
  intros k Hk. rewrite after_clock, Nat.add_0_r. apply cluster_poll_pending, Hp, Hk.
Qed.

(** The run when the polls are answered by [listings] and listing [n]
    is the first that settles. *)
Lemma wait_for_cluster_run (name : string) (listings : nat -> list Cluster) w n fuel :
  (forall k, k <= n -> list_clusters_answer env (clock w + k) = Ret (listings k)) ->
  (forall k, k < n -> settles name (listings k) = false) ->
  settles name (listings n) = true ->
  n < fuel ->
  exists c, find (settling name) (listings n) = Some c /\
    wait_for_cluster_creation env fuel project region name w
    = Some (fst (cluster_verdict c),
            after w (S n) (cluster_polls project region (S n) ++ snd (cluster_verdict c))).
Proof.
  intros Ha Hp Hs Hfuel.
  pose proof (wait_for_cluster_ends name w n fuel) as H.
  rewrite Ha in H by lia. apply H; trivial.
  intros k Hk. rewrite Ha by lia. now apply Hp.
Qed.

(** *** What the loops add to the trace *)

Lemma emits_job_round (id : string) (fuel : nat) (job : Job) :
  emits quiet (wait_for_job_loop env fuel project region id) ->
  emits quiet
    (state_name <- lift (JobState_Name (job_state job)) ;;
     if (state_name =? "ERROR")%string then raise (Exception_ (job_details job))
     else
       state_name <- lift (JobState_Name (job_state job)) ;;
       if (state_name =? "DONE")%string then emit (Print "Job finished.") ;; ret job
       else wait_for_job_loop env fuel project region id).
Proof.
  intros IH. apply emits_bind; [apply emits_lift|intros s].
  destruct (s =? "ERROR")%string; [apply emits_raise|].
  apply emits_bind; [apply emits_lift|intros s'].
  destruct (s' =? "DONE")%string; [|exact IH].
  apply emits_bind; [now apply emits_emit|intros _; apply emits_ret].
Qed.

Lemma emits_wait_for_job_loop (id : string) (fuel : nat) :
  emits quiet (wait_for_job_loop env fuel project region id).
Proof.
  induction fuel as [|fuel IH]; [apply emits_diverge|].
  cbn [wait_for_job_loop]. apply emits_bind; [now apply emits_call|intros job].
  now apply emits_job_round.
Qed.

Lemma emits_scan_clusters (name : string) (clusters : list Cluster) :
  emits quiet (scan_clusters name clusters).
Proof.
  induction clusters as [|c rest IH]; [apply emits_ret|].
  cbn [scan_clusters].
  destruct (cluster_name c =? name)%string; [|exact IH].
  apply emits_bind; [apply emits_lift|intros s].
  destruct (s =? "ERROR")%string; [apply emits_raise|].
  apply emits_bind; [apply emits_lift|intros s'].
  destruct (s' =? "RUNNING")%string; [|exact IH].
  apply emits_bind; [now apply emits_emit|intros _; apply emits_ret].
Qed.

Lemma emits_wait_for_cluster_loop (name : string) (fuel : nat) :
  emits quiet (wait_for_cluster_loop env fuel project region name).
Proof.
  induction fuel as [|fuel IH]; [apply emits_diverge|].
  cbn [wait_for_cluster_loop]. apply emits_bind; [now apply emits_call|intros cl].
  apply emits_bind; [apply emits_scan_clusters|intros [|]]; [exact IH|apply emits_ret].
Qed.

(** Whatever a round of [wait_for_job] ends in, it began with the poll. *)
Lemma wait_for_job_loop_polls_first (id : string) fuel w r w' :
  wait_for_job_loop env fuel project region id w = Some (r, w') ->
  exists calls evs,
    w' = after w (S calls) (Sdk (rpc_get_job project region id) :: evs).
Proof.
  destruct fuel as [|fuel]; [discriminate|].
  cbn [wait_for_job_loop]. intros H. apply bind_inv in H.
  destruct H as [(job & w1 & H1 & H2)|(e & H1 & _)];
    rewrite call_after in H1; inversion H1; subst; clear H1.
  - apply (emits_job_round id fuel job (emits_wait_for_job_loop id fuel)) in H2.
    destruct H2 as (calls & evs & -> & _).
    exists calls, evs. now rewrite after_after.
  - exists 0, []. reflexivity.
Qed.

(** A run of [wait_for_job] that has a result was ended by a poll, the
    first that ends the wait. *)
Lemma wait_for_job_halts_inv (id : string) w fuel r w' :
  wait_for_job env fuel project region id w = Some (r, w') ->
  exists n tail,
    n < fuel /\ job_poll_ends (get_job_answer env (clock w + n)) = true /\
    (forall k, k < n -> job_poll_ends (get_job_answer env (clock w + k)) = false) /\
    w' = after w (S n) (job_polls project region id (S n) ++ tail) /\
    (tail = [] \/ tail = [Print "Job finished."]).
Proof.
  intros H.
  destruct (bounded_search (fun k => job_poll_ends (get_job_answer env (clock w + k)))
              fuel) as [Hall|(k & Hk & Hf)].
  - rewrite (wait_for_job_still_running id) in H; [discriminate|exact Hall].
  - destruct (first_true (fun k => job_poll_ends (get_job_answer env (clock w + k)))
                k Hf) as (n & Hn & Hfn & Hlt). cbv beta in Hfn, Hlt.
    exists n. rewrite (wait_for_job_ends id w n fuel) in H; trivial; [|lia].
    destruct (get_job_answer env (clock w + n)) as [job|e];
      inversion H; subst; clear H.
    + exists (snd (job_verdict job)). repeat split; trivial; [lia|].
      apply job_verdict_tail.
    + exists []. rewrite app_nil_r. repeat split; trivial; [lia|now left].
Qed.

Lemma wait_for_cluster_halts_inv (name : string) w fuel r w' :
  wait_for_cluster_creation env fuel project region name w = Some (r, w') ->
  exists n tail,
    n < fuel /\
    cluster_poll_ends name (list_clusters_answer env (clock w + n)) = true /\
    (forall k, k < n ->
       cluster_poll_ends name (list_clusters_answer env (clock w + k)) = false) /\
    w' = after w (S n) (cluster_polls project region (S n) ++ tail) /\
    (tail = [] \/ tail = [Print "Cluster created."]).
Proof.
  intros H.
  destruct (bounded_search
              (fun k => cluster_poll_ends name (list_clusters_answer env (clock w + k)))
              fuel) as [Hall|(k & Hk & Hf)].
  - rewrite (wait_for_cluster_still_running name) in H; [discriminate|exact Hall].
  - destruct (first_true
                (fun k => cluster_poll_ends name (list_clusters_answer env (clock w + k)))
                k Hf) as (n & Hn & Hfn & Hlt). cbv beta in Hfn, Hlt.
    exists n. pose proof (wait_for_cluster_ends name w n fuel Hlt Hfn ltac:(lia)) as Hrun.
    destruct (list_clusters_answer env (clock w + n)) as [cl|e].
    + destruct Hrun as (c & _ & Hrun). rewrite Hrun in H. inversion H; subst; clear H.
      exists (snd (cluster_verdict c)). repeat split; trivial; [lia|].
      apply cluster_verdict_tail.
    + rewrite Hrun in H. inversion H; subst; clear H.
      exists []. rewrite app_nil_r. repeat split; trivial; [lia|now left].
Qed.

End Loops.

(** *** Every step only appends to the trace, and nothing of the
    [finally] suite *)

Create HintDb emits discriminated.

#[local] Hint Resolve emits_ret emits_raise emits_lift emits_diverge emits_emit
  emits_call emits_bind emits_wait_for_job_loop emits_scan_clusters
  emits_wait_for_cluster_loop : emits.
#[local] Hint Extern 1 (quiet _) => reflexivity : emits.

Section Quiet.

Variable env : Env.

Lemma emits_upload_pyspark_file (project bucket_name filename spark_file : string) :
  emits quiet (upload_pyspark_file env project bucket_name filename spark_file).
Proof. unfold upload_pyspark_file. auto 20 with emits. Qed.

Lemma emits_download_output (project cluster_id output_bucket id : string) :
  emits quiet (download_output env project cluster_id output_bucket id).
Proof. unfold download_output. auto 20 with emits. Qed.

Lemma emits_create_cluster (project : string) (zone : PyVal) (region name : string) :
  emits quiet (create_cluster env project zone region name).
Proof. unfold create_cluster. auto 20 with emits. Qed.

Lemma emits_wait_for_cluster_creation (fuel : nat) (project region name : string) :
  emits quiet (wait_for_cluster_creation env fuel project region name).
Proof. unfold wait_for_cluster_creation. auto 20 with emits. Qed.

Lemma emits_print_clusters (clusters : list Cluster) :
  emits quiet (print_clusters clusters).
Proof.
  induction clusters as [|c rest IH]; cbn [print_clusters]; auto 20 with emits.
Qed.

Lemma emits_list_clusters_with_details (project region : string) :
  emits quiet (list_clusters_with_details env project region).
Proof.
  unfold list_clusters_with_details.
  apply emits_bind; [auto with emits|intros cl; apply emits_print_clusters].
Qed.

Lemma emits_get_cluster_id_by_name (project region name : string) :
  emits quiet (get_cluster_id_by_name env project region name).
Proof. unfold get_cluster_id_by_name. auto 20 with emits. Qed.

Lemma emits_submit_pyspark_job (project region name bucket_name filename : string) :
  emits quiet (submit_pyspark_job env project region name bucket_name filename).
Proof. unfold submit_pyspark_job. auto 20 with emits. Qed.

Lemma emits_wait_for_job (fuel : nat) (project region id : string) :
  emits quiet (wait_for_job env fuel project region id).
Proof. unfold wait_for_job. auto 20 with emits. Qed.

Lemma emits_main_get_client (zone : PyVal) (global_region : bool) :
  emits quiet (main_get_client env zone global_region).
Proof. unfold main_get_client. destruct global_region; auto 20 with emits. Qed.

Lemma emits_main_open (pyspark_file : option string) :
  emits quiet (main_open env pyspark_file).
Proof.
  unfold main_open, get_default_pyspark_file, get_pyspark_file.
  destruct pyspark_file as [filename|]; [destruct (filename =? "")%string|];
    auto 20 with emits.
Qed.

Lemma emits_main_try (fuel : nat) (project_id : string) (zone : PyVal)
  (name bucket_name : string) (create_new_cluster : bool) (region : string)
  (spark : string * string) :
  emits quiet
    (main_try env fuel project_id zone name bucket_name create_new_cluster region spark).
Proof.
  unfold main_try. destruct spark as [spark_file spark_filename].
  apply emits_bind.
  { unfold new_cluster_steps. destruct create_new_cluster; [|apply emits_ret].
    apply emits_bind; [apply emits_create_cluster|intros _].
    apply emits_wait_for_cluster_creation. }
  intros _. apply emits_bind; [apply emits_upload_pyspark_file|intros _].
  apply emits_bind; [apply emits_list_clusters_with_details|intros _].
  apply emits_bind; [apply emits_get_cluster_id_by_name|intros [[cluster_id bucket]|]];
    [|apply emits_raise].
  apply emits_bind; [apply emits_submit_pyspark_job|intros id].
  apply emits_bind; [apply emits_wait_for_job|intros _].
  apply emits_bind; [apply emits_download_output|intros output].
  auto 20 with emits.
Qed.

(** With [create_new_cluster] false the [finally] suite does nothing. *)
Lemma emits_main_existing_cluster (fuel : nat) (project_id : string) (zone : PyVal)
  (name bucket_name : string) (pyspark_file : option string) (global_region : bool) :
  emits quiet
    (main env fuel project_id zone name bucket_name pyspark_file false global_region).
Proof.
  unfold main. apply emits_bind; [apply emits_main_get_client|intros region].
  apply emits_try_bind_finally.
  - apply emits_main_open.
  - intros spark. apply emits_main_try.
  - intros o. apply emits_ret.
Qed.

End Quiet.

(** *** [main], step by step *)

Lemma try_bind_finally_ret_iff {A B} (first : M Call A) (rest : A -> M Call B)
  (fin : option A -> M Call unit) (w : World Call) (b : B) (w' : World Call) :
  try_bind_finally first rest fin w = Some (Ret b, w') <->
  exists a w1 w2,
    first w = Some (Ret a, w1) /\ rest a w1 = Some (Ret b, w2)
    /\ fin (Some a) w2 = Some (Ret tt, w').
Proof.
  unfold try_bind_finally, try_finally, raise. split.
  - destruct (first w) as [[[a|e] w1]|]; [| |discriminate].
    + destruct (rest a w1) as [[r w2]|] eqn:E2; [|discriminate].
      destruct (fin (Some a) w2) as [[[[]|e] w3]|] eqn:E3; try discriminate.
      intros H. inversion H; subst. exists a, w1, w2. now rewrite E2, E3.
    + destruct (fin None w1) as [[[[]|e'] w3]|]; discriminate.
  - intros (a & w1 & w2 & -> & -> & ->). reflexivity.
Qed.

Section Steps.

Variable env : Env.
Variables (fuel : nat) (project_id : string) (zone : PyVal) (name bucket_name : string).

Lemma main_try_ret_iff (create_new_cluster : bool) (region spark_file spark_filename : string)
  (w : World Call) (output : string) (w_out : World Call) :
  main_try env fuel project_id zone name bucket_name create_new_cluster region
    (spark_file, spark_filename) w = Some (Ret output, w_out)
  <->
  exists w4 w5 w6 cluster_id output_bucket w7 id w8 job w9 w10,
    new_cluster_steps env fuel project_id zone name create_new_cluster region w = Some (Ret tt, w4)
    /\ upload_pyspark_file env project_id bucket_name spark_filename spark_file w4
       = Some (Ret tt, w5)
    /\ list_clusters_with_details env project_id region w5 = Some (Ret tt, w6)
    /\ get_cluster_id_by_name env project_id region name w6
       = Some (Ret (Some (cluster_id, output_bucket)), w7)
    /\ submit_pyspark_job env project_id region name bucket_name spark_filename w7
       = Some (Ret id, w8)
    /\ wait_for_job env fuel project_id region id w8 = Some (Ret job, w9)
    /\ download_output env project_id cluster_id output_bucket id w9
       = Some (Ret output, w10)
    /\ w_out = after w10 0 [Print ("Received job output " ++ format_bytes env output)%string].
Proof.
  unfold main_try. split.
  - intros H.
    apply bind_ret_iff in H. destruct H as ([] & w4 & H4 & H).
    apply bind_ret_iff in H. destruct H as ([] & w5 & H5 & H).
    apply bind_ret_iff in H. destruct H as ([] & w6 & H6 & H).
    apply bind_ret_iff in H. destruct H as (ids & w7 & H7 & H).
    destruct ids as [[cluster_id output_bucket]|]; [|discriminate].
    apply bind_ret_iff in H. destruct H as (id & w8 & H8 & H).
    apply bind_ret_iff in H. destruct H as (job & w9 & H9 & H).
    apply bind_ret_iff in H. destruct H as (out & w10 & H10 & H).
    apply bind_ret_iff in H. destruct H as ([] & w11 & H11 & H).
    rewrite emit_after in H11. inversion H11; subst. inversion H; subst.
    exists w4, w5, w6, cluster_id, output_bucket, w7, id, w8, job, w9, w10.
    repeat split; assumption.
  - intros (w4 & w5 & w6 & cluster_id & output_bucket & w7 & id & w8 & job & w9 & w10
            & H4 & H5 & H6 & H7 & H8 & H9 & H10 & ->).
    rewrite (bind_step _ _ _ _ _ H4), (bind_step _ _ _ _ _ H5),
      (bind_step _ _ _ _ _ H6), (bind_step _ _ _ _ _ H7),
      (bind_step _ _ _ _ _ H8), (bind_step _ _ _ _ _ H9),
      (bind_step _ _ _ _ _ H10).
    unfold bind. now rewrite emit_after.
Qed.

(** The body of the [try] stops at the unpacking when the listing has
    no cluster of the name. *)
Lemma main_try_unpack_fails (create_new_cluster : bool)
  (region spark_file spark_filename : string) (w w4 w5 w6 w7 : World Call) :
  new_cluster_steps env fuel project_id zone name create_new_cluster region w = Some (Ret tt, w4) ->
  upload_pyspark_file env project_id bucket_name spark_filename spark_file w4
    = Some (Ret tt, w5) ->
  list_clusters_with_details env project_id region w5 = Some (Ret tt, w6) ->
  get_cluster_id_by_name env project_id region name w6 = Some (Ret None, w7) ->
  main_try env fuel project_id zone name bucket_name create_new_cluster region
    (spark_file, spark_filename) w
  = Some (Raise (TypeError "cannot unpack non-iterable NoneType object"), w7).
Proof.
  intros H4 H5 H6 H7. unfold main_try.
  rewrite (bind_step _ _ _ _ _ H4), (bind_step _ _ _ _ _ H5),
    (bind_step _ _ _ _ _ H6), (bind_step _ _ _ _ _ H7).
  reflexivity.
Qed.

End Steps.

(** *** The states at which a wait stops *)

Lemma stops_at_cluster_state (st : ClusterState) :
  stops_at "RUNNING" (ClusterState_Name st) = true
  <-> st = CS_RUNNING \/ st = CS_ERROR \/ exists number, st = CS_unrecognized number.
Proof.
  destruct st; cbn; split; intros H; try discriminate; auto;
    try (destruct H as [H|[H|[number H]]]; discriminate).
  right. right. now exists number.
Qed.

Lemma stops_at_job_state (st : JobState) :
  stops_at "DONE" (JobState_Name st) = true
  <-> st = JS_DONE \/ st = JS_ERROR \/ exists number, st = JS_unrecognized number.
Proof.
  destruct st; cbn; split; intros H; try discriminate; auto;
    try (destruct H as [H|[H|[number H]]]; discriminate).
  right. right. now exists number.
Qed.

Lemma settles_iff (name : string) (clusters : list Cluster) :
  settles name clusters = true
  <-> exists c, In c clusters /\ cluster_name c = name
                /\ (cluster_state c = CS_RUNNING \/ cluster_state c = CS_ERROR
                    \/ exists number, cluster_state c = CS_unrecognized number).
Proof.
  unfold settles. rewrite existsb_exists. split.
  - intros (c & Hin & Hs). unfold settling in Hs. apply andb_true_iff in Hs.
    destruct Hs as [Hname Hst]. exists c. split; [exact Hin|].
    split; [now apply String.eqb_eq|now apply stops_at_cluster_state].
  - intros (c & Hin & Hname & Hst). exists c. split; [exact Hin|].
    unfold settling. apply andb_true_iff.
    split; [now apply String.eqb_eq|now apply stops_at_cluster_state].
Qed.

(** C1, as amended.  [wait_for_job] classifies each polled job by the
    name of its state and no further.  Let polls 0..n-1 be passed over
    and the run have fuel for poll [n].  If job [n] is in state ERROR
    the run raises the bare [Exception] carrying [job.status.details];
    if DONE it returns that job; if its state is a number without a
    name, the run raises the [ValueError] of [State.Name] after poll
    [n]; in any other state the run has not returned after poll [n],
    and whatever it ends in, its next effect after poll [n] is the
    next [get_job] call. *)
Theorem wait_for_job_classification (env : Env) (project region id : string)
  (jobs : nat -> Job) (w : World Call) (n fuel : nat) :
  (forall k, k <= n -> get_job_answer env (clock w + k) = Ret (jobs k)) ->
  (forall k, k < n -> finished (jobs k) = false) ->
  n < fuel ->
  (job_state (jobs n) = JS_ERROR ->
     wait_for_job env fuel project region id w
     = Some (Raise (Exception_ (job_details (jobs n))),
             after w (S n) (job_polls project region id (S n))))
  /\ (job_state (jobs n) = JS_DONE ->
     wait_for_job env fuel project region id w
     = Some (Ret (jobs n),
             after w (S n) (job_polls project region id (S n) ++ [Print "Job finished."])))
  /\ (forall number, job_state (jobs n) = JS_unrecognized number ->
     wait_for_job env fuel project region id w
     = Some (Raise (no_name number), after w (S n) (job_polls project region id (S n)))
     /\ exists msg, no_name number = ValueError msg)
  /\ (job_state (jobs n) <> JS_ERROR -> job_state (jobs n) <> JS_DONE ->
      (forall number, job_state (jobs n) <> JS_unrecognized number) ->
     wait_for_job env (S n) project region id w = None
     /\ forall r w',
          wait_for_job env fuel project region id w = Some (r, w') ->
          exists calls evs,
            w' = after w (S n + S calls)
                   (job_polls project region id (S n)
                      ++ Sdk (rpc_get_job project region id) :: evs)).
Proof.
  intros Ha Hp Hfuel.
  assert (forall st, job_state (jobs n) = st -> stops_at "DONE" (JobState_Name st) = true ->
            wait_for_job env fuel project region id w
            = Some (fst (job_verdict (jobs n)),
                    after w (S n) (job_polls project region id (S n)
                                     ++ snd (job_verdict (jobs n))))) as Hrun.
  { intros st Hs Hst. apply wait_for_job_run; trivial.
    unfold finished. now rewrite Hs. }
  split; [|split; [|split]].
  - intros Hs. rewrite (Hrun _ Hs eq_refl). unfold job_verdict. rewrite Hs.
    cbn. now rewrite app_nil_r.
  - intros Hs. rewrite (Hrun _ Hs eq_refl). unfold job_verdict. now rewrite Hs.
  - intros number Hs. split; [|eexists; reflexivity].
    rewrite (Hrun _ Hs eq_refl). unfold job_verdict. rewrite Hs.
    cbn. now rewrite app_nil_r.
  - intros Hne Hnd Hnum.
    assert (finished (jobs n) = false) as Hf.
    { unfold finished. apply not_true_is_false. intros Hst.
      apply stops_at_job_state in Hst.
      destruct Hst as [Hst|[Hst|[number Hst]]]; [now apply Hnd|now apply Hne|].
      now apply (Hnum number). }
    assert (forall k, k < S n ->
              job_poll_ends (get_job_answer env (clock w + k)) = false) as Hall.
    { intros k Hk. rewrite Ha by lia. cbn [job_poll_ends].
      destruct (Nat.eq_dec k n) as [->|]; [exact Hf|apply Hp; lia]. }
    split.
    + now apply wait_for_job_still_running.
    + intros r w' H. unfold wait_for_job, bind in H. rewrite emit_after in H.
      replace fuel with (S n + (fuel - S n)) in H by lia.
      rewrite wait_for_job_loop_pending in H.
      * apply wait_for_job_loop_polls_first in H.
        destruct H as (calls & evs & ->). exists calls, evs.
        rewrite !after_after. reflexivity.
      * intros k Hk. rewrite after_clock, Nat.add_0_r.
        apply job_poll_pending, Hall, Hk.
Qed.

Lemma wait_for_job_classification_witness :
  wait_for_job (calm 0 2) 3 "p" "r" "job-7" start
  = Some (Ret (the_job JS_DONE),
          after start 3 (job_polls "p" "r" "job-7" 3 ++ [Print "Job finished."])).
Proof.
  apply (wait_for_job_classification (calm 0 2) "p" "r" "job-7"
           (fun k => the_job (if (k <? 2)%nat then JS_RUNNING else JS_DONE)) start 2 3).
  - intros k Hk. reflexivity.
  - intros k Hk. destruct k as [|[|k]]; [reflexivity|reflexivity|lia].
  - lia.
  - reflexivity.
Defined.

(** C1, as stated, fails.  A job whose state is a number the [State]
    enum has no name for is in a state other than ERROR and DONE, and
    [wait_for_job] does not poll again: it raises after that one poll.
    So it is not so that the wait goes on for as long as the job is in
    a state other than ERROR and DONE. *)
Lemma wait_for_job_unnamed_state_is_not_polled_again :
  (forall k, get_job_answer odd_states k = Ret (the_job (JS_unrecognized 10)))
  /\ job_state (the_job (JS_unrecognized 10)) <> JS_ERROR
  /\ job_state (the_job (JS_unrecognized 10)) <> JS_DONE
  /\ wait_for_job odd_states 5 "p" "r" "job-7" start
     = Some (Raise (no_name 10), after start 1 (job_polls "p" "r" "job-7" 1))
  /\ (exists msg, no_name 10 = ValueError msg)
  /\ ~ (forall (env : Env) (job : Job) (fuel : nat),
          (forall k, get_job_answer env k = Ret job) ->
          job_state job <> JS_ERROR -> job_state job <> JS_DONE ->
          wait_for_job env fuel "p" "r" "job-7" start = None).
Proof.
  assert (wait_for_job odd_states 5 "p" "r" "job-7" start
          = Some (Raise (no_name 10), after start 1 (job_polls "p" "r" "job-7" 1)))
    as Hrun by (vm_compute; reflexivity).
  split; [reflexivity|]. split; [discriminate|]. split; [discriminate|].
  split; [exact Hrun|]. split; [eexists; reflexivity|].
  intros H.
  rewrite (H odd_states (the_job (JS_unrecognized 10)) 5) in Hrun;
    [discriminate|reflexivity|discriminate|discriminate].
Qed.

(** C2, as amended.  Both polling loops have no bound, no pause and no
    retry.  A poll ends the wait when the call raises, or when the
    listing holds the named cluster in state RUNNING or ERROR or in a
    state without a name (resp. the polled job is DONE or ERROR or in a
    state without a name).  The wait halts, by returning or raising,
    exactly when some poll ends it; it has no result for any fuel when
    no poll ever does; however late the first such poll [n] is, fuel
    above [n] is enough; and a run that halts has made its [n+1] calls
    back to back, with nothing between them in the trace and at most
    the closing message after them. *)
Theorem polling_loops_halt_iff_some_poll_ends (env : Env) (project region : string) :
  (forall (name : string) (w : World Call),
      (halts (fun fuel => wait_for_cluster_creation env fuel project region name) w
       <-> exists n,
             cluster_poll_ends name (list_clusters_answer env (clock w + n)) = true)
      /\ ((forall n,
             cluster_poll_ends name (list_clusters_answer env (clock w + n)) = false) ->
          forall fuel, wait_for_cluster_creation env fuel project region name w = None)
      /\ (forall n,
            cluster_poll_ends name (list_clusters_answer env (clock w + n)) = true ->
            forall fuel, n < fuel ->
              exists r w', wait_for_cluster_creation env fuel project region name w
                           = Some (r, w'))
      /\ (forall fuel r w',
            wait_for_cluster_creation env fuel project region name w = Some (r, w') ->
            exists n tail,
              n < fuel /\
              cluster_poll_ends name (list_clusters_answer env (clock w + n)) = true /\
              (forall k, k < n ->
                 cluster_poll_ends name (list_clusters_answer env (clock w + k)) = false) /\
              w' = after w (S n) (cluster_polls project region (S n) ++ tail) /\
              (tail = [] \/ tail = [Print "Cluster created."])))
  /\
  (forall (id : string) (w : World Call),
      (halts (fun fuel => wait_for_job env fuel project region id) w
       <-> exists n, job_poll_ends (get_job_answer env (clock w + n)) = true)
      /\ ((forall n, job_poll_ends (get_job_answer env (clock w + n)) = false) ->
          forall fuel, wait_for_job env fuel project region id w = None)
      /\ (forall n, job_poll_ends (get_job_answer env (clock w + n)) = true ->
          forall fuel, n < fuel ->
            exists r w', wait_for_job env fuel project region id w = Some (r, w'))
      /\ (forall fuel r w',
            wait_for_job env fuel project region id w = Some (r, w') ->
            exists n tail,
              n < fuel /\ job_poll_ends (get_job_answer env (clock w + n)) = true /\
              (forall k, k < n ->
                 job_poll_ends (get_job_answer env (clock w + k)) = false) /\
              w' = after w (S n) (job_polls project region id (S n) ++ tail) /\
              (tail = [] \/ tail = [Print "Job finished."])))
  /\
  (forall (name : string) (answer : outcome (list Cluster)),
      cluster_poll_ends name answer = true
      <-> (exists e, answer = Raise e)
          \/ exists clusters c,
               answer = Ret clusters /\ In c clusters /\ cluster_name c = name
               /\ (cluster_state c = CS_RUNNING \/ cluster_state c = CS_ERROR
                   \/ exists number, cluster_state c = CS_unrecognized number))
  /\
  (forall answer : outcome Job,
      job_poll_ends answer = true
      <-> (exists e, answer = Raise e)
          \/ exists job,
               answer = Ret job
               /\ (job_state job = JS_DONE \/ job_state job = JS_ERROR
                   \/ exists number, job_state job = JS_unrecognized number)).
Proof.
  split; [|split; [|split]].
  - intros name w.
    assert (forall n,
              cluster_poll_ends name (list_clusters_answer env (clock w + n)) = true ->
              forall fuel, n < fuel ->
                exists r w', wait_for_cluster_creation env fuel project region name w
                             = Some (r, w')) as Henough.
    { intros n Hn fuel Hfuel.
      destruct (first_true
                  (fun k => cluster_poll_ends name (list_clusters_answer env (clock w + k)))
                  n Hn) as (m & Hm & Hsm & Hlt). cbv beta in Hsm, Hlt.
      pose proof (wait_for_cluster_ends env project region name w m fuel Hlt Hsm
                    ltac:(lia)) as Hrun.
      destruct (list_clusters_answer env (clock w + m)) as [cl|e]; [|eauto].
      destruct Hrun as (c & _ & Hrun). eauto. }
    split; [split|split; [|split]].
    + intros (fuel & r & w' & H).
      destruct (wait_for_cluster_halts_inv env project region name w fuel r w' H)
        as (n & _ & _ & Hn & _).
      now exists n.
    + intros (n & Hn). destruct (Henough n Hn (S n)) as (r & w' & H); [lia|].
      now exists (S n), r, w'.
    + intros Hnever fuel. apply wait_for_cluster_still_running. auto.
    + exact Henough.
    + intros fuel r w'. apply wait_for_cluster_halts_inv.
  - intros id w.
    assert (forall n, job_poll_ends (get_job_answer env (clock w + n)) = true ->
              forall fuel, n < fuel ->
                exists r w', wait_for_job env fuel project region id w = Some (r, w'))
      as Henough.
    { intros n Hn fuel Hfuel.
      destruct (first_true (fun k => job_poll_ends (get_job_answer env (clock w + k)))
                  n Hn) as (m & Hm & Hsm & Hlt). cbv beta in Hsm, Hlt.
      rewrite (wait_for_job_ends env project region id w m fuel); trivial; [|lia].
      destruct (get_job_answer env (clock w + m)); eauto. }
    split; [split|split; [|split]].
    + intros (fuel & r & w' & H).
      destruct (wait_for_job_halts_inv env project region id w fuel r w' H)
        as (n & _ & _ & Hn & _).
      now exists n.
    + intros (n & Hn). destruct (Henough n Hn (S n)) as (r & w' & H); [lia|].
      now exists (S n), r, w'.
    + intros Hnever fuel. apply wait_for_job_still_running. auto.
    + exact Henough.
    + intros fuel r w'. apply wait_for_job_halts_inv.
  - intros name [clusters|e]; cbn [cluster_poll_ends].
    + rewrite settles_iff. split.
      * intros (c & Hin & Hname & Hst). right. now exists clusters, c.
      * intros [(e & He)|(clusters' & c & Heq & Hin & Hname & Hst)]; [discriminate|].
        inversion Heq; subst. now exists c.
    + split; [intros _; left; now exists e|reflexivity].
  - intros [job|e]; cbn [job_poll_ends].
    + unfold finished. rewrite stops_at_job_state. split.
      * intros Hst. right. now exists job.
      * intros [(e & He)|(job' & Heq & Hst)]; [discriminate|].
        inversion Heq; subst. exact Hst.
    + split; [intros _; left; now exists e|reflexivity].
Qed.

Lemma polling_loops_halt_iff_some_poll_ends_witness :
  halts (fun fuel => wait_for_job (calm 0 2) fuel "p" "r" "job-7") start
  /\ halts (fun fuel => wait_for_cluster_creation (calm 4 0) fuel "p" "r" "demo") start.
Proof.
  destruct (polling_loops_halt_iff_some_poll_ends (calm 0 2) "p" "r") as (_ & Hjob & _).
  destruct (polling_loops_halt_iff_some_poll_ends (calm 4 0) "p" "r") as (Hcluster & _).
  split.
  - apply (Hjob "job-7" start). exists 2. reflexivity.
  - apply (Hcluster "demo" start). exists 4. reflexivity.
Defined.

(** C2, as stated, fails.  When every call fails, each wait halts at
    its first poll, by raising what the call raised, and no poll ever
    reported a cluster or a job in any state.  When the service reports
    a state without a name, each wait halts at its first poll with the
    [ValueError] of [State.Name], and no poll reported RUNNING, DONE or
    ERROR.  So a wait can halt although the polled cluster never
    reports RUNNING or ERROR, and the polled job never DONE or ERROR. *)
Lemma polling_loops_halt_without_final_state :
  halts (fun fuel => wait_for_cluster_creation (fickle 0) fuel "p" "r" "demo") start
  /\ halts (fun fuel => wait_for_job (fickle 0) fuel "p" "r" "job-7") start
  /\ (forall n, list_clusters_answer (fickle 0) n
                = Raise (LibraryError "ServiceUnavailable"))
  /\ (forall n, get_job_answer (fickle 0) n = Raise (LibraryError "ServiceUnavailable"))
  /\ wait_for_cluster_creation odd_states 1 "p" "r" "demo" start
     = Some (Raise (no_name 9), after start 1 (cluster_polls "p" "r" 1))
  /\ (forall n, list_clusters_answer odd_states n = Ret [the_cluster (CS_unrecognized 9)])
  /\ reports_running_or_error "demo" [the_cluster (CS_unrecognized 9)] = false
  /\ ~ (forall (env : Env) (name : string) (w : World Call),
          halts (fun fuel => wait_for_cluster_creation env fuel "p" "r" name) w ->
          exists n clusters,
            list_clusters_answer env (clock w + n) = Ret clusters
            /\ reports_running_or_error name clusters = true)
  /\ ~ (forall (env : Env) (id : string) (w : World Call),
          halts (fun fuel => wait_for_job env fuel "p" "r" id) w ->
          exists n job,
            get_job_answer env (clock w + n) = Ret job
            /\ reports_done_or_error job = true).
Proof.
  assert (halts (fun fuel => wait_for_cluster_creation (fickle 0) fuel "p" "r" "demo")
            start) as Hcluster.
  { exists 1. do 2 eexists. vm_compute. reflexivity. }
  assert (halts (fun fuel => wait_for_job (fickle 0) fuel "p" "r" "job-7") start)
    as Hjob.
  { exists 1. do 2 eexists. vm_compute. reflexivity. }
  split; [exact Hcluster|]. split; [exact Hjob|].
  split; [reflexivity|]. split; [reflexivity|].
  split; [vm_compute; reflexivity|]. split; [reflexivity|]. split; [reflexivity|].
  split.
  - intros H. destruct (H _ _ _ Hcluster) as (n & clusters & Ha & _). discriminate.
  - intros H. destruct (H _ _ _ Hjob) as (n & job & Ha & _). discriminate.
Qed.

Lemma get_region_from_zone_raise_inv (v : PyVal) (e : exn) :
  get_region_from_zone v = Raise e ->
  (forall s, v <> PyStr s)
  /\ ((e = ValueError "Invalid zone provided, please check your input."
       /\ exists m, py_split v hyphen = Raise (AttributeError m))
      \/ (exists m, e = TypeError m /\ py_split v hyphen = Raise (TypeError m))).
Proof.
  intros H. destruct v as [s|b| |z]; cbn in H; [discriminate| | |];
    inversion H; subst; (split; [intros s; discriminate|]).
  - right. eexists. split; reflexivity.
  - left. split; [reflexivity|eexists; reflexivity].
  - left. split; [reflexivity|eexists; reflexivity].
Qed.

(** C8.  On a string, [get_region_from_zone] returns and never raises:
    the result is the hyphen-join of all hyphen-separated components
    of the zone but the last (the components are hyphen-free and join
    back to the zone), so it is the empty string for a zone without a
    hyphen and the text before the last hyphen otherwise.  Whatever it
    raises, it raises for a value that is not a string; the
    [ValueError] comes only from the caught [AttributeError] of such a
    value, and the one other exception is the [TypeError] of
    [bytes.split], which is not caught. *)
Theorem get_region_from_zone_on_strings :
  (forall zone : string,
      get_region_from_zone (PyStr zone) = Ret (join "-" (but_last (split hyphen zone)))
      /\ join "-" (split hyphen zone) = zone
      /\ Forall (fun part => occurs hyphen part = false) (split hyphen zone))
  /\ (forall zone : string,
        occurs hyphen zone = false -> get_region_from_zone (PyStr zone) = Ret "")
  /\ (forall region last : string,
        occurs hyphen last = false ->
        get_region_from_zone (PyStr (region ++ "-" ++ last)) = Ret region)
  /\ (forall (v : PyVal) (e : exn),
        get_region_from_zone v = Raise e ->
        (forall s, v <> PyStr s)
        /\ ((e = ValueError "Invalid zone provided, please check your input."
             /\ exists m, py_split v hyphen = Raise (AttributeError m))
            \/ (exists m, e = TypeError m /\ py_split v hyphen = Raise (TypeError m))))
  /\ (forall (v : PyVal) (msg : string),
        get_region_from_zone v = Raise (ValueError msg) ->
        msg = "Invalid zone provided, please check your input."
        /\ (forall s, v <> PyStr s)
        /\ exists m, py_split v hyphen = Raise (AttributeError m)).
Proof.
  split; [|split; [|split; [|split]]].
  - intros zone. split; [reflexivity|]. split.
    + apply (join_split hyphen).
    + apply split_parts_free.
  - intros zone H. unfold get_region_from_zone, py_split, try_except.
    now rewrite (split_free hyphen zone H).
  - intros region last H. unfold get_region_from_zone, py_split, try_except.
    change (region ++ "-" ++ last)%string with (region ++ String hyphen last)%string.
    rewrite (split_app hyphen region last H). unfold but_last.
    rewrite removelast_last. f_equal. apply (join_split hyphen).
  - exact get_region_from_zone_raise_inv.
  - intros v msg H. apply get_region_from_zone_raise_inv in H.
    destruct H as (Hv & [(He & Hsplit)|(m & He & _)]); [|discriminate].
    inversion He; subst. now repeat split.
Qed.

Lemma get_region_from_zone_on_strings_witness :
  get_region_from_zone (PyStr "global") = Ret ""
  /\ get_region_from_zone (PyStr ("us-central1" ++ "-" ++ "a")) = Ret "us-central1"
  /\ forall s, PyNone <> PyStr s.
Proof.
  destruct get_region_from_zone_on_strings as (_ & Hnone & Hlast & Hraise & _).
  split; [apply Hnone; reflexivity|].
  split; [apply Hlast; reflexivity|].
  apply (Hraise PyNone (ValueError "Invalid zone provided, please check your input.")).
  reflexivity.
Defined.

(** C3, as amended.  A run of [main] returns [output] exactly when each
    of its steps returns, in this order and each from the world the
    one before left: the two clients, opening the file, (with
    [create_new_cluster]) [create_cluster] and
    [wait_for_cluster_creation], [upload_pyspark_file],
    [list_clusters_with_details], [get_cluster_id_by_name] (finding the
    cluster), [submit_pyspark_job], [wait_for_job], [download_output]
    (whose result is [output]), the message, and (with
    [create_new_cluster]) [delete_cluster] and closing the file. *)
Theorem main_sequence (env : Env) (fuel : nat) (project_id : string) (zone : PyVal)
  (name bucket_name : string) (pyspark_file : option string) (global_region : bool)
  (w : World Call) (output : string) (w_end : World Call) :
  (main env fuel project_id zone name bucket_name pyspark_file true global_region w
   = Some (Ret output, w_end)
   <->
   exists region w1 spark_file spark_filename w2 cluster w3 w4 w5 w6
          cluster_id output_bucket w7 id w8 job w9 w10 result w11,
     main_get_client env zone global_region w = Some (Ret region, w1)
     /\ main_open env pyspark_file w1 = Some (Ret (spark_file, spark_filename), w2)
     /\ create_cluster env project_id zone region name w2 = Some (Ret cluster, w3)
     /\ wait_for_cluster_creation env fuel project_id region name w3 = Some (Ret tt, w4)
     /\ upload_pyspark_file env project_id bucket_name spark_filename spark_file w4
        = Some (Ret tt, w5)
     /\ list_clusters_with_details env project_id region w5 = Some (Ret tt, w6)
     /\ get_cluster_id_by_name env project_id region name w6
        = Some (Ret (Some (cluster_id, output_bucket)), w7)
     /\ submit_pyspark_job env project_id region name bucket_name spark_filename w7
        = Some (Ret id, w8)
     /\ wait_for_job env fuel project_id region id w8 = Some (Ret job, w9)
     /\ download_output env project_id cluster_id output_bucket id w9
        = Some (Ret output, w10)
     /\ delete_cluster env project_id region name
          (after w10 0 [Print ("Received job output " ++ format_bytes env output)%string])
        = Some (Ret result, w11)
     /\ call (file_close spark_file) (close_answer env) w11 = Some (Ret tt, w_end))
  /\
  (main env fuel project_id zone name bucket_name pyspark_file false global_region w
   = Some (Ret output, w_end)
   <->
   exists region w1 spark_file spark_filename w2 w5 w6
          cluster_id output_bucket w7 id w8 job w9 w10,
     main_get_client env zone global_region w = Some (Ret region, w1)
     /\ main_open env pyspark_file w1 = Some (Ret (spark_file, spark_filename), w2)
     /\ upload_pyspark_file env project_id bucket_name spark_filename spark_file w2
        = Some (Ret tt, w5)
     /\ list_clusters_with_details env project_id region w5 = Some (Ret tt, w6)
     /\ get_cluster_id_by_name env project_id region name w6
        = Some (Ret (Some (cluster_id, output_bucket)), w7)
     /\ submit_pyspark_job env project_id region name bucket_name spark_filename w7
        = Some (Ret id, w8)
     /\ wait_for_job env fuel project_id region id w8 = Some (Ret job, w9)
     /\ download_output env project_id cluster_id output_bucket id w9
        = Some (Ret output, w10)
     /\ w_end = after w10 0 [Print ("Received job output " ++ format_bytes env output)%string]).
Proof.
  split; split.
  - intros H. unfold main in H.
    apply bind_ret_iff in H. destruct H as (region & w1 & H1 & H).
    apply try_bind_finally_ret_iff in H.
    destruct H as ([spark_file spark_filename] & w2 & wt & H2 & Ht & Hf).
    apply main_try_ret_iff in Ht.
    destruct Ht as (w4 & w5 & w6 & cluster_id & output_bucket & w7 & id & w8 & job
                    & w9 & w10 & H4 & H5 & H6 & H7 & H8 & H9 & H10 & ->).
    unfold new_cluster_steps in H4.
    apply bind_ret_iff in H4. destruct H4 as (cluster & w3 & H3 & H4).
    unfold main_finally in Hf.
    apply bind_ret_iff in Hf. destruct Hf as (result & w11 & H11 & H12).
    exists region, w1, spark_file, spark_filename, w2, cluster, w3, w4, w5, w6,
      cluster_id, output_bucket, w7, id, w8, job, w9, w10, result, w11.
    repeat split; assumption.
  - intros (region & w1 & spark_file & spark_filename & w2 & cluster & w3 & w4 & w5
            & w6 & cluster_id & output_bucket & w7 & id & w8 & job & w9 & w10
            & result & w11 & H1 & H2 & H3 & H4 & H5 & H6 & H7 & H8 & H9 & H10
            & H11 & H12).
    unfold main. rewrite (bind_step _ _ _ _ _ H1).
    apply try_bind_finally_ret_iff.
    exists (spark_file, spark_filename), w2,
      (after w10 0 [Print ("Received job output " ++ format_bytes env output)%string]).
    split; [exact H2|]. split.
    + apply main_try_ret_iff.
      exists w4, w5, w6, cluster_id, output_bucket, w7, id, w8, job, w9, w10.
      repeat split; try assumption.
      unfold new_cluster_steps. now rewrite (bind_step _ _ _ _ _ H3).
    + unfold main_finally. now rewrite (bind_step _ _ _ _ _ H11).
  - intros H. unfold main in H.
    apply bind_ret_iff in H. destruct H as (region & w1 & H1 & H).
    apply try_bind_finally_ret_iff in H.
    destruct H as ([spark_file spark_filename] & w2 & wt & H2 & Ht & Hf).
    apply main_try_ret_iff in Ht.
    destruct Ht as (w4 & w5 & w6 & cluster_id & output_bucket & w7 & id & w8 & job
                    & w9 & w10 & H4 & H5 & H6 & H7 & H8 & H9 & H10 & ->).
    unfold new_cluster_steps, ret in H4. inversion H4; subst.
    unfold main_finally, ret in Hf. inversion Hf; subst.
    exists region, w1, spark_file, spark_filename, w4, w5, w6,
      cluster_id, output_bucket, w7, id, w8, job, w9, w10.
    repeat split; assumption.
  - intros (region & w1 & spark_file & spark_filename & w2 & w5
            & w6 & cluster_id & output_bucket & w7 & id & w8 & job & w9 & w10
            & H1 & H2 & H5 & H6 & H7 & H8 & H9 & H10 & ->).
    unfold main. rewrite (bind_step _ _ _ _ _ H1).
    apply try_bind_finally_ret_iff.
    exists (spark_file, spark_filename), w2,
      (after w10 0 [Print ("Received job output " ++ format_bytes env output)%string]).
    split; [exact H2|]. split; [|reflexivity].
    apply main_try_ret_iff.
    exists w2, w5, w6, cluster_id, output_bucket, w7, id, w8, job, w9, w10.
    repeat split; assumption.
Qed.

(** A run of [main] on a new cluster that returns, found by running
    its twelve steps one after the other. *)
Lemma main_sequence_witness :
  main (calm 0 0) 1 "p" (PyStr "us-central1-a") "demo" "b" None true true start
  = Some (Ret "1 2 3", calm_end).
Proof.
  apply (proj2 (proj1 (main_sequence (calm 0 0) 1 "p" (PyStr "us-central1-a") "demo"
                         "b" None true start "1 2 3" calm_end))).
  do 20 eexists.
  repeat (split; [cbv; reflexivity|]). cbv. reflexivity.
Defined.

(** C3, as stated, fails.  On a run where every call succeeds at once,
    the service calls of [main] are not those of the six listed steps,
    whatever fuel, file, cluster id and bucket the six steps are given:
    [main] also lists the clusters twice more and deletes the cluster. *)
Lemma main_steps_as_specified_fails :
  ~ (forall output w_end,
        main (calm 0 0) 1 "p" (PyStr "us-central1-a") "demo" "b" None true true start
        = Some (Ret output, w_end) ->
        exists fuel region spark_file spark_filename cluster_id output_bucket now w',
          main_steps_as_specified (calm 0 0) fuel "p" (PyStr "us-central1-a") "demo" "b"
            true region spark_file spark_filename cluster_id output_bucket
            (mkWorld now []) = Some (Ret output, w')
          /\ rpcs (trace w_end) = rpcs (trace w')).
Proof.
  intros H.
  assert (main (calm 0 0) 1 "p" (PyStr "us-central1-a") "demo" "b" None true true start
          = Some (Ret "1 2 3", calm_end)) as Hmain by (vm_compute; reflexivity).
  destruct (H _ _ Hmain)
    as (fuel & region & spark_file & spark_filename & cluster_id & output_bucket
        & now & w' & Hrun & Hsame).
  destruct fuel as [|fuel]; [discriminate|].
  cbv in Hrun. inversion Hrun; subst; clear Hrun.
  cbv in Hsame. discriminate.
Qed.

(** C9.  [get_cluster_id_by_name] makes one listing call and returns
    the pair (uuid, bucket) of the first listed cluster of the given
    name, or [None] when no listed cluster has it.  When [main] gets
    as far as that call and the listing has no such cluster, the
    unpacking raises [TypeError], and that is what [main] raises:
    directly with [create_new_cluster] false, and after a [finally]
    suite that itself succeeds with [create_new_cluster] true. *)
Theorem get_cluster_id_by_name_absent (env : Env) (project_id region name : string) :
  (forall w,
      get_cluster_id_by_name env project_id region name w
      = Some (match list_clusters_answer env (clock w) with
              | Ret clusters => Ret (first_cluster_named name clusters)
              | Raise e => Raise e
              end,
              after w 1 [Sdk (rpc_list_clusters project_id region)]))
  /\ (forall before c rest,
        (forall x, In x before -> cluster_name x <> name) ->
        cluster_name c = name ->
        first_cluster_named name (before ++ c :: rest)
        = Some (cluster_uuid c, config_bucket c))
  /\ (forall clusters,
        first_cluster_named name clusters = None
        <-> forall x, In x clusters -> cluster_name x <> name)
  /\ (forall fuel zone bucket_name pyspark_file create_new_cluster global_region
              w w1 spark_file spark_filename w2 w4 w5 w6 clusters,
        main_get_client env zone global_region w = Some (Ret region, w1) ->
        main_open env pyspark_file w1 = Some (Ret (spark_file, spark_filename), w2) ->
        new_cluster_steps env fuel project_id zone name create_new_cluster region w2
        = Some (Ret tt, w4) ->
        upload_pyspark_file env project_id bucket_name spark_filename spark_file w4
        = Some (Ret tt, w5) ->
        list_clusters_with_details env project_id region w5 = Some (Ret tt, w6) ->
        list_clusters_answer env (clock w6) = Ret clusters ->
        (forall x, In x clusters -> cluster_name x <> name) ->
        let w7 := after w6 1 [Sdk (rpc_list_clusters project_id region)] in
        (create_new_cluster = false ->
         exists msg,
           main env fuel project_id zone name bucket_name pyspark_file false
             global_region w = Some (Raise (TypeError msg), w7))
        /\ (create_new_cluster = true ->
            forall result w8 w9,
              delete_cluster env project_id region name w7 = Some (Ret result, w8) ->
              call (file_close spark_file) (close_answer env) w8 = Some (Ret tt, w9) ->
              exists msg,
                main env fuel project_id zone name bucket_name pyspark_file true
                  global_region w = Some (Raise (TypeError msg), w9))).
Proof.
  assert (forall clusters,
             first_cluster_named name clusters = None
             <-> forall x, In x clusters -> cluster_name x <> name) as Hnone.
  { induction clusters as [|c rest IH]; cbn [first_cluster_named].
    - split; [intros _ x []|reflexivity].
    - destruct (String.eqb_spec (cluster_name c) name) as [Heq|Hne].
      + split; [discriminate|]. intros H. exfalso. apply (H c); [now left|exact Heq].
      + rewrite IH. split.
        * intros H x [<-|Hx]; [exact Hne|now apply H].
        * intros H x Hx. apply H. now right. }
  assert (forall w,
             get_cluster_id_by_name env project_id region name w
             = Some (match list_clusters_answer env (clock w) with
                     | Ret clusters => Ret (first_cluster_named name clusters)
                     | Raise e => Raise e
                     end,
                     after w 1 [Sdk (rpc_list_clusters project_id region)])) as Hcall.
  { intros w. unfold get_cluster_id_by_name, bind. rewrite call_after.
    destruct (list_clusters_answer env (clock w)); reflexivity. }
  split; [exact Hcall|]. split; [|split; [exact Hnone|]].
  - intros before c rest Hbefore Hc.
    induction before as [|b before IH]; cbn [app first_cluster_named].
    + now rewrite Hc, String.eqb_refl.
    + destruct (String.eqb_spec (cluster_name b) name) as [Heq|Hne].
      * exfalso. apply (Hbefore b); [now left|exact Heq].
      * apply IH. intros x Hx. apply Hbefore. now right.
  - intros fuel zone bucket_name pyspark_file create_new_cluster global_region
      w w1 spark_file spark_filename w2 w4 w5 w6 clusters H1 H2 H4 H5 H6 Ha Habsent w7.
    assert (get_cluster_id_by_name env project_id region name w6 = Some (Ret None, w7))
      as H7.
    { rewrite Hcall, Ha. apply Hnone in Habsent. now rewrite Habsent. }
    pose proof (main_try_unpack_fails env fuel project_id zone name bucket_name
                  create_new_cluster region spark_file spark_filename
                  w2 w4 w5 w6 w7 H4 H5 H6 H7) as Htry.
    split.
    + intros ->. eexists. unfold main. rewrite (bind_step _ _ _ _ _ H1).
      unfold try_bind_finally. rewrite H2. unfold try_finally. rewrite Htry.
      reflexivity.
    + intros -> result w8 w9 H8 H9. eexists. unfold main.
      rewrite (bind_step _ _ _ _ _ H1).
      unfold try_bind_finally. rewrite H2. unfold try_finally. rewrite Htry.
      unfold main_finally. rewrite (bind_step _ _ _ _ _ H8), H9.
      reflexivity.
Qed.

Lemma get_cluster_id_by_name_absent_witness :
  exists msg w',
    main empty_region 0 "p" (PyStr "us-central1-a") "demo" "b" (Some "jobs/sort.py")
      false false start = Some (Raise (TypeError msg), w').
Proof.
  destruct (get_cluster_id_by_name_absent empty_region "p" "us-central1" "demo")
    as (_ & _ & _ & Hmain).
  edestruct (Hmain 0 (PyStr "us-central1-a") "b" (Some "jobs/sort.py") false false start)
    as [Hexisting _].
  - cbv; reflexivity.
  - cbv; reflexivity.
  - cbv; reflexivity.
  - cbv; reflexivity.
  - cbv; reflexivity.
  - cbv; reflexivity.
  - intros x [].
  - destruct (Hexisting eq_refl) as (msg & Hrun). exists msg. eexists. exact Hrun.
Defined.

(** *** The [finally] suite *)

Lemma main_finally_run (env : Env) (project_id name region : string)
  (spark : option (string * string)) (w : World Call) (r : outcome unit)
  (w' : World Call) :
  main_finally env project_id name true region spark w = Some (r, w') ->
  exists calls closing,
    w' = after w calls
           ([Print "Tearing down cluster.";
             Sdk (rpc_delete_cluster project_id region name)] ++ closing)
    /\ (closing = [] \/ exists f, closing = [Sdk (file_close f)]).
Proof.
  unfold main_finally, delete_cluster, bind, emit, call, ret, raise.
  cbn [clock trace].
  destruct (delete_cluster_answer env (clock w)) as [result|e];
    [destruct spark as [[spark_file spark_filename]|]|];
    intros H; inversion H; subst; clear H.
  - exists 2, [Sdk (file_close spark_file)]. split; [|right; now exists spark_file].
    unfold after. f_equal; [lia|]. rewrite <- ?app_assoc. reflexivity.
  - exists 1, []. split; [|now left].
    unfold after. f_equal; [lia|]. rewrite <- ?app_assoc. reflexivity.
  - exists 1, []. split; [|now left].
    unfold after. f_equal; [lia|]. rewrite <- ?app_assoc. reflexivity.
Qed.

(** C10, as amended.  With [create_new_cluster] true, every run of
    [main] that ends either stopped before the [try], on an exception
    raised while the region was resolved and the clients were built
    (then nothing of the clean-up was called), or has called
    [delete_cluster] once, after everything else and before at most
    the closing of the file, whatever the steps before did.  With
    [create_new_cluster] false a run that ends has called neither
    [delete_cluster] nor [close], although it opened the file if it
    came that far. *)
Theorem main_cleanup (env : Env) (fuel : nat) (project_id : string) (zone : PyVal)
  (name bucket_name : string) (pyspark_file : option string) (global_region : bool)
  (w : World Call) (r : outcome string) (w' : World Call) :
  (main env fuel project_id zone name bucket_name pyspark_file true global_region w
   = Some (r, w') ->
   (exists e calls evs,
       main_get_client env zone global_region w = Some (Raise e, w')
       /\ r = Raise e
       /\ w' = after w calls evs /\ Forall quiet evs)
   \/ (exists region w1 calls before closing,
         main_get_client env zone global_region w = Some (Ret region, w1)
         /\ w' = after w calls
                   (before ++ [Print "Tearing down cluster.";
                               Sdk (rpc_delete_cluster project_id region name)]
                      ++ closing)
         /\ Forall quiet before
         /\ (closing = [] \/ exists f, closing = [Sdk (file_close f)])))
  /\
  (main env fuel project_id zone name bucket_name pyspark_file false global_region w
   = Some (r, w') ->
   exists calls evs,
     w' = after w calls evs /\ Forall quiet evs
     /\ forall region w1 spark_file spark_filename w2,
          main_get_client env zone global_region w = Some (Ret region, w1) ->
          main_open env pyspark_file w1 = Some (Ret (spark_file, spark_filename), w2) ->
          In (Sdk (file_open spark_file)) evs).
Proof.
  split.
  - intros H. unfold main in H. apply bind_inv in H.
    destruct H as [(region & w1 & H1 & H)|(e & H1 & ->)].
    + right. exists region, w1. pose proof H1 as Hclient.
      destruct (emits_main_get_client env zone global_region _ _ _ H1) as (n1 & e1 & -> & F1).
      unfold try_bind_finally, try_finally in H.
      destruct (main_open env pyspark_file (after w n1 e1)) as [[[spark|e] w2]|] eqn:E2;
        [| |discriminate].
      * destruct (emits_main_open env pyspark_file _ _ _ E2) as (n2 & e2 & -> & F2).
        destruct (main_try env fuel project_id zone name bucket_name true region spark
                    (after (after w n1 e1) n2 e2)) as [[r3 w3]|] eqn:E3; [|discriminate].
        destruct (emits_main_try env fuel project_id zone name bucket_name true region
                    spark _ _ _ E3) as (n3 & e3 & -> & F3).
        destruct (main_finally env project_id name true region (Some spark)
                    (after (after (after w n1 e1) n2 e2) n3 e3))
          as [[r4 w4]|] eqn:E4; [|discriminate].
        destruct (main_finally_run _ _ _ _ _ _ _ _ E4) as (n4 & closing & -> & Hc).
        assert (w' = after (after (after (after w n1 e1) n2 e2) n3 e3) n4
                       ([Print "Tearing down cluster.";
                         Sdk (rpc_delete_cluster project_id region name)] ++ closing))
          as -> by (destruct r4; now inversion H).
        exists (n1 + n2 + n3 + n4), (e1 ++ e2 ++ e3), closing.
        split; [exact Hclient|]. split.
        { rewrite !after_after, <- ?app_assoc, ?Nat.add_assoc. reflexivity. }
        split; [|exact Hc]. repeat (apply Forall_app; split); assumption.
      * destruct (emits_main_open env pyspark_file _ _ _ E2) as (n2 & e2 & -> & F2).
        unfold raise in H.
        destruct (main_finally env project_id name true region None
                    (after (after w n1 e1) n2 e2)) as [[r4 w4]|] eqn:E4; [|discriminate].
        destruct (main_finally_run _ _ _ _ _ _ _ _ E4) as (n4 & closing & -> & Hc).
        assert (w' = after (after (after w n1 e1) n2 e2) n4
                       ([Print "Tearing down cluster.";
                         Sdk (rpc_delete_cluster project_id region name)] ++ closing))
          as -> by (destruct r4; now inversion H).
        exists (n1 + n2 + n4), (e1 ++ e2), closing.
        split; [exact Hclient|]. split.
        { rewrite !after_after, <- ?app_assoc, ?Nat.add_assoc. reflexivity. }
        split; [|exact Hc]. apply Forall_app; split; assumption.
    + left. exists e.
      destruct (emits_main_get_client env zone global_region _ _ _ H1)
        as (calls & evs & Hw & Hq).
      exists calls, evs. now repeat split.
  - intros H.
    destruct (emits_main_existing_cluster env fuel project_id zone name bucket_name
                pyspark_file global_region w r w' H) as (calls & evs & -> & Hq).
    exists calls, evs. split; [reflexivity|]. split; [exact Hq|].
    intros region w1 spark_file spark_filename w2 H1 H2.
    unfold main in H. rewrite (bind_step _ _ _ _ _ H1) in H.
    destruct (emits_main_get_client env zone global_region _ _ _ H1) as (n1 & e1 & -> & _).
    assert (exists n2 e2, w2 = after (after w n1 e1) n2 (Sdk (file_open spark_file) :: e2))
      as (n2 & e2 & ->).
    { unfold main_open, get_default_pyspark_file, get_pyspark_file in H2.
      destruct pyspark_file as [filename|]; [destruct (filename =? "")%string|];
        apply bind_inv in H2;
        destruct H2 as [([] & w0 & H0 & H2)|(e & _ & He)]; try discriminate;
        rewrite call_after in H0; inversion H0; subst; clear H0;
        inversion H2; subst; clear H2; exists 1, []; reflexivity. }
    unfold try_bind_finally, try_finally in H. rewrite H2 in H.
    match type of H with
    | match ?run with _ => _ end = _ => destruct run as [[r3 w3]|] eqn:E3; [|discriminate]
    end.
    destruct (emits_main_try _ _ _ _ _ _ _ _ _ _ _ _ E3) as (n3 & e3 & -> & _).
    unfold main_finally, ret in H. inversion H as [[Hr Hclock Htrace]]. clear H.
    rewrite <- !app_assoc in Htrace. apply app_inv_head in Htrace. rewrite <- Htrace.
    apply in_or_app. right. apply in_or_app. left. now left.
Qed.

(** A run in which opening the file fails, and [delete_cluster] is
    called all the same. *)
Lemma main_cleanup_witness :
  exists r w' region w1 calls before closing,
    main (fickle 2) 1 "p" (PyStr "us-central1-a") "demo" "b" None true true start
    = Some (r, w')
    /\ main_get_client (fickle 2) (PyStr "us-central1-a") true start
       = Some (Ret region, w1)
    /\ w' = after start calls
               (before ++ [Print "Tearing down cluster.";
                           Sdk (rpc_delete_cluster "p" region "demo")] ++ closing).
Proof.
  eexists. eexists.
  destruct (main_cleanup (fickle 2) 1 "p" (PyStr "us-central1-a") "demo" "b" None true
              start (Raise (LibraryError "ServiceUnavailable"))
              (mkWorld 4 [Sdk (ClusterControllerClient "");
                          Sdk (JobControllerClient "");
                          Sdk (file_open "/srv/dataproc/pyspark_sort.py");
                          Print "Tearing down cluster.";
                          Sdk (rpc_delete_cluster "p" "global" "demo")]))
    as [Hnew _].
  assert (main (fickle 2) 1 "p" (PyStr "us-central1-a") "demo" "b" None true true start
          = Some (Raise (LibraryError "ServiceUnavailable"),
                  mkWorld 4 [Sdk (ClusterControllerClient "");
                             Sdk (JobControllerClient "");
                             Sdk (file_open "/srv/dataproc/pyspark_sort.py");
                             Print "Tearing down cluster.";
                             Sdk (rpc_delete_cluster "p" "global" "demo")]))
    as Hmain by (vm_compute; reflexivity).
  destruct (Hnew Hmain) as [(e & calls & evs & Hclient & _)
                           |(region & w1 & calls & before & closing & Hclient & Hw & _)].
  - assert (main_get_client (fickle 2) (PyStr "us-central1-a") true start
            = Some (Ret "global",
                    mkWorld 2 [Sdk (ClusterControllerClient "");
                               Sdk (JobControllerClient "")])) as Hbuilt
      by (vm_compute; reflexivity).
    rewrite Hbuilt in Hclient. discriminate.
  - exists region, w1, calls, before, closing.
    split; [exact Hmain|]. split; [exact Hclient|exact Hw].
Defined.

(** C10, as stated, fails.  With a zone that is not a string and
    [global_region] false, [main] ends with the [ValueError] of
    [get_region_from_zone], before its [try]: [create_new_cluster] is
    true and [delete_cluster] has not been called.  The same holds when
    building the first client raises. *)
Lemma main_cleanup_not_on_every_exit :
  main (calm 0 0) 1 "p" PyNone "demo" "b" None true false start
  = Some (Raise (ValueError "Invalid zone provided, please check your input."), start)
  /\ main (fickle 0) 1 "p" (PyStr "us-central1-a") "demo" "b" None true true start
     = Some (Raise (LibraryError "ServiceUnavailable"),
             mkWorld 1 [Sdk (ClusterControllerClient "")])
  /\ ~ (forall zone global_region r w',
           main (calm 0 0) 1 "p" zone "demo" "b" None true global_region start
           = Some (r, w') ->
           exists region, In (Sdk (rpc_delete_cluster "p" region "demo")) (trace w')).
Proof.
  assert (main (calm 0 0) 1 "p" PyNone "demo" "b" None true false start
          = Some (Raise (ValueError "Invalid zone provided, please check your input."),
                  start)) as Hmain by (vm_compute; reflexivity).
  split; [exact Hmain|]. split; [vm_compute; reflexivity|].
  intros H. destruct (H PyNone false _ _ Hmain) as (region & []).
Qed.

End DataprocFacts.


(** ** genappbuilder/poll_operation_sample.py *)

Module PollOperationFacts.

Import PollOperation.

Section Polling.

Variable env : Env.
Variable operation_name : string.

(** The trace of [n] polls that found the operation still running. *)
Lemma poll_loop_pending :
  forall n fuel (ops : nat -> Operation) w,
    (forall k, k < n -> get_operation_answer env (clock w + k) = Ret (ops k)
                        /\ done (ops k) = false) ->
    poll_loop env (n + fuel) operation_name w
    = poll_loop env fuel operation_name
        (after w n (flat_map (pending_round env operation_name) (map ops (seq 0 n)))).
Proof.
  induction n as [|n IH]; intros fuel ops w H.
  - cbn [seq map flat_map Nat.add]. now rewrite after_nothing.
  - destruct (H 0 ltac:(lia)) as [Ha Hd]. rewrite Nat.add_0_r in Ha.
    cbn [Nat.add poll_loop]. unfold bind at 1. rewrite call_after, Ha.
    unfold bind at 1. rewrite emit_after, Hd.
    unfold bind at 1. rewrite emit_after.
    rewrite (IH fuel (fun k => ops (S k))).
    + rewrite !after_after. cbn [seq map flat_map].
      rewrite <- seq_shift, map_map. reflexivity.
    + intros k Hk. rewrite !after_clock.
      replace (clock w + 1 + 0 + 0 + k) with (clock w + S k) by lia.
      apply H. lia.
Qed.

Lemma poll_loop_done (op : Operation) fuel w :
  get_operation_answer env (clock w) = Ret op ->
  done op = true ->
  poll_loop env (S fuel) operation_name w
  = Some (Ret tt, after w 1 [Sdk (get_operation operation_name);
                             Print (str_operation env op)]).
Proof.
  intros Ha Hd. cbn [poll_loop]. unfold bind at 1. rewrite call_after, Ha.
  unfold bind. rewrite emit_after, Hd. unfold ret. now rewrite after_after.
Qed.

Lemma poll_operation_run (ops : nat -> Operation) w n fuel :
  (forall k, k <= n -> get_operation_answer env (clock w + k) = Ret (ops k)) ->
  (forall k, k < n -> done (ops k) = false) ->
  done (ops n) = true ->
  n < fuel ->
  poll_operation_sample env fuel operation_name w
  = Some (Ret tt,
          after w (S n)
            (Sdk DocumentServiceClient
               :: flat_map (pending_round env operation_name) (map ops (seq 0 n))
               ++ [Sdk (get_operation operation_name);
                   Print (str_operation env (ops n))])).
Proof.
  intros Ha Hp Hd Hfuel. unfold poll_operation_sample, bind. rewrite emit_after.
  replace fuel with (n + S (fuel - S n)) by lia.
  rewrite (poll_loop_pending n _ ops).
  - rewrite (poll_loop_done (ops n)); trivial.
    + rewrite !after_after. replace (0 + (n + 1)) with (S n) by lia. reflexivity.
    + rewrite !after_clock. rewrite <- (Ha n) by lia. f_equal. lia.
  - intros k Hk. rewrite after_clock, Nat.add_0_r. split; [apply Ha; lia|now apply Hp].
Qed.

Lemma poll_operation_still_running (ops : nat -> Operation) w fuel :
  (forall k, k < fuel -> get_operation_answer env (clock w + k) = Ret (ops k)) ->
  (forall k, k < fuel -> done (ops k) = false) ->
  poll_operation_sample env fuel operation_name w = None.
Proof.
  intros Ha Hp. unfold poll_operation_sample, bind. rewrite emit_after.
  replace fuel with (fuel + 0) at 1 by lia.
  rewrite (poll_loop_pending fuel _ ops); [reflexivity|].
  intros k Hk. rewrite after_clock, Nat.add_0_r. split; [now apply Ha|now apply Hp].
Qed.

End Polling.

(** C6.  [poll_operation_sample] polls until the operation is done and
    does nothing else.  Let [ops k] be the answer to the k-th
    [get_operation].  If answer [n] is the first with [done] set, the
    sample returns right after printing it, having made [n+1] polls;
    each poll before it was followed by its print and then [sleep(10)],
    so exactly one ten-second sleep lies between consecutive polls and
    none follows the last.  While every answer so far has [done] false
    the sample has not returned.  A run that returned is of this form. *)
Theorem poll_operation_sample_stops_at_first_done (env : Env) (operation_name : string)
  (ops : nat -> Operation) (w : World Call) :
  (forall k, get_operation_answer env (clock w + k) = Ret (ops k)) ->
  (forall n,
      (forall k, k < n -> done (ops k) = false) ->
      done (ops n) = true ->
      forall fuel, n < fuel ->
        poll_operation_sample env fuel operation_name w
        = Some (Ret tt,
                after w (S n)
                  (Sdk DocumentServiceClient
                     :: flat_map (pending_round env operation_name) (map ops (seq 0 n))
                     ++ [Sdk (get_operation operation_name);
                         Print (str_operation env (ops n))])))
  /\ (forall fuel,
        (forall k, k < fuel -> done (ops k) = false) ->
        poll_operation_sample env fuel operation_name w = None)
  /\ (forall fuel r w',
        poll_operation_sample env fuel operation_name w = Some (r, w') ->
        exists n,
          n < fuel /\ done (ops n) = true /\ (forall k, k < n -> done (ops k) = false)
          /\ r = Ret tt
          /\ length (filter is_poll (trace w')) = length (filter is_poll (trace w)) + S n
          /\ clock w' = clock w + S n).
Proof.
  intros Ha. split; [|split].
  - intros n Hp Hd fuel Hfuel. apply poll_operation_run; auto.
  - intros fuel Hp. apply (poll_operation_still_running env operation_name ops); auto.
  - intros fuel r w' H.
    destruct (bounded_search (fun k => done (ops k)) fuel)
      as [Hall|(k & Hk & Hd)].
    + rewrite (poll_operation_still_running env operation_name ops) in H;
        [discriminate|auto|exact Hall].
    + destruct (first_true (fun k => done (ops k)) k Hd)
        as (n & Hn & Hdn & Hlt).
      exists n. rewrite (poll_operation_run env operation_name ops w n fuel) in H;
        auto; [|lia].
      inversion H; subst; clear H.
      split; [lia|]. split; [exact Hdn|]. split; [exact Hlt|]. split; [reflexivity|].
      split; [|reflexivity].
      rewrite after_trace, filter_app, length_app. f_equal.
      cbn [filter is_poll]. rewrite filter_app, length_app. cbn [filter is_poll length].
      assert (forall l, length (filter is_poll
                                  (flat_map (pending_round env operation_name) l))
                        = length l) as Hrounds.
      { induction l as [|op l IH]; [reflexivity|]. cbn. now rewrite IH. }
      rewrite Hrounds, length_map, length_seq. lia.
Qed.

Lemma poll_operation_sample_stops_at_first_done_witness :
  poll_operation_sample (Scenario.slow_operation 2) 5 "operations/import-1"
    (mkWorld 0 [])
  = Some (Ret tt,
          mkWorld 3
            [Sdk DocumentServiceClient;
             Sdk (get_operation "operations/import-1");
             Print "operations/import-1"; Sleep 10;
             Sdk (get_operation "operations/import-1");
             Print "operations/import-1"; Sleep 10;
             Sdk (get_operation "operations/import-1");
             Print "operations/import-1"]).
Proof.
  destruct (poll_operation_sample_stops_at_first_done (Scenario.slow_operation 2)
              "operations/import-1" (Scenario.operations 2) (mkWorld 0 []))
    as (Hdone & _ & _).
  - intros k. reflexivity.
  - apply (Hdone 2).
    + intros k Hk. destruct k as [|[|k]]; [reflexivity|reflexivity|lia].
    + reflexivity.
    + lia.
Defined.

End PollOperationFacts.

(** ** servicedirectory/snippets.py *)

Module ServiceDirectoryFacts.

Import ServiceDirectory.





End ServiceDirectoryFacts.

(** ** More on strings and lists *)

Lemma string_append_assoc (a b c : string) : ((a ++ b) ++ c = a ++ (b ++ c))%string.
Proof. induction a as [|x a IH]; cbn; [reflexivity|now rewrite IH]. Qed.

Lemma skipn_own_length {A : Type} (l evs : list A) : skipn (length l) (l ++ evs) = evs.
Proof. induction l as [|x l IH]; [reflexivity|exact IH]. Qed.

(** ** dataproc/submit_job_to_cluster.py: whole runs *)

Module DataprocRunFacts.

Import Dataproc DataprocRun Scenario Scenario2.

(** *** Single steps *)

Section StepRuns.

Variable env : Env.

Lemma print_clusters_named (clusters : list Cluster) (w : World Call) :
  (forall c, In c clusters -> has_name c) ->
  print_clusters clusters w = Some (Ret tt, after w 0 (map cluster_line clusters)).
Proof.
  revert w. induction clusters as [|c rest IH]; intros w Hnamed.
  - cbn. unfold ret. now rewrite after_nothing.
  - destruct (Hnamed c (or_introl eq_refl)) as (state_name & Hs).
    cbn [print_clusters map].
    rewrite (bind_step _ _ w state_name w) by (unfold lift; now rewrite Hs).
    rewrite (bind_step _ _ _ tt _ (emit_after _ _)).
    rewrite IH by (intros x Hx; apply Hnamed; now right).
    unfold cluster_line at 2. rewrite Hs, after_after. reflexivity.
Qed.

Lemma print_clusters_unnamed (before : list Cluster) (c : Cluster) (rest : list Cluster)
  (e : exn) (w : World Call) :
  (forall x, In x before -> has_name x) ->
  ClusterState_Name (cluster_state c) = Raise e ->
  print_clusters (before ++ c :: rest) w
  = Some (Raise e, after w 0 (map cluster_line before)).
Proof.
  revert w. induction before as [|x before IH]; intros w Hnamed Hc.
  - cbn [app print_clusters map].
    rewrite (bind_raise _ _ w e w) by (unfold lift; now rewrite Hc).
    now rewrite after_nothing.
  - destruct (Hnamed x (or_introl eq_refl)) as (state_name & Hs).
    cbn [app print_clusters map].
    rewrite (bind_step _ _ w state_name w) by (unfold lift; now rewrite Hs).
    rewrite (bind_step _ _ _ tt _ (emit_after _ _)).
    rewrite IH by (trivial; intros y Hy; apply Hnamed; now right).
    unfold cluster_line at 2. rewrite Hs, after_after. reflexivity.
Qed.

Lemma scan_clusters_named (name : string) (clusters : list Cluster) (w : World Call) :
  scan_clusters name clusters w = scan_clusters name (named name clusters) w.
Proof.
  induction clusters as [|c rest IH]; [reflexivity|].
  cbn [scan_clusters named filter].
  destruct (cluster_name c =? name)%string eqn:E; [|exact IH].
  cbn [scan_clusters]. rewrite E. unfold bind, lift.
  destruct (ClusterState_Name (cluster_state c)) as [s|e]; [|reflexivity].
  destruct (s =? "ERROR")%string; [reflexivity|].
  destruct (s =? "RUNNING")%string; [reflexivity|].
  exact IH.
Qed.

Lemma find_settling_first (name : string) (clusters : list Cluster) (c : Cluster) :
  find (settling name) clusters = Some c ->
  settling name c = true
  /\ exists before rest,
      clusters = before ++ c :: rest
      /\ forall x, In x before -> settling name x = false.
Proof.
  induction clusters as [|x rest IH]; [discriminate|].
  cbn [find]. destruct (settling name x) eqn:E.
  - intros H. inversion H; subst. split; [exact E|].
    exists [], rest. split; [reflexivity|]. intros y [].
  - intros H. destruct (IH H) as (Hc & before & rest' & -> & Hb).
    split; [exact Hc|]. exists (x :: before), rest'. split; [reflexivity|].
    intros y [<-|Hy]; [exact E|now apply Hb].
Qed.

Lemma upload_pyspark_file_ret (project bucket_name filename spark_file : string)
  (w w' : World Call) :
  upload_pyspark_file env project bucket_name filename spark_file w = Some (Ret tt, w') ->
  w' = after w 3 [Print "Uploading pyspark file to GCS."; Sdk (storage_Client project);
                  Sdk (storage_get_bucket bucket_name);
                  Sdk (blob_upload_from_file bucket_name filename spark_file)].
Proof.
  unfold upload_pyspark_file, bind, emit, call. cbn [clock trace].
  destruct (storage_client_answer env (clock w)); [|discriminate].
  destruct (get_bucket_answer env (S (clock w))); [|discriminate].
  intros H. inversion H; subst. unfold after. f_equal; [lia|].
  rewrite <- !app_assoc. reflexivity.
Qed.

Lemma get_cluster_id_by_name_ret (project region name cluster_id output_bucket : string)
  (w w' : World Call) :
  get_cluster_id_by_name env project region name w
  = Some (Ret (Some (cluster_id, output_bucket)), w') ->
  w' = after w 1 [Sdk (rpc_list_clusters project region)]
  /\ exists listing,
      list_clusters_answer env (clock w) = Ret listing
      /\ first_cluster_named name listing = Some (cluster_id, output_bucket).
Proof.
  unfold get_cluster_id_by_name, bind. rewrite call_after.
  destruct (list_clusters_answer env (clock w)) as [listing|e]; [|discriminate].
  unfold ret. intros H. inversion H; subst. split; [reflexivity|].
  now exists listing.
Qed.

Lemma submit_pyspark_job_ret (project region name bucket_name filename id : string)
  (w w' : World Call) :
  submit_pyspark_job env project region name bucket_name filename w = Some (Ret id, w') ->
  w' = after w 1
         [Sdk (rpc_submit_job project region
                 (mkJobDetails name ("gs://" ++ bucket_name ++ "/" ++ filename)%string));
          Print ("Submitted job ID " ++ id ++ ".")%string]
  /\ exists job, submit_job_answer env (clock w) = Ret job /\ id = job_id job.
Proof.
  unfold submit_pyspark_job, bind. rewrite call_after.
  destruct (submit_job_answer env (clock w)) as [job|e]; [|discriminate].
  rewrite emit_after. unfold ret. intros H. inversion H; subst.
  rewrite after_after. split; [reflexivity|]. now exists job.
Qed.

Lemma download_output_ret (project cluster_id output_bucket id output : string)
  (w w' : World Call) :
  download_output env project cluster_id output_bucket id w = Some (Ret output, w') ->
  w' = after w 3 [Print "Downloading output file."; Sdk (storage_Client project);
                  Sdk (storage_get_bucket output_bucket);
                  Sdk (blob_download_as_string output_bucket
                         (driver_output cluster_id id))]
  /\ download_answer env (clock w + 2) = Ret output.
Proof.
  unfold download_output, bind, emit, call, driver_output. cbn [clock trace].
  destruct (storage_client_answer env (clock w)); [|discriminate].
  destruct (get_bucket_answer env (S (clock w))); [|discriminate].
  intros H. inversion H as [[Hout Hw]].
  replace (clock w + 2) with (S (S (clock w))) by lia. split; [|reflexivity].
  unfold after. f_equal; [lia|]. rewrite <- !app_assoc. reflexivity.
Qed.

Lemma wait_for_job_ret (fuel : nat) (project region id : string) (r : outcome Job)
  (w w' : World Call) :
  wait_for_job env fuel project region id w = Some (r, w') ->
  exists calls evs,
    w' = after w (S calls)
           (Print "Waiting for job to finish..."
              :: Sdk (rpc_get_job project region id) :: evs).
Proof.
  unfold wait_for_job, bind. rewrite emit_after. intros H.
  apply DataprocFacts.wait_for_job_loop_polls_first in H.
  destruct H as (calls & evs & ->). exists calls, evs. now rewrite after_after.
Qed.

End StepRuns.

(** X1.  [list_clusters_with_details] makes one [list_clusters] call and
    prints one line, 'name - STATE', for each cluster of the answer, in
    the order of the listing, for as long as the states have names:
    nothing for an empty listing, and nothing when the call raises,
    which it passes on.  At the first cluster whose state is a number
    without a name it raises the [ValueError] of [State.Name], after
    the lines of the clusters before it. *)
Theorem list_clusters_with_details_prints_each (env : Env) (project region : string)
  (w : World Call) :
  (forall e,
      list_clusters_answer env (clock w) = Raise e ->
      list_clusters_with_details env project region w
      = Some (Raise e, after w 1 [Sdk (rpc_list_clusters project region)]))
  /\ (forall clusters,
        list_clusters_answer env (clock w) = Ret clusters ->
        (forall c, In c clusters -> has_name c) ->
        list_clusters_with_details env project region w
        = Some (Ret tt,
                after w 1 (Sdk (rpc_list_clusters project region)
                             :: map cluster_line clusters)))
  /\ (forall before c rest number,
        list_clusters_answer env (clock w) = Ret (before ++ c :: rest) ->
        (forall x, In x before -> has_name x) ->
        cluster_state c = CS_unrecognized number ->
        list_clusters_with_details env project region w
        = Some (Raise (no_name number),
                after w 1 (Sdk (rpc_list_clusters project region)
                             :: map cluster_line before))
        /\ exists msg, no_name number = ValueError msg)
  /\ (forall c, has_name c <-> forall number, cluster_state c <> CS_unrecognized number)
  /\ cluster_line (the_cluster CS_RUNNING) = Print "demo - RUNNING".
Proof.
  split; [|split; [|split; [|split]]].
  - intros e Ha. unfold list_clusters_with_details.
    apply bind_raise. now rewrite call_after, Ha.
  - intros clusters Ha Hnamed. unfold list_clusters_with_details.
    rewrite (bind_step _ _ w clusters (after w 1 [Sdk (rpc_list_clusters project region)]))
      by now rewrite call_after, Ha.
    rewrite print_clusters_named by exact Hnamed. now rewrite after_after.
  - intros before c rest number Ha Hnamed Hc. split; [|eexists; reflexivity].
    unfold list_clusters_with_details.
    rewrite (bind_step _ _ w (before ++ c :: rest)
               (after w 1 [Sdk (rpc_list_clusters project region)]))
      by now rewrite call_after, Ha.
    rewrite (print_clusters_unnamed before c rest (no_name number));
      [now rewrite after_after|exact Hnamed|now rewrite Hc].
  - intros c. unfold has_name. split.
    + intros (state_name & Hs) number Hc. rewrite Hc in Hs. discriminate.
    + intros Hc. destruct (cluster_state c) eqn:E; try (eexists; reflexivity).
      now destruct (Hc number).
  - reflexivity.
Qed.

Lemma list_clusters_with_details_prints_each_witness :
  list_clusters_with_details crowded "p" "global" start
  = Some (Ret tt,
          after start 1
            [Sdk (rpc_list_clusters "p" "global"); Print "other - ERROR";
             Print "demo - RUNNING"; Print "third - CREATING"]).
Proof.
  destruct (list_clusters_with_details_prints_each crowded "p" "global" start)
    as (_ & Hnamed & _).
  apply (Hnamed [mkCluster "other" "uuid-0" CS_ERROR "boom" "bucket-0";
                 the_cluster CS_RUNNING;
                 mkCluster "third" "uuid-3" CS_CREATING "" "bucket-3"]).
  - reflexivity.
  - intros c [<-|[<-|[<-|[]]]]; eexists; reflexivity.
Defined.

(** X2.  [wait_for_cluster_creation] looks only at the clusters of the
    given name: two environments whose listings, poll by poll, hold the
    same clusters of that name in the same order (or raise the same
    exception) give the same run, whatever other clusters are listed
    and whatever state those are in. *)
Theorem wait_for_cluster_creation_ignores_other_names (e1 e2 : Env) (fuel : nat)
  (project region name : string) (w : World Call) :
  (forall k, same_named name (list_clusters_answer e1 k) (list_clusters_answer e2 k)) ->
  wait_for_cluster_creation e1 fuel project region name w
  = wait_for_cluster_creation e2 fuel project region name w.
Proof.
  intros Hsame. unfold wait_for_cluster_creation, bind. rewrite emit_after.
  generalize (after w 0 [Print "Waiting for cluster creation..."]). clear w.
  induction fuel as [|fuel IH]; intros w; [reflexivity|].
  cbn [wait_for_cluster_loop]. unfold bind at 1 3. rewrite !call_after.
  specialize (Hsame (clock w)). unfold same_named in Hsame.
  destruct (list_clusters_answer e1 (clock w)) as [l1|x1],
           (list_clusters_answer e2 (clock w)) as [l2|x2]; try contradiction.
  - unfold bind. rewrite (scan_clusters_named name l1), (scan_clusters_named name l2), Hsame.
    destruct (scan_clusters name (named name l2) _) as [[[[|]|e] w1]|]; auto.
  - now subst.
Qed.

Lemma wait_for_cluster_creation_ignores_other_names_witness :
  wait_for_cluster_creation crowded 3 "p" "global" "demo" start
  = wait_for_cluster_creation (calm 0 0) 3 "p" "global" "demo" start.
Proof.
  apply wait_for_cluster_creation_ignores_other_names.
  intros k. reflexivity.
Defined.

(** X3.  What [wait_for_cluster_creation] ends in is decided by the first
    cluster, in listing order, of the first listing that holds a
    cluster of the given name at whose state the wait stops: if that
    cluster is in state ERROR the wait raises the bare [Exception] with
    [cluster.status.detail] and prints nothing more; if it is RUNNING
    the wait prints 'Cluster created.' and returns; if its state is a
    number without a name the wait raises the [ValueError] of
    [State.Name].  Clusters of other names, and clusters of that name
    in other states that have a name, are passed over before it. *)
Theorem wait_for_cluster_creation_classification (env : Env) (project region name : string)
  (listings : nat -> list Cluster) (w : World Call) (n fuel : nat) :
  (forall k, k <= n -> list_clusters_answer env (clock w + k) = Ret (listings k)) ->
  (forall k, k < n -> settles name (listings k) = false) ->
  settles name (listings n) = true ->
  n < fuel ->
  exists before c rest,
    listings n = before ++ c :: rest
    /\ cluster_name c = name
    /\ (forall x, In x before ->
          cluster_name x <> name
          \/ (cluster_state x <> CS_ERROR /\ cluster_state x <> CS_RUNNING
              /\ forall number, cluster_state x <> CS_unrecognized number))
    /\ (cluster_state c = CS_ERROR \/ cluster_state c = CS_RUNNING
        \/ exists number, cluster_state c = CS_unrecognized number)
    /\ (cluster_state c = CS_ERROR ->
        wait_for_cluster_creation env fuel project region name w
        = Some (Raise (Exception_ (cluster_detail c)),
                after w (S n) (cluster_polls project region (S n))))
    /\ (cluster_state c = CS_RUNNING ->
        wait_for_cluster_creation env fuel project region name w
        = Some (Ret tt,
                after w (S n) (cluster_polls project region (S n)
                                 ++ [Print "Cluster created."])))
    /\ (forall number, cluster_state c = CS_unrecognized number ->
        wait_for_cluster_creation env fuel project region name w
        = Some (Raise (no_name number),
                after w (S n) (cluster_polls project region (S n)))
        /\ exists msg, no_name number = ValueError msg).
Proof.
  intros Ha Hp Hs Hfuel.
  destruct (DataprocFacts.wait_for_cluster_run env project region name listings w n fuel
              Ha Hp Hs Hfuel) as (c & Hfind & Hrun).
  destruct (find_settling_first name _ c Hfind) as (Hc & before & rest & Hl & Hb).
  exists before, c, rest. unfold settling in Hc.
  apply andb_true_iff in Hc. destruct Hc as [Hname Hstate].
  apply String.eqb_eq in Hname.
  apply DataprocFacts.stops_at_cluster_state in Hstate.
  split; [exact Hl|]. split; [exact Hname|]. split.
  { intros x Hx. specialize (Hb x Hx). unfold settling in Hb.
    destruct (String.eqb_spec (cluster_name x) name) as [_|Hne]; [|now left].
    right. cbn [andb] in Hb.
    assert (~ (cluster_state x = CS_RUNNING \/ cluster_state x = CS_ERROR
               \/ exists number, cluster_state x = CS_unrecognized number)) as Hnot.
    { intros H. apply DataprocFacts.stops_at_cluster_state in H. congruence. }
    repeat split; [| |intros number]; intros H; apply Hnot; eauto. }
  split; [destruct Hstate as [H|[H|H]]; auto|].
  unfold cluster_verdict in Hrun.
  split; [|split].
  - intros Hst. rewrite Hrun, Hst. cbn. now rewrite app_nil_r.
  - intros Hst. rewrite Hrun, Hst. reflexivity.
  - intros number Hst. split; [|eexists; reflexivity].
    rewrite Hrun, Hst. cbn. now rewrite app_nil_r.
Qed.

Lemma wait_for_cluster_creation_classification_witness :
  exists before c rest,
    [mkCluster "demo" "uuid-1" CS_CREATING "" "bucket-1";
     mkCluster "demo" "uuid-2" CS_ERROR "late" "bucket-2";
     the_cluster CS_RUNNING] = before ++ c :: rest
    /\ (cluster_state c = CS_ERROR ->
        wait_for_cluster_creation twins 1 "p" "global" "demo" start
        = Some (Raise (Exception_ (cluster_detail c)),
                after start 1 (cluster_polls "p" "global" 1))).
Proof.
  destruct (wait_for_cluster_creation_classification twins "p" "global" "demo"
              (fun _ => [mkCluster "demo" "uuid-1" CS_CREATING "" "bucket-1";
                         mkCluster "demo" "uuid-2" CS_ERROR "late" "bucket-2";
                         the_cluster CS_RUNNING]) start 0 1)
    as (before & c & rest & Hl & _ & _ & _ & Herror & _).
  - intros k Hk. reflexivity.
  - intros k Hk. lia.
  - reflexivity.
  - lia.
  - exists before, c, rest. split; [exact Hl|exact Herror].
Defined.

(** X4.  The polling loops do not retry a failed call.  If the first
    [n] polls find the resource still pending and poll [n] raises, the
    wait raises that same exception then and there: [n+1] calls were
    made and nothing is printed after them.  This holds for
    [wait_for_cluster_creation] and for [wait_for_job]. *)
Theorem polling_loops_do_not_retry (env : Env) (project region : string) (w : World Call)
  (n fuel : nat) (e : exn) :
  n < fuel ->
  (forall name,
      (forall k, k < n -> exists cl, list_clusters_answer env (clock w + k) = Ret cl
                                     /\ settles name cl = false) ->
      list_clusters_answer env (clock w + n) = Raise e ->
      wait_for_cluster_creation env fuel project region name w
      = Some (Raise e, after w (S n) (cluster_polls project region (S n))))
  /\ (forall id,
        (forall k, k < n -> exists j, get_job_answer env (clock w + k) = Ret j
                                      /\ finished j = false) ->
        get_job_answer env (clock w + n) = Raise e ->
        wait_for_job env fuel project region id w
        = Some (Raise e, after w (S n) (job_polls project region id (S n)))).
Proof.
  intros Hfuel. split.
  - intros name Hp Ha.
    pose proof (DataprocFacts.wait_for_cluster_ends env project region name w n fuel)
      as Hrun.
    rewrite Ha in Hrun. apply Hrun; trivial.
    intros k Hk. destruct (Hp k Hk) as (cl & -> & Hs). exact Hs.
  - intros id Hp Ha.
    rewrite (DataprocFacts.wait_for_job_ends env project region id w n fuel); trivial.
    + now rewrite Ha.
    + intros k Hk. destruct (Hp k Hk) as (j & -> & Hf). exact Hf.
    + now rewrite Ha.
Qed.

Lemma polling_loops_do_not_retry_witness :
  wait_for_job (fickle 2) 9 "p" "r" "job-7" (mkWorld 2 [])
  = Some (Raise (LibraryError "ServiceUnavailable"),
          after (mkWorld 2 []) 1 (job_polls "p" "r" "job-7" 1)).
Proof.
  apply (polling_loops_do_not_retry (fickle 2) "p" "r" (mkWorld 2 []) 0 9
           (LibraryError "ServiceUnavailable")).
  - lia.
  - intros k Hk. lia.
  - reflexivity.
Defined.

(** *** Every call of a run names the same project, region and cluster *)

Create HintDb addressed discriminated.

#[local] Hint Resolve emits_ret emits_raise emits_lift emits_diverge emits_emit
  emits_call emits_bind : addressed.
#[local] Hint Extern 1 (addressed_to _ _ _ _) => cbn; repeat split : addressed.

Section Addressed.

Variable env : Env.
Variables project region name : string.

Lemma addressed_scan_clusters (clusters : list Cluster) :
  emits (addressed_to project region name) (scan_clusters name clusters).
Proof.
  induction clusters as [|c rest IH]; cbn [scan_clusters]; [auto with addressed|].
  destruct (cluster_name c =? name)%string; [|exact IH].
  apply emits_bind; [apply emits_lift|intros s].
  destruct (s =? "ERROR")%string; [auto with addressed|].
  apply emits_bind; [apply emits_lift|intros s'].
  destruct (s' =? "RUNNING")%string; [auto with addressed|exact IH].
Qed.

Lemma addressed_wait_for_cluster_creation (fuel : nat) :
  emits (addressed_to project region name)
    (wait_for_cluster_creation env fuel project region name).
Proof.
  unfold wait_for_cluster_creation. apply emits_bind; [auto with addressed|intros _].
  induction fuel as [|fuel IH]; cbn [wait_for_cluster_loop]; [apply emits_diverge|].
  apply emits_bind; [auto with addressed|intros cl].
  apply emits_bind; [apply addressed_scan_clusters|intros [|]];
    [exact IH|apply emits_ret].
Qed.

Lemma addressed_wait_for_job (fuel : nat) (id : string) :
  emits (addressed_to project region name) (wait_for_job env fuel project region id).
Proof.
  unfold wait_for_job. apply emits_bind; [auto with addressed|intros _].
  induction fuel as [|fuel IH]; cbn [wait_for_job_loop]; [apply emits_diverge|].
  apply emits_bind; [auto with addressed|intros job].
  apply emits_bind; [apply emits_lift|intros s].
  destruct (s =? "ERROR")%string; [apply emits_raise|].
  apply emits_bind; [apply emits_lift|intros s'].
  destruct (s' =? "DONE")%string; [auto with addressed|exact IH].
Qed.

Lemma addressed_print_clusters (clusters : list Cluster) :
  emits (addressed_to project region name) (print_clusters clusters).
Proof.
  induction clusters as [|c rest IH]; cbn [print_clusters]; auto with addressed.
Qed.

Lemma addressed_main_try (fuel : nat) (zone : PyVal) (bucket_name : string)
  (create_new_cluster : bool) (spark : string * string) :
  emits (addressed_to project region name)
    (main_try env fuel project zone name bucket_name create_new_cluster region spark).
Proof.
  unfold main_try. destruct spark as [spark_file spark_filename].
  apply emits_bind.
  { unfold new_cluster_steps. destruct create_new_cluster; [|apply emits_ret].
    apply emits_bind; [unfold create_cluster; auto 20 with addressed|intros _].
    apply addressed_wait_for_cluster_creation. }
  intros _. apply emits_bind;
    [unfold upload_pyspark_file; auto 20 with addressed|intros _].
  apply emits_bind.
  { unfold list_clusters_with_details.
    apply emits_bind; [auto with addressed|intros cl; apply addressed_print_clusters]. }
  intros _. apply emits_bind;
    [unfold get_cluster_id_by_name; auto 20 with addressed|].
  intros [[cluster_id bucket]|]; [|apply emits_raise].
  apply emits_bind; [unfold submit_pyspark_job; auto 20 with addressed|intros id].
  apply emits_bind; [apply addressed_wait_for_job|intros _].
  apply emits_bind; [unfold download_output; auto 20 with addressed|intros output].
  auto with addressed.
Qed.

Lemma addressed_main_finally (create_new_cluster : bool)
  (spark : option (string * string)) :
  emits (addressed_to project region name)
    (main_finally env project name create_new_cluster region spark).
Proof.
  unfold main_finally, delete_cluster. destruct create_new_cluster; [|apply emits_ret].
  destruct spark as [[spark_file spark_filename]|]; auto 20 with addressed.
Qed.

Lemma addressed_main_open (pyspark_file : option string) :
  emits (addressed_to project region name) (main_open env pyspark_file).
Proof.
  unfold main_open, get_default_pyspark_file, get_pyspark_file.
  destruct pyspark_file as [filename|]; [destruct (filename =? "")%string|];
    auto 20 with addressed.
Qed.

Lemma addressed_main_get_client (zone : PyVal) (global_region : bool) :
  emits (addressed_to project region name) (main_get_client env zone global_region).
Proof.
  unfold main_get_client. destruct global_region; auto 20 with addressed.
Qed.

End Addressed.

Lemma main_get_client_region (env : Env) (zone : PyVal) (global_region : bool)
  (region : string) (w w1 : World Call) :
  main_get_client env zone global_region w = Some (Ret region, w1) ->
  region = resolved_region zone global_region.
Proof.
  unfold main_get_client, resolved_region. destruct global_region.
  - intros H.
    apply bind_ret_iff in H. destruct H as (? & ? & _ & H).
    apply bind_ret_iff in H. destruct H as (? & ? & _ & H).
    now inversion H.
  - intros H. apply bind_ret_iff in H. destruct H as (r0 & w0 & H0 & H).
    unfold lift in H0. inversion H0 as [[Hr Hw]]. rewrite Hr.
    apply bind_ret_iff in H. destruct H as (? & ? & _ & H).
    apply bind_ret_iff in H. destruct H as (? & ? & _ & H).
    apply bind_ret_iff in H. destruct H as (? & ? & _ & H).
    apply bind_ret_iff in H. destruct H as (? & ? & _ & H).
    now inversion H.
Qed.

(** X5.  Every call a run of [main] makes is addressed alike: each
    Dataproc call names the project given to [main] and the one region
    [main] resolved ('global', or the zone without its last
    component), each storage client is built for that project, and the
    cluster created, the cluster the job is placed on and the cluster
    deleted all carry the given cluster name. *)
Theorem main_addresses_one_region (env : Env) (fuel : nat) (project_id : string)
  (zone : PyVal) (name bucket_name : string) (pyspark_file : option string)
  (create_new_cluster global_region : bool) (w : World Call) (r : outcome string)
  (w' : World Call) :
  main env fuel project_id zone name bucket_name pyspark_file create_new_cluster
    global_region w = Some (r, w') ->
  exists calls evs,
    w' = after w calls evs
    /\ Forall (addressed_to project_id (resolved_region zone global_region) name) evs.
Proof.
  intros H. unfold main in H. apply bind_inv in H.
  destruct H as [(region & w1 & H1 & H)|(e & H1 & _)].
  - pose proof (main_get_client_region _ _ _ _ _ _ H1) as Hregion. subst region.
    set (region := resolved_region zone global_region) in *.
    destruct (addressed_main_get_client env project_id region name zone global_region
                _ _ _ H1) as (n1 & e1 & -> & F1).
    assert (emits (addressed_to project_id region name)
              (try_bind_finally (main_open env pyspark_file)
                 (main_try env fuel project_id zone name bucket_name
                    create_new_cluster region)
                 (main_finally env project_id name create_new_cluster region))) as Hrest.
    { apply emits_try_bind_finally.
      - apply addressed_main_open.
      - intros spark. apply addressed_main_try.
      - intros o. apply addressed_main_finally. }
    destruct (Hrest _ _ _ H) as (n2 & e2 & -> & F2).
    exists (n1 + n2), (e1 ++ e2). rewrite after_after. split; [reflexivity|].
    apply Forall_app. now split.
  - apply (addressed_main_get_client env project_id
             (resolved_region zone global_region) name zone global_region _ _ _ H1).
Qed.

Lemma main_addresses_one_region_witness :
  exists calls evs,
    calm_end = after start calls evs
    /\ Forall (addressed_to "p" "global" "demo") evs.
Proof.
  assert (main (calm 0 0) 1 "p" (PyStr "us-central1-a") "demo" "b" None true true start
          = Some (Ret "1 2 3", calm_end)) as Hrun by (vm_compute; reflexivity).
  exact (main_addresses_one_region _ _ _ _ _ _ _ _ _ _ _ _ Hrun).
Defined.

(** *** The clock of a run *)

Create HintDb paced discriminated.

#[local] Hint Resolve paced_ret paced_raise paced_lift paced_diverge paced_print
  paced_call paced_bind : paced.

(** The calls counted in a trace that is written as a concatenation. *)
Ltac count_calls :=
  unfold sdk_calls;
  repeat (rewrite ?flat_map_app, ?length_app; cbn [flat_map app length]);
  lia.

Section Paced.

Variable env : Env.

Lemma paced_scan_clusters (name : string) (clusters : list Cluster) :
  paced (scan_clusters name clusters).
Proof.
  induction clusters as [|c rest IH]; cbn [scan_clusters]; [auto with paced|].
  destruct (cluster_name c =? name)%string; [|exact IH].
  apply paced_bind; [apply paced_lift|intros s].
  destruct (s =? "ERROR")%string; [auto with paced|].
  apply paced_bind; [apply paced_lift|intros s'].
  destruct (s' =? "RUNNING")%string; [auto with paced|exact IH].
Qed.

Lemma paced_new_cluster_steps (fuel : nat) (project : string) (zone : PyVal)
  (name : string) (create_new_cluster : bool) (region : string) :
  paced (new_cluster_steps env fuel project zone name create_new_cluster region).
Proof.
  unfold new_cluster_steps. destruct create_new_cluster; [|apply paced_ret].
  apply paced_bind; [unfold create_cluster; auto 20 with paced|intros _].
  unfold wait_for_cluster_creation. apply paced_bind; [apply paced_print|intros _].
  induction fuel as [|fuel IH]; cbn [wait_for_cluster_loop]; [apply paced_diverge|].
  apply paced_bind; [apply paced_call|intros cl].
  apply paced_bind; [apply paced_scan_clusters|intros [|]];
    [exact IH|apply paced_ret].
Qed.

Lemma paced_wait_for_job (fuel : nat) (project region id : string) :
  paced (wait_for_job env fuel project region id).
Proof.
  unfold wait_for_job. apply paced_bind; [apply paced_print|intros _].
  induction fuel as [|fuel IH]; cbn [wait_for_job_loop]; [apply paced_diverge|].
  apply paced_bind; [apply paced_call|intros job].
  apply paced_bind; [apply paced_lift|intros s].
  destruct (s =? "ERROR")%string; [apply paced_raise|].
  apply paced_bind; [apply paced_lift|intros s'].
  destruct (s' =? "DONE")%string; [auto with paced|exact IH].
Qed.

Lemma paced_list_clusters_with_details (project region : string) :
  paced (list_clusters_with_details env project region).
Proof.
  unfold list_clusters_with_details.
  apply paced_bind; [apply paced_call|intros clusters].
  induction clusters as [|c rest IH]; cbn [print_clusters]; auto with paced.
Qed.

Lemma paced_main_get_client (zone : PyVal) (global_region : bool) :
  paced (main_get_client env zone global_region).
Proof. unfold main_get_client. destruct global_region; auto 20 with paced. Qed.

Lemma paced_main_finally (project_id name : string) (create_new_cluster : bool)
  (region : string) (spark : option (string * string)) :
  paced (main_finally env project_id name create_new_cluster region spark).
Proof.
  unfold main_finally, delete_cluster. destruct create_new_cluster; [|apply paced_ret].
  destruct spark as [[spark_file spark_filename]|]; auto 20 with paced.
Qed.

(** A run of [wait_for_job] that ends: its trace and its clock. *)
Lemma wait_for_job_paced_ret (fuel : nat) (project region id : string) (r : outcome Job)
  (w w' : World Call) :
  wait_for_job env fuel project region id w = Some (r, w') ->
  exists evs,
    w' = after w (S (length (sdk_calls evs)))
           (Print "Waiting for job to finish..."
              :: Sdk (rpc_get_job project region id) :: evs).
Proof.
  intros H. destruct (wait_for_job_ret env _ _ _ _ _ _ _ H) as (calls & evs & Hw).
  destruct (paced_wait_for_job _ _ _ _ _ _ _ H) as (evs' & Hw').
  exists evs. rewrite Hw in Hw'. unfold after in Hw'. inversion Hw' as [[Hclock Htrace]].
  apply app_inv_head in Htrace. subst evs'. rewrite Hw.
  unfold after. f_equal. cbn [sdk_calls flat_map app length] in Hclock.
  unfold sdk_calls. lia.
Qed.

End Paced.

Lemma made_at (w : World Call) (calls : nat) (pre : list (Effect Call)) (c : Call)
  (post : list (Effect Call)) :
  made w (after w calls (pre ++ Sdk c :: post)) (clock w + length (sdk_calls pre))
  = Some c.
Proof.
  unfold made. rewrite after_trace, skipn_own_length.
  replace (clock w + length (sdk_calls pre) <? clock w)%nat with false
    by (symmetry; apply Nat.ltb_ge; lia).
  replace (clock w + length (sdk_calls pre) - clock w) with (length (sdk_calls pre))
    by lia.
  rewrite sdk_calls_app, nth_error_app2 by lia. now rewrite Nat.sub_diag.
Qed.

(** *** Runs of [main] that return *)

Lemma main_open_ret (env : Env) (pyspark_file : option string)
  (spark_file spark_filename : string) (w w' : World Call) :
  main_open env pyspark_file w = Some (Ret (spark_file, spark_filename), w') ->
  w' = after w 1 [Sdk (file_open spark_file)].
Proof.
  unfold main_open, get_default_pyspark_file, get_pyspark_file. intros H.
  destruct pyspark_file as [filename|]; [destruct (filename =? "")%string|];
    apply bind_inv in H;
    destruct H as [([] & w0 & H0 & H)|(e & _ & He)]; try discriminate;
    rewrite call_after in H0; inversion H0; subst; clear H0;
    inversion H; subst; reflexivity.
Qed.

(** The trace of a run of [main] that returns, with what was answered
    to the calls that decide its result, each at the clock value its
    call was made at. *)
Lemma main_returns_trace (env : Env) (fuel : nat) (project_id : string) (zone : PyVal)
  (name bucket_name : string) (pyspark_file : option string)
  (create_new_cluster global_region : bool) (w : World Call) (output : string)
  (w_end : World Call) :
  main env fuel project_id zone name bucket_name pyspark_file create_new_cluster
    global_region w = Some (Ret output, w_end) ->
  let region := resolved_region zone global_region in
  exists spark_file spark_filename cluster_id output_bucket job listing
         e_client e_new e_list e_wait e_end,
    let uploaded :=
      e_client ++ Sdk (file_open spark_file) :: e_new
        ++ [Print "Uploading pyspark file to GCS."; Sdk (storage_Client project_id);
            Sdk (storage_get_bucket bucket_name);
            Sdk (blob_upload_from_file bucket_name spark_filename spark_file)] in
    let listed := uploaded ++ e_list in
    let submitted :=
      listed
        ++ [Sdk (rpc_list_clusters project_id region);
            Sdk (rpc_submit_job project_id region
                   (mkJobDetails name
                      ("gs://" ++ bucket_name ++ "/" ++ spark_filename)%string));
            Print ("Submitted job ID " ++ job_id job ++ ".")%string;
            Print "Waiting for job to finish..."] in
    let waited :=
      submitted
        ++ Sdk (rpc_get_job project_id region (job_id job)) :: e_wait
        ++ [Print "Downloading output file."; Sdk (storage_Client project_id);
            Sdk (storage_get_bucket output_bucket)] in
    let whole :=
      waited
        ++ Sdk (blob_download_as_string output_bucket
                  (driver_output cluster_id (job_id job))) :: e_end in
    list_clusters_answer env (clock w + length (sdk_calls listed)) = Ret listing
    /\ first_cluster_named name listing = Some (cluster_id, output_bucket)
    /\ submit_job_answer env (clock w + S (length (sdk_calls listed))) = Ret job
    /\ length (sdk_calls submitted) = S (S (length (sdk_calls listed)))
    /\ download_answer env (clock w + length (sdk_calls waited)) = Ret output
    /\ w_end = after w (length (sdk_calls whole)) whole.
Proof.
  intros H region. unfold main in H.
  apply bind_ret_iff in H. destruct H as (region' & w1 & H1 & H).
  pose proof (main_get_client_region _ _ _ _ _ _ H1) as Hregion.
  fold region in Hregion. subst region'.
  apply DataprocFacts.try_bind_finally_ret_iff in H.
  destruct H as ([spark_file spark_filename] & w2 & wt & H2 & Ht & Hf).
  apply DataprocFacts.main_try_ret_iff in Ht.
  destruct Ht as (w4 & w5 & w6 & cluster_id & output_bucket & w7 & id & w8 & job
                  & w9 & w10 & H4 & H5 & H6 & H7 & H8 & H9 & H10 & ->).
  destruct (paced_main_get_client env zone global_region _ _ _ H1) as (e1 & ->).
  apply main_open_ret in H2. subst w2.
  destruct (paced_new_cluster_steps _ _ _ _ _ _ _ _ _ _ H4) as (e4 & ->).
  apply upload_pyspark_file_ret in H5. subst w5.
  destruct (paced_list_clusters_with_details _ _ _ _ _ _ H6) as (e6 & ->).
  apply get_cluster_id_by_name_ret in H7.
  destruct H7 as (-> & listing & Hlisting & Hfirst).
  apply submit_pyspark_job_ret in H8. destruct H8 as (-> & job' & Hjob & ->).
  apply wait_for_job_paced_ret in H9. destruct H9 as (e9 & ->).
  apply download_output_ret in H10. destruct H10 as (-> & Hout).
  destruct (paced_main_finally _ _ _ _ _ _ _ _ _ Hf) as (e11 & ->).
  exists spark_file, spark_filename, cluster_id, output_bucket, job', listing.
  exists e1, e4, e6, e9.
  exists (Print ("Received job output " ++ format_bytes env output)%string :: e11).
  cbv zeta.
  split; [rewrite <- Hlisting; f_equal; rewrite !after_clock; count_calls|].
  split; [exact Hfirst|].
  split; [rewrite <- Hjob; f_equal; rewrite !after_clock; count_calls|].
  split; [count_calls|].
  split; [rewrite <- Hout; f_equal; rewrite !after_clock; count_calls|].
  rewrite !after_after. unfold after. f_equal; [count_calls|].
  repeat (rewrite <- app_assoc; cbn [app]). reflexivity.
Qed.

(** X6.  What [main] returns is the driver output of the job it
    submitted.  A run that returns [output] made, in this order: a
    [list_clusters] call, whose answer holds a first cluster of the
    given name with some (uuid, config_bucket); a [submit_job] call for
    that cluster name, whose answer holds some [job_id]; a [get_job]
    call for that [job_id]; and the download of the object
    'google-cloud-dataproc-metainfo/{uuid}/jobs/{job_id}/driveroutput.000000000'
    from [config_bucket], whose answer is [output]. *)
Theorem main_downloads_output_of_submitted_job (env : Env) (fuel : nat)
  (project_id : string) (zone : PyVal) (name bucket_name : string)
  (pyspark_file : option string) (create_new_cluster global_region : bool)
  (w : World Call) (output : string) (w_end : World Call) :
  main env fuel project_id zone name bucket_name pyspark_file create_new_cluster
    global_region w = Some (Ret output, w_end) ->
  exists cluster_id output_bucket details job listing k1 k2 k3 k4,
    clock w_end = clock w + length (sdk_calls (skipn (length (trace w)) (trace w_end)))
    /\ clock w <= k1 /\ k1 < k2 /\ k2 < k3 /\ k3 < k4 /\ k4 < clock w_end
    /\ made w w_end k1
       = Some (rpc_list_clusters project_id (resolved_region zone global_region))
    /\ list_clusters_answer env k1 = Ret listing
    /\ first_cluster_named name listing = Some (cluster_id, output_bucket)
    /\ made w w_end k2
       = Some (rpc_submit_job project_id (resolved_region zone global_region) details)
    /\ placement_cluster_name details = name
    /\ submit_job_answer env k2 = Ret job
    /\ made w w_end k3
       = Some (rpc_get_job project_id (resolved_region zone global_region) (job_id job))
    /\ made w w_end k4
       = Some (blob_download_as_string output_bucket
                 (driver_output cluster_id (job_id job)))
    /\ download_answer env k4 = Ret output.
Proof.
  intros H. apply main_returns_trace in H. cbv zeta in H.
  destruct H as (spark_file & spark_filename & cluster_id & output_bucket & job
                 & listing & e_client & e_new & e_list & e_wait & e_end
                 & Hl & Hf & Hj & Hcount & Ho & ->).
  set (region := resolved_region zone global_region) in *.
  set (listed := (e_client ++ Sdk (file_open spark_file) :: e_new
                    ++ [Print "Uploading pyspark file to GCS.";
                        Sdk (storage_Client project_id);
                        Sdk (storage_get_bucket bucket_name);
                        Sdk (blob_upload_from_file bucket_name spark_filename
                               spark_file)]) ++ e_list) in *.
  set (details := mkJobDetails name ("gs://" ++ bucket_name ++ "/" ++ spark_filename)%string)
    in *.
  set (submitted := listed
                      ++ [Sdk (rpc_list_clusters project_id region);
                          Sdk (rpc_submit_job project_id region details);
                          Print ("Submitted job ID " ++ job_id job ++ ".")%string;
                          Print "Waiting for job to finish..."]) in *.
  set (waited := submitted
                   ++ Sdk (rpc_get_job project_id region (job_id job)) :: e_wait
                   ++ [Print "Downloading output file."; Sdk (storage_Client project_id);
                       Sdk (storage_get_bucket output_bucket)]) in *.
  exists cluster_id, output_bucket, details, job, listing.
  exists (clock w + length (sdk_calls listed)),
         (clock w + length (sdk_calls (listed
                                         ++ [Sdk (rpc_list_clusters project_id region)]))),
         (clock w + length (sdk_calls submitted)),
         (clock w + length (sdk_calls waited)).
  assert (length (sdk_calls (listed ++ [Sdk (rpc_list_clusters project_id region)]))
          = S (length (sdk_calls listed))) as Hone by count_calls.
  assert (length (sdk_calls submitted) < length (sdk_calls waited)) as Hlater
    by (subst waited; count_calls).
  split; [now rewrite after_clock, after_trace, skipn_own_length|].
  split; [lia|]. split; [lia|]. split; [lia|]. split; [lia|].
  split; [rewrite after_clock; count_calls|].
  split.
  { subst waited submitted. rewrite <- !app_assoc. apply made_at. }
  split; [exact Hl|]. split; [exact Hf|].
  split.
  { subst waited submitted.
    replace ((listed
                ++ [Sdk (rpc_list_clusters project_id region);
                    Sdk (rpc_submit_job project_id region details);
                    Print ("Submitted job ID " ++ job_id job ++ ".")%string;
                    Print "Waiting for job to finish..."])
               ++ Sdk (rpc_get_job project_id region (job_id job)) :: e_wait
               ++ [Print "Downloading output file."; Sdk (storage_Client project_id);
                   Sdk (storage_get_bucket output_bucket)])
      with ((listed ++ [Sdk (rpc_list_clusters project_id region)])
              ++ Sdk (rpc_submit_job project_id region details)
              :: [Print ("Submitted job ID " ++ job_id job ++ ".")%string;
                  Print "Waiting for job to finish..."]
              ++ Sdk (rpc_get_job project_id region (job_id job)) :: e_wait
              ++ [Print "Downloading output file."; Sdk (storage_Client project_id);
                  Sdk (storage_get_bucket output_bucket)])
      by (repeat (rewrite <- app_assoc; cbn [app]); reflexivity).
    rewrite <- app_assoc. apply made_at. }
  split; [reflexivity|].
  split; [rewrite Hone; exact Hj|].
  split.
  { subst waited. rewrite <- app_assoc. apply made_at. }
  split; [apply made_at|exact Ho].
Qed.

Lemma main_downloads_output_of_submitted_job_witness :
  exists k4,
    made start calm_end k4
    = Some (blob_download_as_string "staging-bucket" (driver_output "uuid-1" "job-7"))
    /\ download_answer (calm 0 0) k4 = Ret "1 2 3".
Proof.
  assert (main (calm 0 0) 1 "p" (PyStr "us-central1-a") "demo" "b" None true true start
          = Some (Ret "1 2 3", calm_end)) as Hrun by (vm_compute; reflexivity).
  destruct (main_downloads_output_of_submitted_job _ _ _ _ _ _ _ _ _ _ _ _ Hrun)
    as (cluster_id & output_bucket & details & job & listing & k1 & k2 & k3 & k4
        & _ & _ & _ & _ & _ & _ & _ & Hl & Hf & _ & _ & Hj & _ & Hd & Ho).
  exists k4. split; [|exact Ho].
  cbn in Hl, Hj. inversion Hl; subst listing. inversion Hj; subst job.
  cbn in Hf. inversion Hf; subst. exact Hd.
Defined.

(** X7.  The job [main] submits runs the file [main] uploaded.  In a run
    that returns, the file that was opened is uploaded to the object
    [spark_filename] of the bucket given to [main], and only afterwards
    the job is submitted, with 'gs://{bucket}/{spark_filename}' as its
    main Python file and the given cluster as its placement. *)
Theorem main_submits_what_it_uploaded (env : Env) (fuel : nat)
  (project_id : string) (zone : PyVal) (name bucket_name : string)
  (pyspark_file : option string) (create_new_cluster global_region : bool)
  (w : World Call) (output : string) (w_end : World Call) :
  main env fuel project_id zone name bucket_name pyspark_file create_new_cluster
    global_region w = Some (Ret output, w_end) ->
  exists calls spark_file spark_filename earlier between later,
    w_end
    = after w calls
        (earlier
           ++ Sdk (blob_upload_from_file bucket_name spark_filename spark_file)
           :: between
           ++ Sdk (rpc_submit_job project_id (resolved_region zone global_region)
                     (mkJobDetails name
                        ("gs://" ++ bucket_name ++ "/" ++ spark_filename)%string))
           :: later)
    /\ In (Sdk (file_open spark_file)) earlier.
Proof.
  intros H. apply main_returns_trace in H. cbv zeta in H.
  destruct H as (spark_file & spark_filename & cluster_id & output_bucket & job
                 & listing & e_client & e_new & e_list & e_wait & e_end
                 & _ & _ & _ & _ & _ & ->).
  eexists. exists spark_file, spark_filename.
  exists (e_client ++ [Sdk (file_open spark_file)] ++ e_new
            ++ [Print "Uploading pyspark file to GCS."; Sdk (storage_Client project_id);
                Sdk (storage_get_bucket bucket_name)]).
  exists (e_list ++ [Sdk (rpc_list_clusters project_id
                            (resolved_region zone global_region))]).
  eexists. split.
  - f_equal. repeat (rewrite <- app_assoc; cbn [app]). reflexivity.
  - rewrite !in_app_iff. cbn [In]. auto.
Qed.

Lemma main_submits_what_it_uploaded_witness :
  exists calls spark_file spark_filename earlier between later,
    calm_end
    = after start calls
        (earlier
           ++ Sdk (blob_upload_from_file "b" spark_filename spark_file)
           :: between
           ++ Sdk (rpc_submit_job "p" "global"
                     (mkJobDetails "demo" ("gs://" ++ "b" ++ "/" ++ spark_filename)%string))
           :: later).
Proof.
  assert (main (calm 0 0) 1 "p" (PyStr "us-central1-a") "demo" "b" None true true start
          = Some (Ret "1 2 3", calm_end)) as Hrun by (vm_compute; reflexivity).
  destruct (main_submits_what_it_uploaded _ _ _ _ _ _ _ _ _ _ _ _ Hrun)
    as (calls & spark_file & spark_filename & earlier & between & later & Hw & _).
  now exists calls, spark_file, spark_filename, earlier, between, later.
Defined.

(** X8.  A failure to open the PySpark file is not what [main] raises
    when [create_new_cluster] is true.  The [finally] suite still calls
    [delete_cluster], for a cluster that was never created, and then
    reads [spark_file], which is unbound: [main] raises
    [UnboundLocalError], or what [delete_cluster] raised, in place of
    the error of [open].  With [create_new_cluster] false the error of
    [open] is raised as it is and nothing more is called. *)
Theorem main_open_failure_is_masked (env : Env) (fuel : nat) (project_id : string)
  (zone : PyVal) (name bucket_name : string) (pyspark_file : option string)
  (global_region : bool) (w w1 w2 : World Call) (region : string) (e : exn) :
  main_get_client env zone global_region w = Some (Ret region, w1) ->
  main_open env pyspark_file w1 = Some (Raise e, w2) ->
  main env fuel project_id zone name bucket_name pyspark_file true global_region w
  = Some (match delete_cluster_answer env (clock w2) with
          | Ret _ => Raise (UnboundLocalError "spark_file")
          | Raise e' => Raise e'
          end,
          after w2 1 [Print "Tearing down cluster.";
                      Sdk (rpc_delete_cluster project_id region name)])
  /\ main env fuel project_id zone name bucket_name pyspark_file false global_region w
     = Some (Raise e, w2).
Proof.
  intros H1 H2. unfold main. rewrite !(bind_step _ _ _ _ _ H1).
  unfold try_bind_finally. rewrite H2. unfold try_finally, raise, main_finally.
  split; [|reflexivity].
  unfold delete_cluster, bind. rewrite emit_after, call_after, after_after.
  rewrite after_clock, Nat.add_0_r.
  destruct (delete_cluster_answer env (clock w2)); reflexivity.
Qed.

Lemma main_open_failure_is_masked_witness :
  main no_file 1 "p" (PyStr "us-central1-a") "demo" "b" None true true start
  = Some (Raise (UnboundLocalError "spark_file"),
          after (after start 3 [Sdk (ClusterControllerClient "");
                                Sdk (JobControllerClient "");
                                Sdk (file_open "/srv/dataproc/pyspark_sort.py")])
            1 [Print "Tearing down cluster."; Sdk (rpc_delete_cluster "p" "global" "demo")]).
Proof.
  refine (proj1 (main_open_failure_is_masked no_file 1 "p" (PyStr "us-central1-a")
                   "demo" "b" None true start
                   (mkWorld 2 [Sdk (ClusterControllerClient "");
                               Sdk (JobControllerClient "")])
                   (after start 3 [Sdk (ClusterControllerClient "");
                                   Sdk (JobControllerClient "");
                                   Sdk (file_open "/srv/dataproc/pyspark_sort.py")])
                   "global" (LibraryError "FileNotFoundError") _ _));
    vm_compute; reflexivity.
Defined.

(** X9.  An error in the clean-up replaces the result of the run.  Once
    the [try] suite of [main] has ended, in a value or in an exception,
    and [create_new_cluster] is true: if [delete_cluster] raises, [main]
    raises that and the file is not closed; otherwise the file is closed,
    and if [close] raises, [main] raises that; only when both succeed
    does [main] end the way its [try] suite did. *)
Theorem main_cleanup_failure_replaces_result (env : Env) (fuel : nat)
  (project_id : string) (zone : PyVal) (name bucket_name : string)
  (pyspark_file : option string) (global_region : bool) (w w1 w2 w3 : World Call)
  (region spark_file spark_filename : string) (r : outcome string) :
  main_get_client env zone global_region w = Some (Ret region, w1) ->
  main_open env pyspark_file w1 = Some (Ret (spark_file, spark_filename), w2) ->
  main_try env fuel project_id zone name bucket_name true region
    (spark_file, spark_filename) w2 = Some (r, w3) ->
  main env fuel project_id zone name bucket_name pyspark_file true global_region w
  = match delete_cluster_answer env (clock w3) with
    | Raise e =>
        Some (Raise e,
              after w3 1 [Print "Tearing down cluster.";
                          Sdk (rpc_delete_cluster project_id region name)])
    | Ret _ =>
        Some (match close_answer env (S (clock w3)) with
              | Raise e => Raise e
              | Ret _ => r
              end,
              after w3 2 [Print "Tearing down cluster.";
                          Sdk (rpc_delete_cluster project_id region name);
                          Sdk (file_close spark_file)])
    end.
Proof.
  intros H1 H2 H3. unfold main. rewrite (bind_step _ _ _ _ _ H1).
  unfold try_bind_finally. rewrite H2. unfold try_finally. rewrite H3.
  unfold main_finally, delete_cluster, bind.
  rewrite emit_after, call_after, after_after, after_clock, Nat.add_0_r.
  destruct (delete_cluster_answer env (clock w3)); [|reflexivity].
  unfold ret. rewrite call_after, after_after, after_clock.
  replace (clock w3 + (0 + 1)) with (S (clock w3)) by lia.
  destruct (close_answer env (S (clock w3))) as [[]|e]; reflexivity.
Qed.

Lemma main_cleanup_failure_replaces_result_witness :
  main (fickle 15) 1 "p" (PyStr "us-central1-a") "demo" "b" None true true start
  = Some (Raise (LibraryError "ServiceUnavailable"),
          after body_end 1 [Print "Tearing down cluster.";
                            Sdk (rpc_delete_cluster "p" "global" "demo")]).
Proof.
  assert (main_try (fickle 15) 1 "p" (PyStr "us-central1-a") "demo" "b" true "global"
            ("/srv/dataproc/pyspark_sort.py", "pyspark_sort.py") opened
          = Some (Ret "1 2 3", body_end)) as Hbody by (vm_compute; reflexivity).
  assert (main_open (fickle 15) None
            (mkWorld 2 [Sdk (ClusterControllerClient ""); Sdk (JobControllerClient "")])
          = Some (Ret ("/srv/dataproc/pyspark_sort.py", "pyspark_sort.py"), opened))
    as Hopen by (vm_compute; reflexivity).
  assert (main_get_client (fickle 15) (PyStr "us-central1-a") true start
          = Some (Ret "global",
                  mkWorld 2 [Sdk (ClusterControllerClient "");
                             Sdk (JobControllerClient "")]))
    as Hclient by (vm_compute; reflexivity).
  exact (main_cleanup_failure_replaces_result (fickle 15) 1 "p" (PyStr "us-central1-a")
           "demo" "b" None true _ _ _ _ _ _ _ _ Hclient Hopen Hbody).
Defined.

(** *** The zone and its region *)

Lemma join_snoc (sep : ascii) (init : list string) (last : string) :
  init <> [] ->
  join (String sep EmptyString) (init ++ [last])
  = (join (String sep EmptyString) init ++ String sep last)%string.
Proof.
  induction init as [|x init IH]; [congruence|]. intros _.
  destruct init as [|y init].
  - reflexivity.
  - change ((x :: y :: init) ++ [last]) with (x :: ((y :: init) ++ [last])).
    rewrite join_cons by (destruct init; discriminate).
    rewrite IH by discriminate.
    rewrite (join_cons sep x (y :: init)) by discriminate.
    now rewrite string_append_assoc.
Qed.

(** X17.  A zone with a hyphen is its region, a hyphen and the last
    component.  For every string that contains a hyphen,
    [get_region_from_zone] returns a region such that the zone reads
    region, '-', rest, where the rest has no hyphen: only the last
    component is dropped, so the region is shorter than the zone by the
    rest and the hyphen. *)
Theorem zone_is_region_and_last_component (zone : string) :
  occurs hyphen zone = true ->
  exists region rest,
    get_region_from_zone (PyStr zone) = Ret region
    /\ occurs hyphen rest = false
    /\ zone = (region ++ "-" ++ rest)%string
    /\ String.length zone = String.length region + 1 + String.length rest.
Proof.
  intros Hz.
  pose proof (join_split hyphen zone) as Hjoin.
  pose proof (split_parts_free hyphen zone) as Hfree.
  pose proof (split_not_nil hyphen zone) as Hnil.
  destruct (exists_last Hnil) as (init & rest & Hparts).
  rewrite Hparts in Hjoin, Hfree.
  assert (occurs hyphen rest = false) as Hrest.
  { rewrite Forall_app in Hfree. destruct Hfree as [_ Hlast]. now inversion Hlast. }
  assert (init <> []) as Hinit.
  { intros ->. cbn in Hjoin. subst rest. congruence. }
  rewrite join_snoc in Hjoin by exact Hinit.
  exists (join "-" init), rest.
  assert (zone = (join "-" init ++ "-" ++ rest)%string) as Hzone
    by (symmetry; exact Hjoin).
  split.
  { unfold get_region_from_zone, py_split, try_except, but_last.
    now rewrite Hparts, removelast_last. }
  split; [exact Hrest|]. split; [exact Hzone|].
  rewrite Hzone at 1.
  assert (forall a b, String.length (a ++ b) = String.length a + String.length b)
    as Hlen by (induction a as [|x a IH]; intros b; cbn; [reflexivity|now rewrite IH]).
  rewrite !Hlen. cbn. lia.
Qed.

Lemma zone_is_region_and_last_component_witness :
  exists region rest,
    get_region_from_zone (PyStr "europe-west1-b") = Ret region
    /\ "europe-west1-b" = (region ++ "-" ++ rest)%string.
Proof.
  destruct (zone_is_region_and_last_component "europe-west1-b" eq_refl)
    as (region & rest & Hrun & _ & Hzone & _).
  now exists region, rest.
Defined.

End DataprocRunFacts.

(** ** genappbuilder/poll_operation_sample.py: sleeping and failing *)

Module PollSleepFacts.

Import PollOperation PollSleep Scenario2.

Lemma slept_app {C : Type} (t1 t2 : list (Effect C)) :
  slept (t1 ++ t2) = (slept t1 + slept t2)%Z.
Proof.
  induction t1 as [|[text|seconds|c] t1 IH]; cbn [app slept]; lia.
Qed.

Lemma slept_rounds (env : Env) (operation_name : string) (ops : list Operation) :
  slept (flat_map (pending_round env operation_name) ops)
  = (10 * Z.of_nat (length ops))%Z.
Proof.
  induction ops as [|op ops IH]; [reflexivity|].
  cbn [flat_map length]. rewrite slept_app, IH. cbn [pending_round slept]. lia.
Qed.

(** X10.  The time [poll_operation_sample] spends asleep is ten seconds
    for every poll but the last.  When every poll is answered, a run
    that returns after [n+1] polls has slept [10 * n] seconds in all,
    and not at all when the first answer is done. *)
Theorem poll_operation_sample_sleeps_ten_per_round (env : Env) (operation_name : string)
  (ops : nat -> Operation) (w : World Call) (fuel : nat) (r : outcome unit)
  (w' : World Call) :
  (forall k, get_operation_answer env (clock w + k) = Ret (ops k)) ->
  poll_operation_sample env fuel operation_name w = Some (r, w') ->
  exists n,
    clock w' = clock w + S n
    /\ done (ops n) = true
    /\ slept (trace w') = (slept (trace w) + 10 * Z.of_nat n)%Z.
Proof.
  intros Ha H.
  destruct (bounded_search (fun k => done (ops k)) fuel) as [Hall|(k & Hk & Hd)].
  - rewrite (PollOperationFacts.poll_operation_still_running env operation_name ops)
      in H; [discriminate|auto|exact Hall].
  - destruct (first_true (fun k => done (ops k)) k Hd) as (n & Hn & Hdn & Hlt).
    exists n.
    rewrite (PollOperationFacts.poll_operation_run env operation_name ops w n fuel)
      in H; auto; [|lia].
    inversion H; subst; clear H. split; [reflexivity|]. split; [exact Hdn|].
    rewrite after_trace, slept_app. f_equal.
    cbn [slept]. rewrite slept_app, slept_rounds, length_map, length_seq.
    cbn [slept]. lia.
Qed.

Lemma poll_operation_sample_sleeps_ten_per_round_witness :
  exists n w',
    poll_operation_sample (Scenario.slow_operation 2) 5 "operations/import-1"
      (mkWorld 0 []) = Some (Ret tt, w')
    /\ clock w' = S n
    /\ slept (trace w') = (10 * Z.of_nat n)%Z.
Proof.
  assert (poll_operation_sample (Scenario.slow_operation 2) 5 "operations/import-1"
            (mkWorld 0 [])
          = Some (Ret tt,
                  mkWorld 3
                    [Sdk DocumentServiceClient;
                     Sdk (get_operation "operations/import-1");
                     Print "operations/import-1"; Sleep 10;
                     Sdk (get_operation "operations/import-1");
                     Print "operations/import-1"; Sleep 10;
                     Sdk (get_operation "operations/import-1");
                     Print "operations/import-1"])) as Hrun by (vm_compute; reflexivity).
  destruct (poll_operation_sample_sleeps_ten_per_round (Scenario.slow_operation 2)
              "operations/import-1" (Scenario.operations 2) (mkWorld 0 []) 5 _ _
              (fun k => eq_refl) Hrun) as (n & Hclock & _ & Hslept).
  exists n. eexists. split; [exact Hrun|]. split; [exact Hclock|exact Hslept].
Defined.

(** X11.  [poll_operation_sample] does not retry a failed poll.  If the
    first [n] polls find the operation still running and poll [n]
    raises, the sample raises that exception at once: it has printed
    and slept [n] times, and neither prints nor sleeps after the failed
    call. *)
Theorem poll_operation_sample_does_not_retry (env : Env) (operation_name : string)
  (ops : nat -> Operation) (w : World Call) (n fuel : nat) (e : exn) :
  (forall k, k < n -> get_operation_answer env (clock w + k) = Ret (ops k)
                      /\ done (ops k) = false) ->
  get_operation_answer env (clock w + n) = Raise e ->
  n < fuel ->
  poll_operation_sample env fuel operation_name w
  = Some (Raise e,
          after w (S n)
            (Sdk DocumentServiceClient
               :: flat_map (pending_round env operation_name) (map ops (seq 0 n))
               ++ [Sdk (get_operation operation_name)])).
Proof.
  intros Hp Ha Hfuel. unfold poll_operation_sample, bind. rewrite emit_after.
  replace fuel with (n + S (fuel - S n)) by lia.
  rewrite (PollOperationFacts.poll_loop_pending env operation_name n _ ops).
  - cbn [poll_loop]. unfold bind. rewrite call_after, !after_clock.
    replace (clock w + 0 + n) with (clock w + n) by lia.
    rewrite Ha, !after_after. replace (0 + (n + 1)) with (S n) by lia. reflexivity.
  - intros k Hk. rewrite after_clock, Nat.add_0_r. now apply Hp.
Qed.

Lemma poll_operation_sample_does_not_retry_witness :
  poll_operation_sample broken_poll 9 "operations/import-1" (mkWorld 0 [])
  = Some (Raise (LibraryError "DeadlineExceeded"),
          after (mkWorld 0 []) 3
            (Sdk DocumentServiceClient
               :: flat_map (pending_round broken_poll "operations/import-1")
                    (map (fun _ => mkOperation "operations/import-1" false) (seq 0 2))
               ++ [Sdk (get_operation "operations/import-1")])).
Proof.
  apply (poll_operation_sample_does_not_retry broken_poll "operations/import-1"
           (fun _ => mkOperation "operations/import-1" false) (mkWorld 0 []) 2 9).
  - intros k Hk. destruct k as [|[|k]]; [split; reflexivity|split; reflexivity|lia].
  - reflexivity.
  - lia.
Defined.

End PollSleepFacts.

(** ** servicedirectory/snippets.py: deleting and resolving *)

Module ServiceDirectoryLookupFacts.

Import ServiceDirectory ServiceDirectoryLookup.




Section Runs.

Variable create_env : ServiceDirectory.Env.
Variable env : Env.










End Runs.






End ServiceDirectoryLookupFacts.

(** ** jobs/cjd_sample/histogram_sample.py *)

Module HistogramFacts.

Import Histogram Scenario2.

Section Runs.

Variable env : Env.

Lemma histogram_search_run (company_name : Name) (w : World Call) :
  histogram_search env company_name w
  = Some (match search_answer env (clock w) with
          | Ret _ => Ret tt
          | Raise e => Raise e
          end,
          after w 1
            (Sdk (jobs_search (search_request company_name))
               :: match search_answer env (clock w) with
                  | Ret response =>
                      [Print ("==========" ++ newline ++ response ++ newline
                                ++ "==========")%string]
                  | Raise _ => []
                  end)).
Proof.
  unfold histogram_search, bind. rewrite call_after.
  destruct (search_answer env (clock w)) as [response|e]; [|reflexivity].
  now rewrite emit_after, after_after.
Qed.

(** The run of [run_sample] up to the search, when the four calls
    before it succeed. *)
Lemma run_sample_created (w : World Call) (company : Company) (created : Created)
  (job : JobPosting) (posted : Created) :
  generate_company_answer env (clock w) = Ret company ->
  create_company_answer env (clock w + 1) = Ret created ->
  generate_job_answer env (clock w + 2) = Ret job ->
  create_job_answer env (clock w + 3) = Ret posted ->
  run_sample env w
  = (histogram_search env (get_name created) ;;
     call (delete_job (get_name posted)) (delete_job_answer env) ;;
     call (delete_company (get_name created)) (delete_company_answer env))
      (after w 4 [Sdk generate_company; Sdk (create_company company);
                  Sdk (generate_job_with_custom_attributes (get_name created));
                  Sdk (create_job job); Sleep 10]).
Proof.
  intros H0 H1 H2 H3. unfold run_sample.
  unfold bind at 1. rewrite call_after, H0.
  unfold bind at 1. rewrite call_after, after_clock, H1.
  unfold bind at 1. rewrite call_after, !after_clock.
  replace (clock w + 1 + 1) with (clock w + 2) by lia. rewrite H2.
  unfold bind at 1. rewrite call_after, !after_clock.
  replace (clock w + 1 + 1 + 1) with (clock w + 3) by lia. rewrite H3.
  unfold bind at 1. rewrite emit_after, !after_after. reflexivity.
Qed.

End Runs.

(** X15.  [run_sample] searches for, and then deletes, what it created.
    When the calls up to the search succeed, the search request carries
    the query {'company_names': [name]} for the name in the answer to
    [create_company], and no query at all when that answer has no
    'name'; an empty name still makes a query.  After printing the
    response the sample deletes the job and then the company, under the
    names in the two create answers; when [delete_job] raises, the
    company is not deleted. *)
Theorem run_sample_deletes_what_it_created (env : Env) (w : World Call)
  (company : Company) (created : Created) (job : JobPosting) (posted : Created)
  (response : string) :
  generate_company_answer env (clock w) = Ret company ->
  create_company_answer env (clock w + 1) = Ret created ->
  generate_job_answer env (clock w + 2) = Ret job ->
  create_job_answer env (clock w + 3) = Ret posted ->
  search_answer env (clock w + 4) = Ret response ->
  exists r w',
    run_sample env w = Some (r, w')
    /\ query (search_request (get_name created))
       = match get_name created with
         | Some name => Some [name]
         | None => None
         end
    /\ filter is_create (sdk_calls (skipn (length (trace w)) (trace w')))
       = [create_company company; create_job job]
    /\ filter is_delete (sdk_calls (skipn (length (trace w)) (trace w')))
       = match delete_job_answer env (clock w + 5) with
         | Ret _ => [delete_job (get_name posted); delete_company (get_name created)]
         | Raise _ => [delete_job (get_name posted)]
         end
    /\ r = match delete_job_answer env (clock w + 5) with
           | Ret _ => delete_company_answer env (clock w + 6)
           | Raise e => Raise e
           end
    /\ exists before later,
        skipn (length (trace w)) (trace w')
        = before
            ++ [Sleep 10; Sdk (jobs_search (search_request (get_name created)));
                Print ("==========" ++ newline ++ response ++ newline
                         ++ "==========")%string;
                Sdk (delete_job (get_name posted))]
            ++ later.
Proof.
  intros H0 H1 H2 H3 H4.
  rewrite (run_sample_created env w company created job posted H0 H1 H2 H3).
  unfold bind at 1. rewrite histogram_search_run, !after_clock, H4.
  unfold bind at 1. rewrite call_after, !after_clock.
  replace (clock w + 4 + 1) with (clock w + 5) by lia.
  destruct (delete_job_answer env (clock w + 5)) as [[]|e].
  - rewrite call_after, !after_clock.
    replace (clock w + 4 + 1 + 1) with (clock w + 6) by lia.
    rewrite !after_after. do 2 eexists. split; [reflexivity|].
    split; [destruct (get_name created); reflexivity|].
    rewrite after_trace, skipn_own_length.
    split; [reflexivity|]. split; [reflexivity|]. split; [reflexivity|].
    exists [Sdk generate_company; Sdk (create_company company);
            Sdk (generate_job_with_custom_attributes (get_name created));
            Sdk (create_job job)].
    eexists. reflexivity.
  - rewrite !after_after. do 2 eexists. split; [reflexivity|].
    split; [destruct (get_name created); reflexivity|].
    rewrite after_trace, skipn_own_length.
    split; [reflexivity|]. split; [reflexivity|]. split; [reflexivity|].
    exists [Sdk generate_company; Sdk (create_company company);
            Sdk (generate_job_with_custom_attributes (get_name created));
            Sdk (create_job job)].
    eexists. reflexivity.
Qed.

Lemma run_sample_deletes_what_it_created_witness :
  exists r w',
    run_sample search_up (mkWorld 0 []) = Some (r, w')
    /\ filter is_delete (sdk_calls (trace w'))
       = [delete_job (Some "jobs/1"); delete_company (Some "companies/1")].
Proof.
  destruct (run_sample_deletes_what_it_created search_up (mkWorld 0 []) "company"
              (mkCreated (Some "companies/1")) "job" (mkCreated (Some "jobs/1")) "{}"
              eq_refl eq_refl eq_refl eq_refl eq_refl)
    as (r & w' & Hrun & _ & _ & Hdeleted & _).
  exists r, w'. split; [exact Hrun|]. exact Hdeleted.
Defined.

(** X16.  [run_sample] has no clean-up on failure.  When the company
    and the job were created and the search raises, [run_sample] raises
    that exception at once: it prints nothing and calls neither
    [delete_job] nor [delete_company], so both stay behind. *)
Theorem run_sample_leaves_resources_when_search_fails (env : Env) (w : World Call)
  (company : Company) (created : Created) (job : JobPosting) (posted : Created)
  (e : exn) :
  generate_company_answer env (clock w) = Ret company ->
  create_company_answer env (clock w + 1) = Ret created ->
  generate_job_answer env (clock w + 2) = Ret job ->
  create_job_answer env (clock w + 3) = Ret posted ->
  search_answer env (clock w + 4) = Raise e ->
  exists w',
    run_sample env w = Some (Raise e, w')
    /\ w' = after w 5 [Sdk generate_company; Sdk (create_company company);
                       Sdk (generate_job_with_custom_attributes (get_name created));
                       Sdk (create_job job); Sleep 10;
                       Sdk (jobs_search (search_request (get_name created)))]
    /\ filter is_create (sdk_calls (skipn (length (trace w)) (trace w')))
       = [create_company company; create_job job]
    /\ filter is_delete (sdk_calls (skipn (length (trace w)) (trace w'))) = [].
Proof.
  intros H0 H1 H2 H3 H4. eexists. split; [|split; [reflexivity|]].
  - rewrite (run_sample_created env w company created job posted H0 H1 H2 H3).
    unfold bind. rewrite histogram_search_run, !after_clock, H4, !after_after.
    reflexivity.
  - rewrite after_trace, skipn_own_length.
    split; reflexivity.
Qed.

Lemma run_sample_leaves_resources_when_search_fails_witness :
  exists w',
    run_sample search_down (mkWorld 0 []) = Some (Raise (LibraryError "HttpError"), w')
    /\ filter is_delete (sdk_calls (trace w')) = [].
Proof.
  destruct (run_sample_leaves_resources_when_search_fails search_down (mkWorld 0 [])
              "company" (mkCreated (Some "companies/1")) "job"
              (mkCreated (Some "jobs/1")) (LibraryError "HttpError")
              eq_refl eq_refl eq_refl eq_refl eq_refl)
    as (w' & Hrun & _ & _ & Hdeleted).
  exists w'. split; [exact Hrun|exact Hdeleted].
Defined.

End HistogramFacts.

(** ** The import structure *)

Module RepositoryFacts.

Import Repository Reach.





End RepositoryFacts.
